(** * GunCon2 light-gun device model (pcsx2/USB/usb-lightgun/guncon2.cpp)

    A shallow embedding of the device-side logic of the emulated GunCon2:
    the per-title profile table, the coordinate mapper, the calibration
    timer, the two USB entry points, the input bindings and the save-state
    hook, followed by the properties of the specification stated and
    settled against these definitions.

    Conventions.
    - Fixed-width integers are [Z] with the wrap-around written out
      ([to_u16], [to_s16], [to_u32]).  Signed 32-bit arithmetic that would
      overflow and float-to-integer conversions that do not fit are
      undefined in C++; the embedding returns [None] there.
    - [float] is IEEE-754 binary32 and [double] binary64, both carried by
      [spec_float] with the operations of the standard library's
      [SpecFloat] at the matching precision (round to nearest even), each
      operation of the source rounded on its own.
    - Collaborators that live outside the file (pointer source, display
      translation, USB descriptor handling, settings store, console,
      save-state stream) are inputs of the model. *)

From Stdlib Require Import ZArith List Bool String Ascii Lia Permutation.
From Stdlib Require Import Floats.SpecFloat.
Import ListNotations.
Open Scope string_scope.
Open Scope list_scope.
Open Scope Z_scope.

(* ================================================================== *)
(** ** Option monad for undefined behaviour *)

Definition obind {A B : Type} (m : option A) (k : A -> option B) : option B :=
  match m with
  | Some a => k a
  | None => None
  end.

Notation "x <- m ;; k" := (obind m (fun x => k))
  (at level 61, m at next level, right associativity).
Notation "' pat <- m ;; k" := (obind m (fun x => match x with pat => k end))
  (at level 61, pat pattern, m at next level, right associativity).

(* ================================================================== *)
(** ** Fixed-width integers *)

Module Int.

Definition to_u16 (z : Z) : Z := z mod 65536.
Definition to_u32 (z : Z) : Z := z mod 4294967296.
Definition to_s16 (z : Z) : Z := (z + 32768) mod 65536 - 32768.

Definition in_s32 (z : Z) : bool := (-2147483648 <=? z) && (z <=? 2147483647).

(** Result of a signed 32-bit operation whose exact value is [z]. *)
Definition s32_checked (z : Z) : option Z :=
  if in_s32 z then Some z else None.

(** [~x] on a [u32]. *)
Definition u32_not (x : Z) : Z := to_u32 (Z.lnot x).

(** [1u << n]. *)
Definition bit (n : Z) : Z := to_u32 (Z.shiftl 1 n).

End Int.

(* ================================================================== *)
(** ** Floating point: binary32 and binary64 *)

Module FloatFmt.

(** Operations shared by both formats, at precision [prec] and exponent
    bound [emax]. *)
Section Format.
Variables prec emax : Z.

Definition of_Z (z : Z) : spec_float := binary_normalize prec emax z 0 false.

(** Conversion of a value of another format: exact when widening, rounded
    to nearest even when narrowing. *)
Definition convert (x : spec_float) : spec_float :=
  match x with
  | S754_finite s m e => binary_round prec emax s m e
  | _ => x
  end.

(** A decimal literal [num / den] with both parts exactly representable:
    the correctly rounded quotient is the literal's value. *)
Definition lit (num den : Z) : spec_float :=
  SFdiv prec emax (of_Z num) (of_Z den).

(** [std::round]: nearest integral value, halfway cases away from zero. *)
Definition round (x : spec_float) : spec_float :=
  match x with
  | S754_finite s m e =>
      if 0 <=? e then x
      else
        let q := Z.shiftr (Zpos m) (- e) in
        let r := Zpos m - Z.shiftl q (- e) in
        let q' := if Z.shiftl 1 (- e - 1) <=? r then q + 1 else q in
        match q' with
        | Z0 => S754_zero s
        | _ => binary_normalize prec emax (cond_Zopp s q') 0 false
        end
  | _ => x
  end.

End Format.

(** Truncation toward zero of a finite value; [None] on NaN and
    infinities. *)
Definition trunc (x : spec_float) : option Z :=
  match x with
  | S754_zero _ => Some 0
  | S754_finite s m e =>
      Some (cond_Zopp s (if 0 <=? e then Z.shiftl (Zpos m) e
                         else Z.shiftr (Zpos m) (- e)))
  | _ => None
  end.

(** [static_cast<s32>(x)]: undefined unless the truncated value fits. *)
Definition to_s32 (x : spec_float) : option Z :=
  z <- trunc x ;; Int.s32_checked z.

End FloatFmt.

Module F32.
Definition prec : Z := 24.
Definition emax : Z := 128.
Definition add := SFadd prec emax.
Definition sub := SFsub prec emax.
Definition mul := SFmul prec emax.
Definition div := SFdiv prec emax.
Definition neg := SFopp.
Definition ltb := SFltb.
Definition leb := SFleb.
Definition eqb := SFeqb.
Definition of_Z := FloatFmt.of_Z prec emax.
Definition of_double := FloatFmt.convert prec emax.
Definition lit := FloatFmt.lit prec emax.
Definition round := FloatFmt.round prec emax.
Definition to_s32 := FloatFmt.to_s32.
Definition zero : spec_float := S754_zero false.
Definition one : spec_float := of_Z 1.
Definition half : spec_float := lit 5 10.
End F32.

Module F64.
Definition prec : Z := 53.
Definition emax : Z := 1024.
Definition add := SFadd prec emax.
Definition mul := SFmul prec emax.
Definition neg := SFopp.
Definition of_Z := FloatFmt.of_Z prec emax.
Definition of_float := FloatFmt.convert prec emax.
Definition lit := FloatFmt.lit prec emax.
End F64.

Definition float := spec_float.
Definition double := spec_float.

(* ================================================================== *)
(** ** Constants, button identifiers and the report layout *)

Definition GUNCON2_FLAG_PROGRESSIVE : Z := 0x0100.
Definition GUNCON2_CALIBRATION_DELAY : Z := 12.
Definition GUNCON2_CALIBRATION_REPORT_DELAY : Z := 5.

Definition BID_C : Z := 1.
Definition BID_B : Z := 2.
Definition BID_A : Z := 3.
Definition BID_DPAD_UP : Z := 4.
Definition BID_DPAD_RIGHT : Z := 5.
Definition BID_DPAD_DOWN : Z := 6.
Definition BID_DPAD_LEFT : Z := 7.
Definition BID_TRIGGER : Z := 13.
Definition BID_SELECT : Z := 14.
Definition BID_START : Z := 15.
Definition BID_SHOOT_OFFSCREEN : Z := 16.
Definition BID_RECALIBRATE : Z := 17.
Definition BID_RELATIVE_LEFT : Z := 18.
Definition BID_RELATIVE_RIGHT : Z := 19.
Definition BID_RELATIVE_UP : Z := 20.
Definition BID_RELATIVE_DOWN : Z := 21.

(** [union GunCon2Out]: the three packed fields, and [bits], the same six
    bytes seen as [u8 bits[6]] (little endian). *)
Record GunCon2Out : Type := mkOut {
  buttons : Z;   (* u16 *)
  pos_x : Z;     (* s16 *)
  pos_y : Z      (* s16 *)
}.

Definition le16 (z : Z) : list Z :=
  [Int.to_u16 z mod 256; Int.to_u16 z / 256].

Definition bits (o : GunCon2Out) : list Z :=
  le16 (buttons o) ++ le16 (pos_x o) ++ le16 (pos_y o).

(* ================================================================== *)
(** ** The per-title profile table *)

Record GameConfig : Type := mkGameConfig {
  gc_serial : string;
  gc_scale_x : float;
  gc_scale_y : float;
  gc_center_x : Z;        (* u32 *)
  gc_center_y : Z;
  gc_screen_width : Z;    (* u32 *)
  gc_screen_height : Z
}.

Definition s_game_config : list GameConfig := [
  mkGameConfig "SLES-50930" (F32.lit 9025 100) (F32.lit 945 10) 390 132 640 256;
  mkGameConfig "SLES-51095" (F32.lit 9025 100) (F32.lit 945 10) 390 132 640 256;
  mkGameConfig "SLES-51096" (F32.lit 9025 100) (F32.lit 945 10) 390 132 640 256;
  mkGameConfig "SLUS-20485" (F32.lit 9025 100) (F32.lit 925 10) 390 132 640 240;
  mkGameConfig "SLUS-20389" (F32.lit 8925 100) (F32.lit 935 10) 422 141 640 240;
  mkGameConfig "SLES-50936" (F32.of_Z 112) (F32.of_Z 100) 320 120 512 256;
  mkGameConfig "SLPM-65139" (F32.of_Z 90) (F32.lit 915 10) 320 120 640 240;
  mkGameConfig "SLES-52620" (F32.lit 895 10) (F32.lit 1123 10) 390 147 640 256;
  mkGameConfig "SLES-51289" (F32.lit 845 10) (F32.of_Z 89) 456 164 640 256;
  mkGameConfig "SLPS-25165" (F32.lit 9025 100) (F32.of_Z 98) 390 138 640 240;
  mkGameConfig "SCES-50889" (F32.lit 9025 100) (F32.lit 945 10) 390 169 640 256;
  mkGameConfig "SLPS-20218" (F32.of_Z 90) (F32.of_Z 92) 320 134 640 240;
  mkGameConfig "SLUS-20492" (F32.lit 9025 100) (F32.lit 925 10) 390 132 640 240;
  mkGameConfig "SLES-50650" (F32.lit 9025 100) (F32.of_Z 107) 425 135 640 240;
  mkGameConfig "SLES-51448" (F32.lit 9025 100) (F32.of_Z 95) 420 132 640 240;
  mkGameConfig "SLUS-20669" (F32.lit 9025 100) (F32.lit 935 10) 420 132 640 240;
  mkGameConfig "SLES-51617" (F32.lit 9025 100) (F32.of_Z 82) 200 154 640 256;
  mkGameConfig "SLUS-20619" (F32.lit 9025 100) (F32.lit 9175 100) 453 154 640 256;
  mkGameConfig "SCES-50300" (F32.lit 9025 100) (F32.lit 10275 100) 390 138 640 256;
  mkGameConfig "SLUS-20219" (F32.lit 9025 100) (F32.lit 975 10) 390 154 640 240;
  mkGameConfig "SCES-51844" (F32.lit 9025 100) (F32.lit 10275 100) 390 138 640 256;
  mkGameConfig "SLUS-20645" (F32.lit 9025 100) (F32.lit 975 10) 390 154 640 240;
  mkGameConfig "SCES-52530" (F32.lit 9025 100) (F32.of_Z 99) 390 153 640 256;
  mkGameConfig "SLUS-20927" (F32.lit 9025 100) (F32.of_Z 99) 390 153 640 240;
  mkGameConfig "SCES-50411" (F32.lit 898 10) (F32.lit 999 10) 421 138 640 256;
  mkGameConfig "SLPS-25077" (F32.of_Z 90) (F32.lit 975 10) 422 118 640 240;
  mkGameConfig "SLUS-20221" (F32.lit 898 10) (F32.lit 1025 10) 452 137 640 228;
  mkGameConfig "SLES-51229" (F32.lit 11015 100) (F32.of_Z 100) 433 159 512 256
].

Definition DEFAULT_SCREEN_WIDTH : Z := 640.
Definition DEFAULT_SCREEN_HEIGHT : Z := 240.
Definition DEFAULT_CENTER_X : float := F32.of_Z 320.
Definition DEFAULT_CENTER_Y : float := F32.of_Z 120.
Definition DEFAULT_SCALE_X : float := F32.of_Z 100.
Definition DEFAULT_SCALE_Y : float := F32.of_Z 100.

(* ================================================================== *)
(** ** Device state

    [struct GunCon2State], grouped as the source's banner comments group
    it.  The USB core's own record ([dev], [desc], [desc_dev]), the cursor
    image settings and the thread handles carry no device logic and are
    left out. *)

(** "Configuration". *)
Record Configuration : Type := mkConfiguration {
  has_relative_binds : bool;
  custom_config : bool;
  split_screen_hack : bool;
  split_screen_full_stretch : bool;
  screen_width : Z;     (* u32 *)
  screen_height : Z;    (* u32 *)
  center_x : float;
  center_y : float;
  scale_x : float;
  scale_y : float;
  calibrated : bool
}.

(** [float relative_pos[4]]. *)
Record float4 : Type := mkFloat4 { rel0 : float; rel1 : float; rel2 : float; rel3 : float }.

(** "Host State (Not Saved)". *)
Record HostState : Type := mkHostState {
  button_state : Z;     (* u32 *)
  relative_pos : float4
}.

(** "Device State (Saved)". *)
Record SavedState : Type := mkSavedState {
  param_x : Z;            (* s16 *)
  param_y : Z;            (* s16 *)
  param_mode : Z;         (* u16 *)
  calibration_timer : Z;  (* u16 *)
  calibration_pos_x : Z;  (* s16 *)
  calibration_pos_y : Z;  (* s16 *)
  auto_config_done : bool
}.

(** Split-screen detection, written by the background thread. *)
Record SplitScreenState : Type := mkSplitScreenState {
  active_game : string;
  splitscreen_activated : bool
}.

(** "for udev". *)
Record UdevState : Type := mkUdevState {
  udev_fd : Z;
  udev_internalGunX : float;
  udev_internalGunY : float;
  udev_gunMinx : Z;
  udev_gunMiny : Z;
  udev_gunMaxx : Z;
  udev_gunMaxy : Z
}.

Record GunCon2State : Type := mkGunCon2State {
  port : Z;
  cfg : Configuration;
  host : HostState;
  saved : SavedState;
  split : SplitScreenState;
  udev : UdevState
}.

(** The state a constructor call [GunCon2State(port_)] leaves behind (the
    member initialisers of the struct, [udev_fd = -1], gun position 0). The
    udev axis ranges are not initialised by the constructor; they are
    inputs. *)
Definition GunCon2State_new (port_ : Z) (minx miny maxx maxy : Z) : GunCon2State :=
  mkGunCon2State port_
    (mkConfiguration false false false false 640 240
       (F32.of_Z 320) (F32.of_Z 120) (F32.of_Z 1) (F32.of_Z 1) false)
    (mkHostState 0 (mkFloat4 F32.zero F32.zero F32.zero F32.zero))
    (mkSavedState 0 0 0 0 0 0 false)
    (mkSplitScreenState "" false)
    (mkUdevState (-1) F32.zero F32.zero minx miny maxx maxy).

(** Field updates. *)
Definition with_cfg (c : Configuration) (s : GunCon2State) : GunCon2State :=
  mkGunCon2State (port s) c (host s) (saved s) (split s) (udev s).
Definition with_host (h : HostState) (s : GunCon2State) : GunCon2State :=
  mkGunCon2State (port s) (cfg s) h (saved s) (split s) (udev s).
Definition with_saved (d : SavedState) (s : GunCon2State) : GunCon2State :=
  mkGunCon2State (port s) (cfg s) (host s) d (split s) (udev s).
Definition with_split (g : SplitScreenState) (s : GunCon2State) : GunCon2State :=
  mkGunCon2State (port s) (cfg s) (host s) (saved s) g (udev s).
Definition with_udev (u : UdevState) (s : GunCon2State) : GunCon2State :=
  mkGunCon2State (port s) (cfg s) (host s) (saved s) (split s) u.

Definition set_button_state (b : Z) (s : GunCon2State) : GunCon2State :=
  with_host (mkHostState b (relative_pos (host s))) s.
Definition set_relative_pos (r : float4) (s : GunCon2State) : GunCon2State :=
  with_host (mkHostState (button_state (host s)) r) s.
Definition set_calibrated (b : bool) (s : GunCon2State) : GunCon2State :=
  let c := cfg s in
  with_cfg (mkConfiguration (has_relative_binds c) (custom_config c)
              (split_screen_hack c) (split_screen_full_stretch c)
              (screen_width c) (screen_height c) (center_x c) (center_y c)
              (scale_x c) (scale_y c) b) s.

(** The six geometry fields, as one value. *)
Record ScreenProfile : Type := mkProfile {
  p_scale_x : float;
  p_scale_y : float;
  p_center_x : float;
  p_center_y : float;
  p_screen_width : Z;
  p_screen_height : Z
}.

Definition profile_of (s : GunCon2State) : ScreenProfile :=
  let c := cfg s in
  mkProfile (scale_x c) (scale_y c) (center_x c) (center_y c)
            (screen_width c) (screen_height c).

Definition set_profile (p : ScreenProfile) (s : GunCon2State) : GunCon2State :=
  let c := cfg s in
  with_cfg (mkConfiguration (has_relative_binds c) (custom_config c)
              (split_screen_hack c) (split_screen_full_stretch c)
              (p_screen_width p) (p_screen_height p) (p_center_x p) (p_center_y p)
              (p_scale_x p) (p_scale_y p) (calibrated c)) s.


(** The title-supplied offset and mode. *)
Record DeviceParams : Type := mkParams { dp_x : Z; dp_y : Z; dp_mode : Z }.

Definition params_of (s : GunCon2State) : DeviceParams :=
  mkParams (param_x (saved s)) (param_y (saved s)) (param_mode (saved s)).

Definition set_params (x y m : Z) (s : GunCon2State) : GunCon2State :=
  let d := saved s in
  with_saved (mkSavedState x y m (calibration_timer d) (calibration_pos_x d)
                (calibration_pos_y d) (auto_config_done d)) s.

Definition set_calibration (t x y : Z) (s : GunCon2State) : GunCon2State :=
  let d := saved s in
  with_saved (mkSavedState (param_x d) (param_y d) (param_mode d) t x y
                (auto_config_done d)) s.

Definition set_calibration_timer (t : Z) (s : GunCon2State) : GunCon2State :=
  set_calibration t (calibration_pos_x (saved s)) (calibration_pos_y (saved s)) s.

Definition set_auto_config_done (b : bool) (s : GunCon2State) : GunCon2State :=
  let d := saved s in
  with_saved (mkSavedState (param_x d) (param_y d) (param_mode d)
                (calibration_timer d) (calibration_pos_x d) (calibration_pos_y d) b) s.

Definition set_active_game (g : string) (s : GunCon2State) : GunCon2State :=
  with_split (mkSplitScreenState g (splitscreen_activated (split s))) s.

Definition set_udev_gun_x (x : float) (s : GunCon2State) : GunCon2State :=
  let u := udev s in
  with_udev (mkUdevState (udev_fd u) x (udev_internalGunY u)
               (udev_gunMinx u) (udev_gunMiny u) (udev_gunMaxx u) (udev_gunMaxy u)) s.
Definition set_udev_gun_y (y : float) (s : GunCon2State) : GunCon2State :=
  let u := udev s in
  with_udev (mkUdevState (udev_fd u) (udev_internalGunX u) y
               (udev_gunMinx u) (udev_gunMiny u) (udev_gunMaxx u) (udev_gunMaxy u)) s.

(* ================================================================== *)
(** ** Collaborators *)

Definition u8 (b : Byte.byte) : Z := Z.of_N (Byte.to_N b).

Definition byte_of_Z (z : Z) : Byte.byte :=
  match Byte.of_N (Z.to_N (z mod 256)) with
  | Some b => b
  | None => Byte.x00
  end.

Definition bytes_of (l : list Z) : list Byte.byte := map byte_of_Z l.

Inductive usb_pid : Type :=
| USB_TOKEN_IN
| USB_TOKEN_OUT
| USB_TOKEN_OTHER (n : Z).

Inductive usb_status : Type :=
| USB_RET_SUCCESS
| USB_RET_STALL.

(** What the handlers use of a [USBPacket]: the token, the endpoint number,
    the completion status and the bytes copied into the transfer. *)
Record USBPacket : Type := mkPacket {
  pid : usb_pid;
  ep_nr : Z;
  status : usb_status;
  payload : list Byte.byte
}.

Definition set_status (st : usb_status) (p : USBPacket) : USBPacket :=
  mkPacket (pid p) (ep_nr p) st (payload p).

Definition usb_packet_copy (p : USBPacket) (bytes : list Byte.byte) : USBPacket :=
  mkPacket (pid p) (ep_nr p) (status p) (payload p ++ bytes).

(** The host side as one call sees it: the pointer source, the window and
    display geometry, the running title, the USB core's descriptor handler
    and the one request-code constant of its header. *)
Record Host : Type := mkHost {
  GetPointerAbsolutePosition : float * float;
  GetWindowWidth : float;
  GetWindowHeight : float;
  GSTranslateWindowToDisplayCoordinates : float -> float -> float * float;
  gs_GetWindowWidth : Z;    (* s32 *)
  gs_GetWindowHeight : Z;   (* s32 *)
  GetDiscSerial : string;
  usb_desc_handle_control :
    USBPacket -> Z -> Z -> Z -> Z -> list Byte.byte -> Z * USBPacket;
  ClassInterfaceOutRequest : Z
}.

(** Console output, one constructor per message of the file. *)
Inductive ConsoleMsg : Type :=
| MsgControlRequest (request value index length : Z)
| MsgSetParam (mode x y : Z)
| MsgUsingAutomaticConfig (serial : string)
| MsgScale (sx sy : float)
| MsgCenterPosition (cx cy : float)
| MsgScreenSize (w h : Z)
| WarnNoAutomaticConfig (serial : string)
| ErrUnhandledRequest (p : usb_pid) (ep : Z).

(** Events of the raw gun device ([struct input_event]), by type and
    code. *)
Inductive key_code : Type := BTN_LEFT | BTN_RIGHT | BTN_MIDDLE | KEY_OTHER (c : Z).
Inductive abs_code : Type := ABS_X | ABS_Y | ABS_OTHER (c : Z).
Inductive input_event : Type :=
| EV_KEY (code : key_code) (value : Z)
| EV_ABS (code : abs_code) (value : Z)
| EV_OTHER (type code value : Z).

(** The per-port settings lookups [USB::GetConfigBool/Int/Float] and
    [USB::ConfigKeyExists], each by key (and default). *)
Record SettingsInterface : Type := mkSettings {
  GetConfigBool : string -> bool -> bool;
  GetConfigInt : string -> Z -> Z;
  GetConfigFloat : string -> float -> float;
  ConfigKeyExists : string -> bool
}.

(* ================================================================== *)
(** ** Raw gun input *)

Definition updateState (bid : Z) (pressed : bool) (us : GunCon2State) : GunCon2State :=
  let b := Int.bit bid in
  if pressed
  then set_button_state (Z.lor (button_state (host us)) b) us
  else set_button_state (Z.land (button_state (host us)) (Int.u32_not b)) us.

Definition udev_has (us : GunCon2State) : bool :=
  negb (udev_fd (udev us) =? -1).

(** [((value - min) / (float)(max - min)) * window_extent]. *)
Definition udev_scale_axis (value lo hi extent : Z) : option float :=
  a <- Int.s32_checked (value - lo) ;;
  b <- Int.s32_checked (hi - lo) ;;
  Some (F32.mul (F32.div (F32.of_Z a) (F32.of_Z b)) (F32.of_Z extent)).

Definition udev_handle_event (h : Host) (us : GunCon2State) (event : input_event)
  : option GunCon2State :=
  match event with
  | EV_KEY BTN_LEFT value =>
      let us := updateState BID_TRIGGER (negb (value =? 0)) us in
      Some (if negb (calibrated (cfg us))
            then updateState BID_RECALIBRATE (negb (value =? 0)) us
            else us)
  | EV_KEY BTN_RIGHT value =>
      Some (set_calibrated true (updateState BID_A (negb (value =? 0)) us))
  | EV_KEY BTN_MIDDLE value =>
      Some (updateState BID_B (negb (value =? 0)) us)
  | EV_KEY (KEY_OTHER _) _ => Some us
  | EV_ABS ABS_X value =>
      x <- udev_scale_axis value (udev_gunMinx (udev us)) (udev_gunMaxx (udev us))
             (gs_GetWindowWidth h) ;;
      Some (set_udev_gun_x x us)
  | EV_ABS ABS_Y value =>
      y <- udev_scale_axis value (udev_gunMiny (udev us)) (udev_gunMaxy (udev us))
             (gs_GetWindowHeight h) ;;
      Some (set_udev_gun_y y us)
  | EV_ABS (ABS_OTHER _) _ => Some us
  | EV_OTHER _ _ _ => Some us
  end.

(** [udev_poll_gun]: every pending event, in order.  [events] is what the
    non-blocking reads of this call return. *)
Fixpoint udev_poll_gun (h : Host) (events : list input_event) (us : GunCon2State)
  : option GunCon2State :=
  match events with
  | [] => Some us
  | ev :: rest => us' <- udev_handle_event h us ev ;; udev_poll_gun h rest us'
  end.

(* ================================================================== *)
(** ** Profile selection *)

(** The loop of [AutoConfigure] over a table. *)
Fixpoint AutoConfigure_scan (table : list GameConfig) (serial : string)
  (s : GunCon2State) : GunCon2State * list ConsoleMsg :=
  match table with
  | [] => (s, [WarnNoAutomaticConfig serial])
  | gc :: rest =>
      if negb (String.eqb serial (gc_serial gc))
      then AutoConfigure_scan rest serial s
      else
        let s := set_active_game serial s in
        let sx := F32.div (gc_scale_x gc) (F32.of_Z 100) in
        let sy := F32.div (gc_scale_y gc) (F32.of_Z 100) in
        let cx := F32.of_Z (gc_center_x gc) in
        let cy := F32.of_Z (gc_center_y gc) in
        (set_profile (mkProfile sx sy cx cy (gc_screen_width gc) (gc_screen_height gc)) s,
         [MsgUsingAutomaticConfig serial; MsgScale sx sy; MsgCenterPosition cx cy;
          MsgScreenSize (gc_screen_width gc) (gc_screen_height gc)])
  end.

Definition AutoConfigure (h : Host) (s : GunCon2State) : GunCon2State * list ConsoleMsg :=
  AutoConfigure_scan s_game_config (GetDiscSerial h) s.

(* ================================================================== *)
(** ** Coordinate mapper *)

Definition rel_get (r : float4) (i : Z) : float :=
  if i =? 0 then rel0 r else if i =? 1 then rel1 r
  else if i =? 2 then rel2 r else rel3 r.

Definition rel_set (r : float4) (i : Z) (v : float) : float4 :=
  if i =? 0 then mkFloat4 v (rel1 r) (rel2 r) (rel3 r)
  else if i =? 1 then mkFloat4 (rel0 r) v (rel2 r) (rel3 r)
  else if i =? 2 then mkFloat4 (rel0 r) (rel1 r) v (rel3 r)
  else mkFloat4 (rel0 r) (rel1 r) (rel2 r) v.

Definition GetAbsolutePositionFromRelativeAxes (h : Host) (s : GunCon2State)
  : float * float :=
  let r := relative_pos (host s) in
  let screen_rel_x :=
    F32.mul (F32.add (if F32.ltb F32.zero (rel_get r 1) then rel_get r 1
                      else F32.neg (rel_get r 0)) F32.one) F32.half in
  let screen_rel_y :=
    F32.mul (F32.add (if F32.ltb F32.zero (rel_get r 3) then rel_get r 3
                      else F32.neg (rel_get r 2)) F32.one) F32.half in
  (F32.mul screen_rel_x (GetWindowWidth h), F32.mul screen_rel_y (GetWindowHeight h)).

(** First stage of [CalculatePosition]: the pointer sample, normalised to
    the display. *)
Definition CalculatePosition_pointer (h : Host) (s : GunCon2State) : float * float :=
  let '(window_x, window_y) :=
    if has_relative_binds (cfg s)
    then GetAbsolutePositionFromRelativeAxes h s
    else GetPointerAbsolutePosition h in
  if udev_has s
  then GSTranslateWindowToDisplayCoordinates h
         (udev_internalGunX (udev s)) (udev_internalGunY (udev s))
  else GSTranslateWindowToDisplayCoordinates h window_x window_y.

(** [float v = 0.035;]: a [double] literal narrowed to [float]. *)
Definition flit (num den : Z) : float := F32.of_double (F64.lit num den).

(** One per-title, per-port block of the split-screen aim adjustment. *)
Definition split_adjust (xmin xmax ymin ymax : float) (gain : double)
  (pointer_y2 : float) (p : float * float) : float * float :=
  let '(pointer_x, pointer_y) := p in
  let pointer_x := F32.add (F32.mul pointer_x (F32.sub xmax xmin)) xmin in
  let pointer_y := F32.add (F32.mul pointer_y (F32.sub ymax ymin)) ymin in
  let pointer_y :=
    if F32.ltb (F32.of_Z 0) pointer_y && F32.ltb pointer_y (F32.of_Z 1)
    then F32.of_double
           (F64.add (F64.of_float pointer_y)
              (F64.mul
                 (F64.add
                    (F64.mul (F64.neg (F64.lit 4 100))
                       (F64.of_float (F32.mul pointer_y2 pointer_y2)))
                    (F64.mul (F64.lit 4 100) (F64.of_float pointer_y2)))
                 gain))
    else pointer_y in
  (pointer_x, pointer_y).

Definition when {A : Type} (c : bool) (f : A -> A) (a : A) : A :=
  if c then f a else a.

(** Second stage: the aim adjustment for the two-player Time Crisis
    titles while split screen is detected. *)
Definition CalculatePosition_splitscreen (s : GunCon2State) (p : float * float)
  : float * float :=
  let g := active_game (split s) in
  let pointer_y2 := snd p in
  if ((g =? "SLUS-20219") || (g =? "SCES-50300") || (g =? "SCES-51844")
      || (g =? "SLUS-20645"))%string && splitscreen_activated (split s)
  then
    let p :=
      when (g =? "SLUS-20219")%string (fun p =>
        let p := when (port s =? 0)
                   (split_adjust (flit 35 1000) (flit 9035 10000)
                      (flit 25 100) (flit 69 100) (F64.lit 27 10) pointer_y2) p in
        when (port s =? 1)
          (split_adjust (flit 93 1000) (flit 970 1000)
             (flit 247 1000) (flit 690 1000) (F64.lit 27 10) pointer_y2) p) p in
    let p :=
      when (g =? "SCES-50300")%string (fun p =>
        let p := when (port s =? 0)
                   (split_adjust (flit 2798462 100000000) (flit 90 100)
                      (flit 25 100) (flit 6950202 10000000) (F64.lit 27 10) pointer_y2) p in
        when (port s =? 1)
          (split_adjust (flit 93 1000) (flit 970 1000)
             (flit 247 1000) (flit 690 1000) (F64.lit 27 10) pointer_y2) p) p in
    let p :=
      when (g =? "SCES-51844")%string (fun p =>
        let p := when (port s =? 0)
                   (split_adjust (flit 35 1000) (flit 9035 10000)
                      (flit 247 1000) (flit 690 1000) (F64.of_Z 3) pointer_y2) p in
        when (port s =? 1)
          (split_adjust (flit 95 1000) (flit 97 100)
             (flit 247 1000) (flit 690 1000) (F64.of_Z 3) pointer_y2) p) p in
    when (g =? "SLUS-20645")%string (fun p =>
      let p := when (port s =? 0)
                 (split_adjust (flit 35 1000) (flit 9035 10000)
                    (flit 247 1000) (flit 690 1000) (F64.lit 31 10) pointer_y2) p in
      when (port s =? 1)
        (split_adjust (flit 95 1000) (flit 97 100)
           (flit 247 1000) (flit 690 1000) (F64.lit 31 10) pointer_y2) p) p
  else p.

(** The value of one axis before the clamp: scale to the title's screen,
    re-centre, round, convert to [s32]. *)
Definition scaled_axis (pointer : float) (extent : Z) (scale center : float) : option Z :=
  let f := F32.sub (F32.mul pointer (F32.of_Z extent)) (F32.of_Z (extent / 2)) in
  let f := F32.mul f scale in
  F32.to_s32 (F32.round (F32.add f center)).

(** The title-configured offset of one axis. *)
Definition param_offset (mode param : Z) : Z :=
  if negb (Z.land mode GUNCON2_FLAG_PROGRESSIVE =? 0)
  then Z.quot param 2
  else param.

(** Both axes after the offset and before the clamp, as [s32]. *)
Definition CalculatePosition_raw (s : GunCon2State) (pointer_x pointer_y : float)
  : option (Z * Z) :=
  let c := cfg s in
  x <- scaled_axis pointer_x (screen_width c) (scale_x c) (center_x c) ;;
  y <- scaled_axis pointer_y (screen_height c) (scale_y c) (center_y c) ;;
  x <- Int.s32_checked (x - param_offset (param_mode (saved s)) (param_x (saved s))) ;;
  y <- Int.s32_checked (y - param_offset (param_mode (saved s)) (param_y (saved s))) ;;
  Some (x, y).

(** Third stage: off-screen test, mapping, clamp and narrowing. *)
Definition CalculatePosition_map (s : GunCon2State) (pointer_x pointer_y : float)
  : option (Z * Z) :=
  if F32.ltb pointer_x F32.zero || F32.ltb pointer_y F32.zero
  then Some (0, 0)
  else
    '(x, y) <- CalculatePosition_raw s pointer_x pointer_y ;;
    Some (Int.to_s16 (Z.max x 1), Int.to_s16 (Z.max y 1)).

Definition CalculatePosition (h : Host) (s : GunCon2State) : option (Z * Z) :=
  let '(pointer_x, pointer_y) :=
    CalculatePosition_splitscreen s (CalculatePosition_pointer h s) in
  CalculatePosition_map s pointer_x pointer_y.

(* ================================================================== *)
(** ** Control transfers *)

Definition guncon2_handle_control (h : Host) (p : USBPacket)
  (request value index length : Z) (data : list Byte.byte) (s : GunCon2State)
  : option (GunCon2State * USBPacket * list ConsoleMsg) :=
  (* Apply configuration on the first control packet. *)
  let '(us, log) :=
    if negb (auto_config_done (saved s)) && negb (custom_config (cfg s))
    then let '(s', l) := AutoConfigure h s in (set_auto_config_done true s', l)
    else (s, []) in
  let log := log ++ [MsgControlRequest request value index length] in
  let '(ret, p) := usb_desc_handle_control h p request value index length data in
  if 0 <=? ret then Some (us, p, log)
  else if request =? Z.lor (ClassInterfaceOutRequest h) 0x09 then
    d0 <- nth_error data 0 ;;
    d1 <- nth_error data 1 ;;
    d2 <- nth_error data 2 ;;
    d3 <- nth_error data 3 ;;
    d4 <- nth_error data 4 ;;
    d5 <- nth_error data 5 ;;
    let x := Int.to_s16 (Z.lor (u8 d0) (Z.shiftl (u8 d1) 8)) in
    let y := Int.to_s16 (Z.lor (u8 d2) (Z.shiftl (u8 d3) 8)) in
    let m := Int.to_u16 (Z.lor (u8 d4) (Z.shiftl (u8 d5) 8)) in
    Some (set_params x y m us, p, log ++ [MsgSetParam m x y])
  else Some (us, set_status USB_RET_STALL p, log).

(* ================================================================== *)
(** ** Data transfers *)

(** Lines 397-402: a recalibrate request arms the timer when it is idle and
    freezes the position of this poll. *)
Definition start_calibration (pos : Z * Z) (us : GunCon2State) : GunCon2State :=
  if negb (Z.land (button_state (host us)) (Int.bit BID_RECALIBRATE) =? 0)
     && (calibration_timer (saved us) =? 0)
  then set_calibration GUNCON2_CALIBRATION_DELAY (fst pos) (snd pos) us
  else us.

(** Lines 404-430: the report of this poll and the timer step. *)
Definition make_report (pos : Z * Z) (us : GunCon2State) : GunCon2State * GunCon2Out :=
  let btn := Int.to_u16 (Z.lor (Int.to_u16 (Int.u32_not (button_state (host us))))
                           (Z.land (param_mode (saved us)) GUNCON2_FLAG_PROGRESSIVE)) in
  let forced := Int.to_u16 (Z.land btn (Int.u32_not (Int.bit BID_TRIGGER))) in
  if 0 <? calibration_timer (saved us) then
    let us' := set_calibration_timer (Int.to_u16 (calibration_timer (saved us) - 1)) us in
    if calibration_timer (saved us') <? GUNCON2_CALIBRATION_REPORT_DELAY
    then (us', mkOut forced 0 0)
    else (us', mkOut forced (calibration_pos_x (saved us)) (calibration_pos_y (saved us)))
  else if negb (Z.land (button_state (host us)) (Int.bit BID_SHOOT_OFFSCREEN) =? 0) then
    (us, mkOut forced 0 0)
  else (us, mkOut btn (fst pos) (snd pos)).

Definition guncon2_handle_data (h : Host) (events : list input_event)
  (p : USBPacket) (s : GunCon2State)
  : option (GunCon2State * USBPacket * list ConsoleMsg) :=
  us <- (if udev_has s then udev_poll_gun h events s else Some s) ;;
  let stall := Some (us, set_status USB_RET_STALL p,
                     [ErrUnhandledRequest (pid p) (ep_nr p)]) in
  match pid p with
  | USB_TOKEN_IN =>
      if ep_nr p =? 1 then
        pos <- CalculatePosition h us ;;
        let '(us, out) := make_report pos (start_calibration pos us) in
        Some (us, usb_packet_copy p (bytes_of (bits out)), [])
      else stall
  | _ => stall
  end.

(* ================================================================== *)
(** ** Settings and bindings *)

Definition UpdateSettings (si : SettingsInterface) (s : GunCon2State) : GunCon2State :=
  let c := cfg s in
  let custom := GetConfigBool si "custom_config" false in
  let hack := GetConfigBool si "split_screen_hack" false in
  let stretch := GetConfigBool si "split_screen_full_stretch" false in
  let rel := ConfigKeyExists si "RelativeLeft" || ConfigKeyExists si "RelativeRight"
             || ConfigKeyExists si "RelativeUp" || ConfigKeyExists si "RelativeDown" in
  (* Don't override auto config if we've set it. *)
  if negb (auto_config_done (saved s)) || custom
  then
    with_cfg (mkConfiguration rel custom hack stretch
                (Int.to_u32 (GetConfigInt si "screen_width" DEFAULT_SCREEN_WIDTH))
                (Int.to_u32 (GetConfigInt si "screen_height" DEFAULT_SCREEN_HEIGHT))
                (GetConfigFloat si "center_x" DEFAULT_CENTER_X)
                (GetConfigFloat si "center_y" DEFAULT_CENTER_Y)
                (F32.div (GetConfigFloat si "scale_x" DEFAULT_SCALE_X) (F32.of_Z 100))
                (F32.div (GetConfigFloat si "scale_y" DEFAULT_SCALE_Y) (F32.of_Z 100))
                (calibrated c)) s
  else
    with_cfg (mkConfiguration rel custom hack stretch
                (screen_width c) (screen_height c) (center_x c) (center_y c)
                (scale_x c) (scale_y c) (calibrated c)) s.

(** [pxAssert] compiles to nothing in release builds. *)
Definition pxAssert (cond : bool) : unit := tt.

(** The body after the early return only moved the software cursor and is
    commented out in the source: no device state changes. *)
Definition UpdateSoftwarePointerPosition (s : GunCon2State) : GunCon2State :=
  let _ := pxAssert (has_relative_binds (cfg s)) in s.

Definition GetBindingValue (s : GunCon2State) (bind_index : Z) : float :=
  let b := Int.bit bind_index in
  if negb (Z.land (button_state (host s)) b =? 0) then F32.of_Z 1 else F32.of_Z 0.

Definition SetBindingValue (bind_index : Z) (value : float) (s : GunCon2State)
  : GunCon2State :=
  if bind_index <? BID_RELATIVE_LEFT then
    let b := Int.bit bind_index in
    if F32.leb F32.half value
    then set_button_state (Z.lor (button_state (host s)) b) s
    else set_button_state (Z.land (button_state (host s)) (Int.u32_not b)) s
  else if bind_index <=? BID_RELATIVE_DOWN then
    let rel_index := bind_index - BID_RELATIVE_LEFT in
    if negb (F32.eqb (rel_get (relative_pos (host s)) rel_index) value) then
      let s := set_relative_pos (rel_set (relative_pos (host s)) rel_index value) s in
      if negb (udev_has s) then UpdateSoftwarePointerPosition s else s
    else s
  else s.

(* ================================================================== *)
(** ** Save states *)

(** Modelled from the spec: the framed save-state reader/writer
    ([StateWrapper], outside this file).  The stream is a sequence of typed
    values in the persisted order "marker, param_x, param_y, ...".  Writing
    appends the value; reading takes the next value into the field; a read
    that finds no value of the expected type raises the error flag (the
    field then reads as the type's zero, a choice no property below relies
    on).  The marker check fails when the stream does not start with the
    expected marker. *)
Inductive SaveCell : Type :=
| CellMarker (m : string)
| CellS16 (v : Z)
| CellU16 (v : Z)
| CellBool (b : bool)
| CellFloat (f : float)
| CellU32 (v : Z).

Inductive sw_mode : Type := ModeRead | ModeWrite.

Record StateWrapper : Type := mkSW {
  sw_mode_of : sw_mode;
  sw_stream : list SaveCell;
  sw_error : bool
}.

Definition IsReading (sw : StateWrapper) : bool :=
  match sw_mode_of sw with ModeRead => true | ModeWrite => false end.

Definition HasError (sw : StateWrapper) : bool := sw_error sw.

(** Modelled from the spec: one [Do] of the save-state reader/writer, for
    a field type with cell constructor [inj] and recogniser [prj]. *)
Definition Do {A : Type} (inj : A -> SaveCell) (prj : SaveCell -> option A)
  (zero : A) (v : A) (sw : StateWrapper) : A * StateWrapper :=
  match sw_mode_of sw with
  | ModeWrite =>
      if sw_error sw then (v, sw)
      else (v, mkSW ModeWrite (sw_stream sw ++ [inj v]) false)
  | ModeRead =>
      if sw_error sw then (zero, sw)
      else
        match sw_stream sw with
        | c :: rest =>
            match prj c with
            | Some a => (a, mkSW ModeRead rest false)
            | None => (zero, mkSW ModeRead (sw_stream sw) true)
            end
        | [] => (zero, mkSW ModeRead [] true)
        end
  end.

Definition Do_s16 : Z -> StateWrapper -> Z * StateWrapper :=
  Do CellS16 (fun c => match c with CellS16 v => Some v | _ => None end) 0.
Definition Do_u16 : Z -> StateWrapper -> Z * StateWrapper :=
  Do CellU16 (fun c => match c with CellU16 v => Some v | _ => None end) 0.
Definition Do_u32 : Z -> StateWrapper -> Z * StateWrapper :=
  Do CellU32 (fun c => match c with CellU32 v => Some v | _ => None end) 0.
Definition Do_bool : bool -> StateWrapper -> bool * StateWrapper :=
  Do CellBool (fun c => match c with CellBool v => Some v | _ => None end) false.
Definition Do_float : float -> StateWrapper -> float * StateWrapper :=
  Do CellFloat (fun c => match c with CellFloat v => Some v | _ => None end) F32.zero.

(** Modelled from the spec: the framing check that precedes the field
    sequence. *)
Definition DoMarker (marker : string) (sw : StateWrapper) : bool * StateWrapper :=
  let '(file_value, sw') :=
    Do CellMarker (fun c => match c with CellMarker m => Some m | _ => None end)
       "" marker sw in
  if sw_error sw' then (false, sw')
  else if negb (IsReading sw') || String.eqb file_value marker then (true, sw')
  else (false, sw').

Definition Freeze (sw : StateWrapper) (s : GunCon2State)
  : bool * GunCon2State * StateWrapper :=
  let '(ok, sw) := DoMarker "GunCon2Device" sw in
  if negb ok then (false, s, sw)
  else
    let d := saved s in
    let '(px, sw) := Do_s16 (param_x d) sw in
    let '(py, sw) := Do_s16 (param_y d) sw in
    let '(pm, sw) := Do_u16 (param_mode d) sw in
    let '(ct, sw) := Do_u16 (calibration_timer d) sw in
    let '(cx, sw) := Do_s16 (calibration_pos_x d) sw in
    let '(cy, sw) := Do_s16 (calibration_pos_y d) sw in
    let '(done, sw) := Do_bool (auto_config_done d) sw in
    let s := with_saved (mkSavedState px py pm ct cx cy done) s in
    let '(scale_x', sw) := Do_float (scale_x (cfg s)) sw in
    let '(scale_y', sw) := Do_float (scale_y (cfg s)) sw in
    let '(center_x', sw) := Do_float (center_x (cfg s)) sw in
    let '(center_y', sw) := Do_float (center_y (cfg s)) sw in
    let '(screen_width', sw) := Do_u32 (screen_width (cfg s)) sw in
    let '(screen_height', sw) := Do_u32 (screen_height (cfg s)) sw in
    (* Only save automatic settings to state. *)
    let s :=
      if IsReading sw && negb (custom_config (cfg s)) && auto_config_done (saved s)
      then set_profile (mkProfile scale_x' scale_y' center_x' center_y'
                          screen_width' screen_height') s
      else s in
    (negb (HasError sw), s, sw).

(** The stream a snapshot with these field values consists of. *)
Definition snapshot_stream (d : SavedState) (p : ScreenProfile) : list SaveCell :=
  [CellMarker "GunCon2Device";
   CellS16 (param_x d); CellS16 (param_y d); CellU16 (param_mode d);
   CellU16 (calibration_timer d);
   CellS16 (calibration_pos_x d); CellS16 (calibration_pos_y d);
   CellBool (auto_config_done d);
   CellFloat (p_scale_x p); CellFloat (p_scale_y p);
   CellFloat (p_center_x p); CellFloat (p_center_y p);
   CellU32 (p_screen_width p); CellU32 (p_screen_height p)].

(* ================================================================== *)
(** ** Runs of the device *)

(** The entry points of one device instance. *)
Inductive DeviceOp : Type :=
| OpControl (h : Host) (p : USBPacket) (request value index length : Z)
    (data : list Byte.byte)
| OpData (h : Host) (events : list input_event) (p : USBPacket)
| OpUpdateSettings (si : SettingsInterface)
| OpSetBinding (bind_index : Z) (value : float)
| OpFreeze (sw : StateWrapper).

Definition run_op (op : DeviceOp) (s : GunCon2State)
  : option (GunCon2State * list ConsoleMsg) :=
  match op with
  | OpControl h p request value index length data =>
      '(s', _, log) <- guncon2_handle_control h p request value index length data s ;;
      Some (s', log)
  | OpData h events p =>
      '(s', _, log) <- guncon2_handle_data h events p s ;;
      Some (s', log)
  | OpUpdateSettings si => Some (UpdateSettings si s, [])
  | OpSetBinding bind_index value => Some (SetBindingValue bind_index value s, [])
  | OpFreeze sw => let '(_, s', _) := Freeze sw s in Some (s', [])
  end.

Fixpoint run_ops (ops : list DeviceOp) (s : GunCon2State)
  : option (GunCon2State * list ConsoleMsg) :=
  match ops with
  | [] => Some (s, [])
  | op :: rest =>
      '(s1, log1) <- run_op op s ;;
      '(s2, log2) <- run_ops rest s1 ;;
      Some (s2, log1 ++ log2)
  end.

(** Every call of [AutoConfigure] leaves exactly one of its two opening
    messages on the console. *)
Definition is_auto_config_msg (m : ConsoleMsg) : bool :=
  match m with
  | MsgUsingAutomaticConfig _ | WarnNoAutomaticConfig _ => true
  | _ => false
  end.

Definition auto_config_runs (log : list ConsoleMsg) : nat :=
  List.length (filter is_auto_config_msg log).

(** One poll of the report endpoint, with the host input that precedes it:
    binding updates from the input manager, then the raw gun events the
    poll itself drains. *)
Record PollInput : Type := mkPoll {
  poll_bindings : list (Z * float);
  poll_host : Host;
  poll_events : list input_event
}.

Definition in_packet : USBPacket := mkPacket USB_TOKEN_IN 1 USB_RET_SUCCESS [].

Definition apply_bindings (bs : list (Z * float)) (s : GunCon2State) : GunCon2State :=
  fold_left (fun s b => SetBindingValue (fst b) (snd b) s) bs s.

(** The state the report of a poll is computed from. *)
Definition poll_view (i : PollInput) (s : GunCon2State) : option GunCon2State :=
  let s := apply_bindings (poll_bindings i) s in
  if udev_has s then udev_poll_gun (poll_host i) (poll_events i) s else Some s.

Definition poll (i : PollInput) (s : GunCon2State) : option (GunCon2State * USBPacket) :=
  '(s', p, _) <- guncon2_handle_data (poll_host i) (poll_events i) in_packet
                   (apply_bindings (poll_bindings i) s) ;;
  Some (s', p).

Fixpoint run_polls (inputs : list PollInput) (s : GunCon2State)
  : option (GunCon2State * list USBPacket) :=
  match inputs with
  | [] => Some (s, [])
  | i :: rest =>
      '(s1, p) <- poll i s ;;
      '(s2, ps) <- run_polls rest s1 ;;
      Some (s2, p :: ps)
  end.

(** The packet carries the six bytes of [out]. *)
Definition carries (p : USBPacket) (out : GunCon2Out) : Prop :=
  payload p = bytes_of (bits out).

(** The packet is a report of position [(x, y)]. *)
Definition reports_position (p : USBPacket) (x y : Z) : Prop :=
  exists b, carries p (mkOut b x y).

(** Active-low button mask: a button is reported pressed when its bit is
    0 and released when its bit is 1. *)
Definition reported_pressed (out : GunCon2Out) (bid : Z) : Prop :=
  Z.testbit (buttons out) bid = false.
Definition reported_released (out : GunCon2Out) (bid : Z) : Prop :=
  Z.testbit (buttons out) bid = true.

Definition button_active (s : GunCon2State) (bid : Z) : bool :=
  negb (Z.land (button_state (host s)) (Int.bit bid) =? 0).

(* ================================================================== *)
(** ** The mapping as the specification words it *)

(** The integer ranges of the state's fields. *)
Definition wf_state (s : GunCon2State) : Prop :=
  0 <= button_state (host s) < 4294967296 /\
  0 <= screen_width (cfg s) < 4294967296 /\
  0 <= screen_height (cfg s) < 4294967296 /\
  -32768 <= param_x (saved s) <= 32767 /\
  -32768 <= param_y (saved s) <= 32767 /\
  0 <= param_mode (saved s) < 65536 /\
  0 <= calibration_timer (saved s) < 65536 /\
  -32768 <= calibration_pos_x (saved s) <= 32767 /\
  -32768 <= calibration_pos_y (saved s) <= 32767.

(** "mode bit 0x0100". *)
Definition spec_progressive (mode : Z) : bool := Z.testbit mode 8.

(** "fx = px*width - width/2 with integer (truncating) halving; multiplied
    by scale; center added; rounded to nearest integer". *)
Definition spec_axis (p : float) (extent : Z) (scale center : float) : option Z :=
  let halved := Z.quot extent 2 in
  let f := F32.sub (F32.mul p (F32.of_Z extent)) (F32.of_Z halved) in
  F32.to_s32 (F32.round (F32.add (F32.mul f scale) center)).

(** "param subtracted in full when the progressive flag is clear, or half
    of it (integer division) when it is set". *)
Definition spec_offset (mode param : Z) : Z :=
  if spec_progressive mode then Z.quot param 2 else param.

Definition spec_mapped_position (pr : ScreenProfile) (dp : DeviceParams)
  (px py : float) : option (Z * Z) :=
  x <- spec_axis px (p_screen_width pr) (p_scale_x pr) (p_center_x pr) ;;
  y <- spec_axis py (p_screen_height pr) (p_scale_y pr) (p_center_y pr) ;;
  Some (x - spec_offset (dp_mode dp) (dp_x dp), y - spec_offset (dp_mode dp) (dp_y dp)).

(** A sample is on screen when neither coordinate compares below zero. *)
Definition onscreen (px py : float) : Prop :=
  F32.ltb px F32.zero = false /\ F32.ltb py F32.zero = false.

(** "its recorded scale (percentage divided by 100), center and screen
    size": the profile a table record stands for. *)
Definition recorded_profile (gc : GameConfig) : ScreenProfile :=
  mkProfile (F32.div (gc_scale_x gc) (F32.of_Z 100))
            (F32.div (gc_scale_y gc) (F32.of_Z 100))
            (F32.of_Z (gc_center_x gc)) (F32.of_Z (gc_center_y gc))
            (gc_screen_width gc) (gc_screen_height gc).

(** The title is one of the table's. *)
Definition in_table (serial : string) (table : list GameConfig) : Prop :=
  exists gc, In gc table /\ gc_serial gc = serial.

(** A host for worked examples: the pointer source already yields display
    coordinates, the window is 640x480, the descriptor handler declines
    every request and the class-interface-out request code is 0x2100. *)
Definition example_host (serial : string) (pointer : float * float) : Host :=
  mkHost pointer (F32.of_Z 640) (F32.of_Z 480) (fun x y => (x, y)) 640 480 serial
         (fun p _ _ _ _ _ => (-1, p)) 0x2100.

(** A device as [GunCon2State(port_)] constructs it, axis ranges 0. *)
Definition fresh (port_ : Z) : GunCon2State := GunCon2State_new port_ 0 0 0 0.

(** Loading a save state: [Freeze] on a reader over [stream]. *)
Definition restore (stream : list SaveCell) (s : GunCon2State) : bool * GunCon2State :=
  fst (Freeze (mkSW ModeRead stream false) s).

(** Taking a save state: what [Freeze] writes to an empty stream. *)
Definition snapshot (s : GunCon2State) : list SaveCell :=
  sw_stream (snd (Freeze (mkSW ModeWrite [] false) s)).

(** The stream does not open with the device's marker. *)
Definition marker_mismatch (stream : list SaveCell) : Prop :=
  match stream with
  | CellMarker m :: _ => m <> "GunCon2Device"
  | _ => True
  end.

(** The state after the opening step of [guncon2_handle_control]: the
    one-time profile selection, when it is due. *)
Definition first_control_configure (h : Host) (s : GunCon2State) : GunCon2State :=
  if negb (auto_config_done (saved s)) && negb (custom_config (cfg s))
  then set_auto_config_done true (fst (AutoConfigure h s))
  else s.

(** The vendor request "set parameter". *)
Definition is_set_parameter (h : Host) (request : Z) : Prop :=
  request = Z.lor (ClassInterfaceOutRequest h) 9.

(** The descriptor handler declines the request. *)
Definition declined (h : Host) (p : USBPacket) (request value index length : Z)
  (data : list Byte.byte) : Prop :=
  fst (usb_desc_handle_control h p request value index length data) < 0.

(** What host input (bindings, raw gun events) leaves alone: the port,
    the saved device state, the split-screen state, the geometry and the
    configuration switches. *)
Definition input_frame (s s' : GunCon2State) : Prop :=
  port s' = port s /\ saved s' = saved s /\ split s' = split s
  /\ profile_of s' = profile_of s
  /\ custom_config (cfg s') = custom_config (cfg s)
  /\ has_relative_binds (cfg s') = has_relative_binds (cfg s)
  /\ udev_fd (udev s') = udev_fd (udev s).

(** The geometry [UpdateSettings] reads from the settings store. *)
Definition settings_profile (si : SettingsInterface) : ScreenProfile :=
  mkProfile (F32.div (GetConfigFloat si "scale_x" DEFAULT_SCALE_X) (F32.of_Z 100))
            (F32.div (GetConfigFloat si "scale_y" DEFAULT_SCALE_Y) (F32.of_Z 100))
            (GetConfigFloat si "center_x" DEFAULT_CENTER_X)
            (GetConfigFloat si "center_y" DEFAULT_CENTER_Y)
            (Int.to_u32 (GetConfigInt si "screen_width" DEFAULT_SCREEN_WIDTH))
            (Int.to_u32 (GetConfigInt si "screen_height" DEFAULT_SCREEN_HEIGHT)).

Definition is_control (op : DeviceOp) : bool :=
  match op with OpControl _ _ _ _ _ _ _ => true | _ => false end.

(** A state restore among the operations does not clear a set
    [auto_config_done]; every other operation qualifies. *)
Definition keeps_configured (op : DeviceOp) : Prop :=
  match op with
  | OpFreeze sw =>
      forall s, auto_config_done (saved s) = true ->
                auto_config_done (saved (snd (fst (Freeze sw s)))) = true
  | _ => True
  end.

(** An unsupported request, as the examples send it. *)
Definition example_control : DeviceOp :=
  OpControl (example_host "SLUS-20219" (F32.half, F32.half))
    (mkPacket USB_TOKEN_OUT 0 USB_RET_SUCCESS []) 0x2101 0 0 0 [].

(** A run with two control requests, a poll and a state save. *)
Definition example_ops : list DeviceOp :=
  [example_control;
   OpData (example_host "SLUS-20219" (F32.half, F32.half)) [] in_packet;
   OpFreeze (mkSW ModeWrite [] false);
   example_control].

(** A settings store with manual screen configuration on and the centre
    moved to (65536, 65536); every other key takes its default. *)
Definition far_centre_settings : SettingsInterface :=
  mkSettings
    (fun key dflt => if (key =? "custom_config")%string then true else dflt)
    (fun key dflt => dflt)
    (fun key dflt =>
       if (key =? "center_x")%string then F32.of_Z 65536
       else if (key =? "center_y")%string then F32.of_Z 65536
       else dflt)
    (fun key => false).

(** A device on which the split-screen detection reports split screen for
    Time Crisis 2 (U). *)
Definition split_screen_device (port_ : Z) : GunCon2State :=
  with_split (mkSplitScreenState "SLUS-20219" true) (fresh port_).

(** A new device with one binding held. *)
Definition holding (bid : Z) : GunCon2State :=
  SetBindingValue bid (F32.of_Z 1) (fresh 0).

(** Twelve polls at pointer (0.5, 0.5) on the default geometry; the
    recalibrate binding is released before poll 3 and asserted again
    before poll 5. *)
Definition example_poll (bs : list (Z * float)) : PollInput :=
  mkPoll bs (example_host "" (F32.half, F32.half)) [].

Definition example_polls : list PollInput :=
  [example_poll []; example_poll [];
   example_poll [(BID_RECALIBRATE, F32.of_Z 0)]; example_poll [];
   example_poll [(BID_RECALIBRATE, F32.of_Z 1)]; example_poll [];
   example_poll []; example_poll []; example_poll []; example_poll [];
   example_poll []; example_poll []].

(** Every poll of the run finds its input and its position defined (no
    undefined arithmetic on the way). *)
Fixpoint polls_defined (inputs : list PollInput) (s : GunCon2State) : Prop :=
  match inputs with
  | [] => True
  | i :: rest =>
      exists us pos,
        poll_view i s = Some us
        /\ CalculatePosition (poll_host i) us = Some pos
        /\ polls_defined rest (fst (make_report pos (start_calibration pos us)))
  end.

(** No split-screen aim adjustment applies to the device: split screen is
    not detected, or the active title is none of the four two-player Time
    Crisis releases, or the device sits on neither port 0 nor port 1. *)
Definition no_split_adjustment (s : GunCon2State) : Prop :=
  splitscreen_activated (split s) = false
  \/ (active_game (split s) <> "SLUS-20219" /\ active_game (split s) <> "SCES-50300"
      /\ active_game (split s) <> "SCES-51844" /\ active_game (split s) <> "SLUS-20645")
  \/ (port s <> 0 /\ port s <> 1).



(* ================================================================== *)
(** ** Further functions of the file *)

(** *** The report read back through the struct view of the union *)

Definition u16_of_bytes (lo hi : Byte.byte) : Z :=
  Z.lor (u8 lo) (Z.shiftl (u8 hi) 8).

(** [out.buttons], [out.pos_x], [out.pos_y] of a union whose [bits] are the
    six bytes given; anything but six bytes is not a report. *)
Definition GunCon2Out_of_bits (bs : list Byte.byte) : option GunCon2Out :=
  match bs with
  | [b0; b1; b2; b3; b4; b5] =>
      Some (mkOut (u16_of_bytes b0 b1)
                  (Int.to_s16 (u16_of_bytes b2 b3))
                  (Int.to_s16 (u16_of_bytes b4 b5)))
  | _ => None
  end.

(** The fields of a report lie in their types' ranges. *)
Definition wf_out (o : GunCon2Out) : Prop :=
  0 <= buttons o < 65536
  /\ -32768 <= pos_x o <= 32767
  /\ -32768 <= pos_y o <= 32767.

(** No button bit above the last button identifier ([BID_RECALIBRATE])
    is set. *)
Definition button_bits_only (s : GunCon2State) : Prop :=
  forall n, BID_RELATIVE_LEFT <= n < 32 ->
            Z.testbit (button_state (host s)) n = false.

(** The operation loads a save state. *)
Definition is_restore (op : DeviceOp) : bool :=
  match op with
  | OpFreeze sw => IsReading sw
  | _ => false
  end.

(** *** Device creation *)

(** [udev_configure_gun]: the axis ranges are taken over only when both
    range queries succeed.  [absx] and [absy] are the (minimum, maximum)
    the two [EVIOCGABS] calls return, [None] when a call fails. *)
Definition udev_configure_gun (absx absy : option (Z * Z)) (us : GunCon2State)
  : GunCon2State :=
  match absx with
  | Some (minx, maxx) =>
      match absy with
      | Some (miny, maxy) =>
          let u := udev us in
          with_udev (mkUdevState (udev_fd u) (udev_internalGunX u) (udev_internalGunY u)
                       minx miny maxx maxy) us
      | None => us
      end
  | None => us
  end.

(** The tail of [udev_open_gun] ("configure"): [fd] is the descriptor the
    device enumeration and [open] ended with, -1 when there is none. *)
Definition udev_open_gun (fd : Z) (absx absy : option (Z * Z)) (us : GunCon2State)
  : GunCon2State :=
  let u := udev us in
  let us := with_udev (mkUdevState fd (udev_internalGunX u) (udev_internalGunY u)
                         (udev_gunMinx u) (udev_gunMiny u) (udev_gunMaxx u)
                         (udev_gunMaxy u)) us in
  if negb (fd =? -1) then udev_configure_gun absx absy us else us.

(** [CreateDevice]: construct, open the raw gun, parse the two
    descriptors, apply the settings.  [parse_dev] and [parse_config] are
    the results of [usb_desc_parse_dev] and [usb_desc_parse_config];
    a negative one makes the creation fail ([nullptr], here [None]).  The
    test of [pathdevice.c_str()] never fails, a [std::string] always having
    a buffer.  The four [uninit] values stand for the axis ranges the
    constructor leaves uninitialised. *)
Definition CreateDevice (si : SettingsInterface) (port_ : Z)
  (uninit : Z * Z * Z * Z) (fd : Z) (absx absy : option (Z * Z))
  (parse_dev parse_config : Z) : option GunCon2State :=
  let '(a, b, c, d) := uninit in
  let s := GunCon2State_new port_ a b c d in
  let s := udev_open_gun fd absx absy s in
  if parse_dev <? 0 then None
  else if parse_config <? 0 then None
  else Some (UpdateSettings si s).

(** *** Device-node names *)

(** A C string is given by its bytes before the terminating NUL.
    [is_digit] is the test of one byte in [event_isNumber]. *)
Definition is_digit (c : Ascii.ascii) : bool :=
  ((c =? "0") || (c =? "1") || (c =? "2") || (c =? "3") || (c =? "4")
   || (c =? "5") || (c =? "6") || (c =? "7") || (c =? "8") || (c =? "9"))%char.

Fixpoint all_digits (s : string) : bool :=
  match s with
  | EmptyString => true
  | String c rest => is_digit c && all_digits rest
  end.

Definition event_isNumber (s : string) : Z :=
  if (Z.of_nat (String.length s) =? 0) then 0
  else if all_digits s then 1 else 0.

(** The loop [while (x[n] == y[n] && x[n] != 0 && y[n] != 0) n++]. *)
Fixpoint common_prefix (x y : string) : nat :=
  match x, y with
  | String a x', String b y' =>
      if Ascii.eqb a b then S (common_prefix x' y') else O
  | _, _ => O
  end.

(** [x + n]: the string from its [n]-th byte on. *)
Fixpoint drop (n : nat) (s : string) : string :=
  match n, s with
  | O, _ => s
  | S n', String _ rest => drop n' rest
  | S _, EmptyString => EmptyString
  end.

(** The decimal value of a string of digits, most significant first. *)
Fixpoint decimal_value (acc : Z) (s : string) : Z :=
  match s with
  | EmptyString => acc
  | String c rest =>
      decimal_value (10 * acc + (Z.of_nat (Ascii.nat_of_ascii c) - 48)) rest
  end.

(** [atoi] on a string of digits; a value that does not fit [int] is
    undefined. *)
Definition atoi (s : string) : option Z := Int.s32_checked (decimal_value 0 s).

(** [strcmp] of the C library, as glibc computes it: the difference of the
    first pair of differing bytes, taken as unsigned values, the end of a
    string counting as byte 0.  (The C standard fixes the sign of the
    result only.) *)
Fixpoint strcmp (x y : string) : Z :=
  match x, y with
  | EmptyString, EmptyString => 0
  | EmptyString, String b _ => 0 - Z.of_nat (Ascii.nat_of_ascii b)
  | String a _, EmptyString => Z.of_nat (Ascii.nat_of_ascii a) - 0
  | String a x', String b y' =>
      if Ascii.eqb a b then strcmp x' y'
      else Z.of_nat (Ascii.nat_of_ascii a) - Z.of_nat (Ascii.nat_of_ascii b)
  end.

Definition event_strcmp_events (x y : string) : option Z :=
  let common := common_prefix x y in
  let is_number :=
    negb (event_isNumber (drop common x) =? 0)
    && negb (event_isNumber (drop common y) =? 0) in
  if is_number then
    a <- atoi (drop common x) ;;
    b <- atoi (drop common y) ;;
    Some (if a =? b then 0 else if a <? b then -1 else 1)
  else Some (strcmp x y).

(** [struct event_udev_entry], by its device node. *)
Record event_udev_entry : Type := mkEntry { devnode : string }.

Definition sort_devnodes (a b : event_udev_entry) : option Z :=
  event_strcmp_events (devnode a) (devnode b).

(** Every record of a table has its screen size in the range of [u32]. *)
Definition table_sizes_ok (table : list GameConfig) : Prop :=
  Forall (fun gc => 0 <= gc_screen_width gc < 4294967296
                    /\ 0 <= gc_screen_height gc < 4294967296) table.

(** *** Split-screen detection threads *)

(** [AspectRatioType] is declared outside the file, which names its
    enumerator [R16_9] only; every other enumerator is [AspectOther]. *)
Inductive AspectRatioType : Type :=
| R16_9
| AspectOther (code : Z).

Definition aspect_eqb (a b : AspectRatioType) : bool :=
  match a, b with
  | R16_9, R16_9 => true
  | AspectOther m, AspectOther n => m =? n
  | _, _ => false
  end.

(** [EmuConfig.CurrentAspectRatio] and [GSConfig.StretchY]. *)
Record DisplayConfig : Type := mkDisplay {
  CurrentAspectRatio : AspectRatioType;
  StretchY : float
}.

(** The members of [GunCon2State] the two threads keep: the flags and the
    display settings found when the output thread started. *)
Record ThreadState : Type := mkThreadState {
  quitThread : bool;
  threadOutputLoaded : bool;
  initialRatio : AspectRatioType;
  initialStretch : float
}.

(** What a thread does to the outside: its console lines, the shell
    command that presses F10, and the start of the output thread. *)
Inductive ThreadEvent : Type :=
| EvThreadStart          (* "THREAD : Thread Start" *)
| EvThreadStop           (* "THREAD : Thread stop" *)
| EvThreadLoadInit       (* "ThreadLOAD INIT" *)
| EvPressF10             (* std::system("(xdotool keydown F10; ...)&") *)
| EvSpawnOutputs.        (* myThread = new std::thread(threadOutputs) *)

Definition set_splitscreen_activated (b : bool) (s : GunCon2State) : GunCon2State :=
  with_split (mkSplitScreenState (active_game (split s)) b) s.

(** [threadOutputs] before its loop. *)
Definition threadOutputs_begin (disp : DisplayConfig) (t : ThreadState)
  : ThreadState * list ThreadEvent :=
  (mkThreadState (quitThread t) true (CurrentAspectRatio disp) (StretchY disp),
   [EvThreadStart]).

(** One pass through the loop body of [threadOutputs], first part: the
    split-screen flag of the running title, read from the emulated memory
    ([memRead8]). *)
Definition threadOutputs_detect (memRead8 : Z -> Z) (s : GunCon2State) : GunCon2State :=
  (* Time Crisis 2 EU *)
  let s := if (active_game (split s) =? "SCES-50300")%string
           then set_splitscreen_activated (memRead8 0x65CD24 =? 1) s else s in
  (* Time Crisis 2 US *)
  let s := if (active_game (split s) =? "SLUS-20219")%string
           then set_splitscreen_activated (memRead8 0x63EE64 =? 1) s else s in
  (* Time Crisis 3 EU *)
  let s := if (active_game (split s) =? "SCES-51844")%string
           then set_splitscreen_activated (memRead8 0x474EEC =? 1) s else s in
  (* Time Crisis 3 US *)
  if (active_game (split s) =? "SLUS-20645")%string
  then set_splitscreen_activated (memRead8 0x43A16C =? 1) s else s.

(** Second part: force ratio and stretch while split screen is detected
    and the hack is requested, restore them otherwise. *)
Definition threadOutputs_display (t : ThreadState) (s : GunCon2State)
  (disp : DisplayConfig) : DisplayConfig * list ThreadEvent :=
  if splitscreen_activated (split s) && split_screen_hack (cfg s) then
    let needToSwitchOrDisplayOverlay := false in
    let '(disp, needToSwitchOrDisplayOverlay) :=
      if negb (aspect_eqb (CurrentAspectRatio disp) R16_9)
      then (mkDisplay R16_9 (StretchY disp), true)
      else (disp, needToSwitchOrDisplayOverlay) in
    let '(disp, needToSwitchOrDisplayOverlay) :=
      if negb (split_screen_full_stretch (cfg s))
         && F32.eqb (StretchY disp) (F32.of_Z 100)
      then (mkDisplay (CurrentAspectRatio disp) (F32.of_Z 66), true)
      else (disp, needToSwitchOrDisplayOverlay) in
    (disp, if needToSwitchOrDisplayOverlay then [EvPressF10] else [])
  else if negb (aspect_eqb (CurrentAspectRatio disp) (initialRatio t))
          || negb (F32.eqb (StretchY disp) (initialStretch t)) then
    (mkDisplay (initialRatio t) (initialStretch t), [EvPressF10])
  else (disp, []).

(** One pass through the loop body, on the device and the display settings
    as the pass finds them. *)
Definition threadOutputs_body (memRead8 : Z -> Z) (t : ThreadState)
  (s : GunCon2State) (disp : DisplayConfig)
  : GunCon2State * DisplayConfig * list ThreadEvent :=
  let s := threadOutputs_detect memRead8 s in
  let '(disp, events) := threadOutputs_display t s disp in
  (s, disp, events).

(** What one pass of the loop of [threadAutoConfigure] reads: the two
    flags, the running title, whether a VM is up, and the device as the
    other threads have left it by then. *)
Record AutoSample : Type := mkAutoSample {
  a_threadOutputLoaded : bool;
  a_quitThread : bool;
  a_GetDiscSerial : string;
  a_HasValidVM : bool;
  a_device : GunCon2State
}.

Inductive AutoOutcome : Type :=
| AutoSpawned (s : GunCon2State)   (* output thread started, device left as [s] *)
| AutoReturned                     (* loop left without starting it *)
| AutoWaiting (i : Z).             (* samples used up, counter at [i] *)

(** The loop of [threadAutoConfigure] from counter value [i], one sample
    per pass (a pass ends in a sleep of 100 ms). *)
Fixpoint threadAutoConfigure_loop (samples : list AutoSample) (i : Z)
  : AutoOutcome * list ThreadEvent :=
  match samples with
  | [] => (AutoWaiting i, [])
  | x :: rest =>
      if negb (Bool.eqb (a_threadOutputLoaded x) false) then (AutoReturned, [])
      else if a_quitThread x then (AutoReturned, [])
      else if i <? 50 then threadAutoConfigure_loop rest (i + 1)
      else
        let serial := a_GetDiscSerial x in
        if negb (serial =? "")%string
           && (active_game (split (a_device x)) =? "")%string
           && a_HasValidVM x
        then (AutoSpawned (set_active_game serial (a_device x)),
              [EvThreadLoadInit; EvSpawnOutputs])
        else
          let '(o, ev) := threadAutoConfigure_loop rest i in
          (o, EvThreadLoadInit :: ev)
  end.

Definition threadAutoConfigure (samples : list AutoSample)
  : AutoOutcome * list ThreadEvent :=
  threadAutoConfigure_loop samples 0.

(** A float that is not a NaN. *)
Definition not_nan (x : float) : Prop :=
  match x with S754_nan => False | _ => True end.

(** The address the detection reads for a title, if it is one of the
    four. *)
Definition splitscreen_flag_address (title : string) : option Z :=
  if (title =? "SCES-50300")%string then Some 0x65CD24
  else if (title =? "SLUS-20219")%string then Some 0x63EE64
  else if (title =? "SCES-51844")%string then Some 0x474EEC
  else if (title =? "SLUS-20645")%string then Some 0x43A16C
  else None.

(** The device is in forced split-screen display mode. *)
Definition split_display_on (s : GunCon2State) : bool :=
  splitscreen_activated (split s) && split_screen_hack (cfg s).

(** The first pass of [samples] that starts the output thread. *)
Definition spawning_sample (x : AutoSample) : Prop :=
  a_threadOutputLoaded x = false /\ a_quitThread x = false
  /\ a_GetDiscSerial x <> "" /\ active_game (split (a_device x)) = ""
  /\ a_HasValidVM x = true.

(* ================================================================== *)
(** * Properties *)

(** ** Bit-level facts *)

Lemma bit_pow2 (n : Z) : 0 <= n < 32 -> Int.bit n = 2 ^ n.
Proof.
  intros H. unfold Int.bit, Int.to_u32. rewrite Z.shiftl_1_l.
  apply Z.mod_small. split; [apply Z.pow_nonneg; lia|].
  change 4294967296 with (2 ^ 32). apply Z.pow_lt_mono_r; lia.
Qed.

Lemma bit_nonzero (n : Z) : 0 <= n < 32 -> Int.bit n <> 0.
Proof.
  intros H. rewrite bit_pow2 by assumption.
  pose proof (Z.pow_pos_nonneg 2 n). lia.
Qed.

Lemma land_lor_same (a b : Z) : Z.land (Z.lor a b) b = b.
Proof.
  apply Z.bits_inj'. intros n Hn.
  rewrite Z.land_spec, Z.lor_spec.
  destruct (Z.testbit a n), (Z.testbit b n); reflexivity.
Qed.

Lemma testbit_u32_not (b n : Z) :
  Z.testbit (Int.u32_not b) n = (n <? 32) && negb (Z.testbit b n) && (0 <=? n).
Proof.
  unfold Int.u32_not, Int.to_u32. change 4294967296 with (2 ^ 32).
  destruct (Z.ltb_spec n 0) as [Hneg|Hpos].
  - rewrite Z.testbit_neg_r by assumption.
    destruct (Z.leb_spec 0 n); [lia|]. now rewrite andb_false_r.
  - destruct (Z.leb_spec 0 n); [|lia]. rewrite andb_true_r.
    destruct (Z.ltb_spec n 32).
    + rewrite Z.mod_pow2_bits_low by lia. now rewrite Z.lnot_spec by assumption.
    + rewrite Z.mod_pow2_bits_high by lia. reflexivity.
Qed.

Lemma land_clear_same (a b : Z) : Z.land (Z.land a (Int.u32_not b)) b = 0.
Proof.
  apply Z.bits_inj'. intros n Hn.
  rewrite !Z.land_spec, testbit_u32_not, Z.bits_0.
  destruct (Z.testbit a n), (Z.testbit b n), (n <? 32), (0 <=? n); reflexivity.
Qed.

Lemma testbit_to_u16 (z n : Z) :
  Z.testbit (Int.to_u16 z) n = (n <? 16) && Z.testbit z n.
Proof.
  unfold Int.to_u16. change 65536 with (2 ^ 16).
  destruct (Z.ltb_spec n 16).
  - destruct (Z.ltb_spec n 0).
    + now rewrite !Z.testbit_neg_r by assumption.
    + now rewrite Z.mod_pow2_bits_low by lia.
  - now rewrite Z.mod_pow2_bits_high by lia.
Qed.

(** The mode test of the source and the specification's "bit 0x0100". *)
Lemma progressive_flag_bit (mode : Z) :
  negb (Z.land mode GUNCON2_FLAG_PROGRESSIVE =? 0) = spec_progressive mode.
Proof.
  unfold spec_progressive, GUNCON2_FLAG_PROGRESSIVE.
  destruct (Z.testbit mode 8) eqn:Hb.
  - destruct (Z.eqb_spec (Z.land mode 256) 0) as [E|E]; [|reflexivity].
    assert (Ht : Z.testbit (Z.land mode 256) 8 = true).
    { rewrite Z.land_spec, Hb. reflexivity. }
    rewrite E, Z.bits_0 in Ht. discriminate.
  - replace (Z.land mode 256) with 0; [reflexivity|].
    symmetry. apply Z.bits_inj'. intros n Hn.
    rewrite Z.land_spec, Z.bits_0. change 256 with (2 ^ 8).
    rewrite Z.pow2_bits_eqb by lia.
    destruct (Z.eqb_spec 8 n) as [<-|]; [now rewrite Hb|now rewrite andb_false_r].
Qed.

(* ================================================================== *)
(** ** Input bindings *)

Lemma SetBindingValue_button (s : GunCon2State) (idx : Z) (v : float) :
  idx < BID_RELATIVE_LEFT ->
  SetBindingValue idx v s =
  set_button_state
    (if F32.leb F32.half v
     then Z.lor (button_state (host s)) (Int.bit idx)
     else Z.land (button_state (host s)) (Int.u32_not (Int.bit idx))) s.
Proof.
  intros H. unfold SetBindingValue.
  destruct (Z.ltb_spec idx BID_RELATIVE_LEFT); [|lia].
  destruct (F32.leb F32.half v); reflexivity.
Qed.

Lemma rel_get_set_other (r : float4) (i j : Z) (v : float) :
  0 <= i < 4 -> 0 <= j < 4 -> j <> i -> rel_get (rel_set r i v) j = rel_get r j.
Proof.
  intros Hi Hj Hne.
  assert (Ci : i = 0 \/ i = 1 \/ i = 2 \/ i = 3) by lia.
  assert (Cj : j = 0 \/ j = 1 \/ j = 2 \/ j = 3) by lia.
  destruct Ci as [->|[->|[->| ->]]], Cj as [->|[->|[->| ->]]];
    try reflexivity; exfalso; apply Hne; reflexivity.
Qed.

Lemma rel_get_set_same (r : float4) (i : Z) (v : float) :
  0 <= i < 4 -> rel_get (rel_set r i v) i = v.
Proof.
  intros Hi.
  assert (Ci : i = 0 \/ i = 1 \/ i = 2 \/ i = 3) by lia.
  destruct Ci as [->|[->|[->| ->]]]; reflexivity.
Qed.

(** C10.  Binding set/get round trip.  For a button binding (index below
    [BID_RELATIVE_LEFT] = 18), reading the binding back after
    [SetBindingValue] gives 1.0 when the value was at least 0.5 and 0.0
    otherwise, and [relative_pos] is untouched.  For a relative-axis
    binding (18..21) only [relative_pos[bind_index - 18]] can change: the
    button mask, the other three entries and every other part of the
    state are as before, and the entry holds the value (or already
    compared equal to it). *)
Theorem binding_set_get_roundtrip (s : GunCon2State) (bind_index : Z) (value : float) :
  (0 <= bind_index < BID_RELATIVE_LEFT ->
     GetBindingValue (SetBindingValue bind_index value s) bind_index
       = (if F32.leb F32.half value then F32.of_Z 1 else F32.of_Z 0)
     /\ relative_pos (host (SetBindingValue bind_index value s))
       = relative_pos (host s))
  /\
  (BID_RELATIVE_LEFT <= bind_index <= BID_RELATIVE_DOWN ->
     let s' := SetBindingValue bind_index value s in
     let rel_index := bind_index - BID_RELATIVE_LEFT in
     button_state (host s') = button_state (host s)
     /\ (forall j, 0 <= j < 4 -> j <> rel_index ->
           rel_get (relative_pos (host s')) j = rel_get (relative_pos (host s)) j)
     /\ (rel_get (relative_pos (host s')) rel_index = value
         \/ (F32.eqb (rel_get (relative_pos (host s)) rel_index) value = true /\ s' = s))
     /\ port s' = port s /\ cfg s' = cfg s /\ saved s' = saved s
     /\ split s' = split s /\ udev s' = udev s).
Proof.
  split.
  - intros [Hlo Hhi].
    rewrite SetBindingValue_button by assumption.
    unfold GetBindingValue. cbn [host set_button_state with_host button_state relative_pos].
    split; [|reflexivity].
    destruct (F32.leb F32.half value).
    + rewrite land_lor_same.
      destruct (Z.eqb_spec (Int.bit bind_index) 0) as [E|_]; [|reflexivity].
      exfalso. revert E. apply bit_nonzero. unfold BID_RELATIVE_LEFT in Hhi. lia.
    + rewrite land_clear_same. reflexivity.
  - intros [Hlo Hhi] s' rel_index. subst s' rel_index.
    unfold SetBindingValue, BID_RELATIVE_LEFT, BID_RELATIVE_DOWN in *.
    destruct (Z.ltb_spec bind_index 18); [lia|].
    destruct (Z.leb_spec bind_index 21); [|lia].
    destruct (F32.eqb (rel_get (relative_pos (host s)) (bind_index - 18)) value) eqn:E;
      cbn [negb].
    + repeat split; auto.
    + assert (Hs : forall u : GunCon2State,
                (if negb (udev_has u) then UpdateSoftwarePointerPosition u else u) = u).
      { intros u. destruct (negb (udev_has u)); reflexivity. }
      rewrite Hs.
      cbn [host set_relative_pos with_host button_state relative_pos port cfg saved split udev].
      repeat split.
      * intros j Hj Hne. apply rel_get_set_other; lia.
      * left. apply rel_get_set_same. lia.
Qed.

(** The round trip at "Trigger" pressed (1.0) on a fresh device, and at
    "RelativeRight" moved to 0.5. *)
Lemma binding_set_get_roundtrip_witness :
  GetBindingValue (SetBindingValue BID_TRIGGER (F32.of_Z 1) (GunCon2State_new 0 0 0 0 0))
    BID_TRIGGER = F32.of_Z 1
  /\ button_state (host (SetBindingValue BID_RELATIVE_RIGHT F32.half
                           (GunCon2State_new 0 0 0 0 0))) = 0.
Proof.
  split.
  - apply (proj1 (binding_set_get_roundtrip (GunCon2State_new 0 0 0 0 0)
                    BID_TRIGGER (F32.of_Z 1))).
    unfold BID_TRIGGER, BID_RELATIVE_LEFT. lia.
  - apply (proj2 (binding_set_get_roundtrip (GunCon2State_new 0 0 0 0 0)
                    BID_RELATIVE_RIGHT F32.half)).
    unfold BID_RELATIVE_RIGHT, BID_RELATIVE_LEFT, BID_RELATIVE_DOWN. lia.
Defined.

(* ================================================================== *)
(** ** Profile selection *)

Lemma profile_of_set_profile (p : ScreenProfile) (s : GunCon2State) :
  profile_of (set_profile p s) = p.
Proof. destruct p; reflexivity. Qed.

Lemma AutoConfigure_scan_absent (table : list GameConfig) (serial : string)
  (s : GunCon2State) :
  ~ in_table serial table ->
  AutoConfigure_scan table serial s = (s, [WarnNoAutomaticConfig serial]).
Proof.
  induction table as [|gc rest IH]; intros Habs; [reflexivity|].
  cbn [AutoConfigure_scan].
  destruct (String.eqb_spec serial (gc_serial gc)) as [E|NE]; cbn [negb].
  - exfalso. apply Habs. exists gc. split; [left; reflexivity|congruence].
  - apply IH. intros (e & Hin & He). apply Habs. exists e. split; [right|]; assumption.
Qed.

Lemma AutoConfigure_scan_first_match (pre post : list GameConfig) (gc : GameConfig)
  (serial : string) (s : GunCon2State) :
  ~ in_table serial pre ->
  gc_serial gc = serial ->
  AutoConfigure_scan (pre ++ gc :: post) serial s =
  (set_profile (recorded_profile gc) (set_active_game serial s),
   [MsgUsingAutomaticConfig serial;
    MsgScale (p_scale_x (recorded_profile gc)) (p_scale_y (recorded_profile gc));
    MsgCenterPosition (p_center_x (recorded_profile gc)) (p_center_y (recorded_profile gc));
    MsgScreenSize (gc_screen_width gc) (gc_screen_height gc)]).
Proof.
  induction pre as [|e pre IH]; intros Hpre Hgc.
  - cbn [app AutoConfigure_scan]. subst serial.
    rewrite String.eqb_refl. reflexivity.
  - cbn [app AutoConfigure_scan].
    destruct (String.eqb_spec serial (gc_serial e)) as [E|NE]; cbn [negb].
    + exfalso. apply Hpre. exists e. split; [left; reflexivity|congruence].
    + apply IH; [|assumption].
      intros (e' & Hin & He). apply Hpre. exists e'. split; [right|]; assumption.
Qed.








(* ================================================================== *)
(** ** Save states *)

Lemma DoMarker_mismatch (stream : list SaveCell) :
  marker_mismatch stream ->
  fst (DoMarker "GunCon2Device" (mkSW ModeRead stream false)) = false.
Proof.
  intros H. unfold DoMarker, Do. cbn [sw_mode_of sw_error sw_stream].
  destruct stream as [|c rest]; [reflexivity|].
  destruct c; try reflexivity.
  cbn [sw_error IsReading sw_mode_of negb orb].
  destruct (String.eqb_spec m "GunCon2Device") as [E|NE]; [|reflexivity].
  exfalso. apply H. assumption.
Qed.

Lemma Freeze_marker_failure (sw : StateWrapper) (s : GunCon2State) :
  fst (DoMarker "GunCon2Device" sw) = false ->
  Freeze sw s = (false, s, snd (DoMarker "GunCon2Device" sw)).
Proof.
  intros H. unfold Freeze.
  destruct (DoMarker "GunCon2Device" sw) as [ok sw']. cbn [fst snd] in *.
  subst ok. reflexivity.
Qed.

Lemma Freeze_read_snapshot (s : GunCon2State) (d : SavedState) (p : ScreenProfile)
  (rest : list SaveCell) :
  Freeze (mkSW ModeRead (snapshot_stream d p ++ rest) false) s =
  (true,
   (if negb (custom_config (cfg s)) && auto_config_done d
    then set_profile p (with_saved d s) else with_saved d s),
   mkSW ModeRead rest false).
Proof.
  destruct d as [px py pm ct cx cy done], p. cbn.
  destruct (custom_config (cfg s)), done; reflexivity.
Qed.

Lemma Freeze_write_snapshot (s : GunCon2State) :
  Freeze (mkSW ModeWrite [] false) s =
  (true, s, mkSW ModeWrite (snapshot_stream (saved s) (profile_of s)) false).
Proof.
  destruct s as [pt c hs d sp u]. destruct d, c. reflexivity.
Qed.

(** C9.  State restore.  A snapshot holds the marker, the saved fields and
    the geometry, in that order.  Restoring it always succeeds and always
    restores [param_x], [param_y], [param_mode], the calibration fields and
    [auto_config_done]; the snapshot's geometry (all the profile fields)
    replaces the live one exactly when custom configuration is off at
    restore time and the snapshot's [auto_config_done] is set, and is
    discarded otherwise; nothing else changes.  A stream that fails the
    marker check makes the load fail and restores no field. *)
Theorem state_restore_conditional_merge (s : GunCon2State) :
  (forall s0, snapshot s0 = snapshot_stream (saved s0) (profile_of s0))
  /\ (forall d p rest,
        let r := restore (snapshot_stream d p ++ rest) s in
        fst r = true
        /\ saved (snd r) = d
        /\ profile_of (snd r)
           = (if negb (custom_config (cfg s)) && auto_config_done d
              then p else profile_of s)
        /\ custom_config (cfg (snd r)) = custom_config (cfg s)
        /\ has_relative_binds (cfg (snd r)) = has_relative_binds (cfg s)
        /\ calibrated (cfg (snd r)) = calibrated (cfg s)
        /\ port (snd r) = port s /\ host (snd r) = host s
        /\ split (snd r) = split s /\ udev (snd r) = udev s)
  /\ (forall stream, marker_mismatch stream -> restore stream s = (false, s)).
Proof.
  split; [|split].
  - intros s0. unfold snapshot. rewrite Freeze_write_snapshot. reflexivity.
  - intros d p rest r. subst r. unfold restore. rewrite Freeze_read_snapshot.
    cbn [fst snd].
    destruct (negb (custom_config (cfg s)) && auto_config_done d).
    + rewrite profile_of_set_profile. repeat split; reflexivity.
    + repeat split; reflexivity.
  - intros stream Hmis. unfold restore.
    rewrite Freeze_marker_failure by (apply DoMarker_mismatch; assumption).
    reflexivity.
Qed.

(** Loading a stream that opens with another device's marker fails and
    leaves a new device as it was. *)
Lemma state_restore_conditional_merge_witness :
  restore [CellMarker "HIDKbdDevice"; CellS16 5] (fresh 0) = (false, fresh 0).
Proof.
  apply (proj2 (proj2 (state_restore_conditional_merge (fresh 0)))).
  cbn [marker_mismatch]. discriminate.
Defined.

(* ================================================================== *)
(** ** Control transfers *)

Lemma u8_range (b : Byte.byte) : 0 <= u8 b < 256.
Proof. unfold u8. pose proof (Byte.to_N_bounded b) as H. lia. Qed.

Lemma lor_shiftl_8 (a b : Z) : 0 <= a < 256 -> Z.lor a (Z.shiftl b 8) = a + 256 * b.
Proof.
  intros Ha.
  assert (Hd : Z.land a (Z.shiftl b 8) = 0).
  { apply Z.bits_inj'. intros n Hn. rewrite Z.land_spec, Z.bits_0.
    destruct (Z.ltb_spec n 8).
    - rewrite (Z.shiftl_spec_low b 8 n) by assumption. apply andb_false_r.
    - replace a with (a mod 2 ^ 8) by (apply Z.mod_small; simpl; lia).
      rewrite Z.mod_pow2_bits_high by lia. reflexivity. }
  rewrite <- Z.lxor_lor by assumption.
  rewrite <- Z.add_nocarry_lxor by assumption.
  rewrite Z.shiftl_mul_pow2 by lia. change (2 ^ 8) with 256. lia.
Qed.

(** What [AutoConfigure] can touch: the geometry and [active_game]. *)
Lemma AutoConfigure_scan_frame (table : list GameConfig) (serial : string)
  (s : GunCon2State) :
  let s' := fst (AutoConfigure_scan table serial s) in
  port s' = port s /\ host s' = host s /\ saved s' = saved s /\ udev s' = udev s
  /\ custom_config (cfg s') = custom_config (cfg s)
  /\ has_relative_binds (cfg s') = has_relative_binds (cfg s)
  /\ calibrated (cfg s') = calibrated (cfg s)
  /\ splitscreen_activated (split s') = splitscreen_activated (split s).
Proof.
  induction table as [|gc rest IH]; cbn [AutoConfigure_scan].
  - cbn. repeat split.
  - destruct (negb (serial =? gc_serial gc)%string); [exact IH|].
    cbn. repeat split.
Qed.

Lemma AutoConfigure_scan_runs (table : list GameConfig) (serial : string)
  (s : GunCon2State) :
  auto_config_runs (snd (AutoConfigure_scan table serial s)) = 1%nat.
Proof.
  induction table as [|gc rest IH]; cbn [AutoConfigure_scan].
  - reflexivity.
  - destruct (negb (serial =? gc_serial gc)%string); [exact IH|reflexivity].
Qed.

Lemma first_control_configure_frame (h : Host) (s : GunCon2State) :
  let us := first_control_configure h s in
  port us = port s /\ host us = host s /\ udev us = udev s
  /\ params_of us = params_of s
  /\ calibration_timer (saved us) = calibration_timer (saved s)
  /\ calibration_pos_x (saved us) = calibration_pos_x (saved s)
  /\ calibration_pos_y (saved us) = calibration_pos_y (saved s)
  /\ custom_config (cfg us) = custom_config (cfg s).
Proof.
  unfold first_control_configure.
  destruct (negb (auto_config_done (saved s)) && negb (custom_config (cfg s))).
  - unfold AutoConfigure.
    destruct (AutoConfigure_scan_frame s_game_config (GetDiscSerial h) s)
      as (Hp & Hh & Hs & Hu & Hc & _).
    cbn zeta in *. unfold params_of.
    cbn [set_auto_config_done with_saved port host udev saved cfg param_x param_y
         param_mode calibration_timer calibration_pos_x calibration_pos_y].
    rewrite Hs. repeat split; assumption.
  - cbn. repeat split.
Qed.

(** The handler, once the descriptor handler has declined. *)
Lemma guncon2_handle_control_declined (h : Host) (p : USBPacket)
  (request value index length : Z) (data : list Byte.byte) (s : GunCon2State) :
  declined h p request value index length data ->
  exists log,
    guncon2_handle_control h p request value index length data s =
    let us := first_control_configure h s in
    let p1 := snd (usb_desc_handle_control h p request value index length data) in
    if request =? Z.lor (ClassInterfaceOutRequest h) 9 then
      d0 <- nth_error data 0 ;; d1 <- nth_error data 1 ;;
      d2 <- nth_error data 2 ;; d3 <- nth_error data 3 ;;
      d4 <- nth_error data 4 ;; d5 <- nth_error data 5 ;;
      let x := Int.to_s16 (Z.lor (u8 d0) (Z.shiftl (u8 d1) 8)) in
      let y := Int.to_s16 (Z.lor (u8 d2) (Z.shiftl (u8 d3) 8)) in
      let m := Int.to_u16 (Z.lor (u8 d4) (Z.shiftl (u8 d5) 8)) in
      Some (set_params x y m us, p1, log ++ [MsgSetParam m x y])
    else Some (us, set_status USB_RET_STALL p1, log).
Proof.
  unfold declined, guncon2_handle_control, first_control_configure. intros Hd.
  destruct (usb_desc_handle_control h p request value index length data) as [ret p1].
  cbn [fst snd] in *.
  destruct (Z.leb_spec 0 ret); [lia|].
  destruct (negb (auto_config_done (saved s)) && negb (custom_config (cfg s))).
  - destruct (AutoConfigure h s) as [s' l]. cbn [fst]. eexists. reflexivity.
  - eexists. reflexivity.
Qed.

(** C6 (as amended).  Among the requests the descriptor handler declines,
    exactly the vendor request [ClassInterfaceOutRequest | 0x09] is
    served: the payload's bytes 0-1, 2-3 and 4-5, little endian, become
    [param_x], [param_y] and [param_mode], and the packet is not stalled
    by the handler.  Every other declined request stalls.  In both cases
    the only other change to the device state is the one-time profile
    selection that opens the handler: it leaves the parameters, the
    calibration fields, the host and raw-input state alone, and when
    [auto_config_done] is already set or custom configuration is on the
    state does not change at all. *)
Theorem control_set_parameter_or_stall (h : Host) (p : USBPacket)
  (request value index length : Z) (data : list Byte.byte) (s : GunCon2State) :
  declined h p request value index length data ->
  let us := first_control_configure h s in
  let p1 := snd (usb_desc_handle_control h p request value index length data) in
  (forall b0 b1 b2 b3 b4 b5 rest,
      is_set_parameter h request ->
      data = b0 :: b1 :: b2 :: b3 :: b4 :: b5 :: rest ->
      exists log,
        guncon2_handle_control h p request value index length data s
        = Some (set_params (Int.to_s16 (u8 b0 + 256 * u8 b1))
                           (Int.to_s16 (u8 b2 + 256 * u8 b3))
                           (u8 b4 + 256 * u8 b5) us, p1, log))
  /\ (~ is_set_parameter h request ->
      exists log,
        guncon2_handle_control h p request value index length data s
        = Some (us, set_status USB_RET_STALL p1, log))
  /\ (params_of us = params_of s
      /\ calibration_timer (saved us) = calibration_timer (saved s)
      /\ calibration_pos_x (saved us) = calibration_pos_x (saved s)
      /\ calibration_pos_y (saved us) = calibration_pos_y (saved s)
      /\ host us = host s /\ udev us = udev s /\ port us = port s)
  /\ (auto_config_done (saved s) = true \/ custom_config (cfg s) = true -> us = s).
Proof.
  intros Hd us p1.
  destruct (guncon2_handle_control_declined h p request value index length data s Hd)
    as [log Hrun].
  cbn zeta in Hrun. fold us p1 in Hrun.
  split; [|split; [|split]].
  - intros b0 b1 b2 b3 b4 b5 rest Hreq Hdata. unfold is_set_parameter in Hreq.
    rewrite Hrun. destruct (Z.eqb_spec request (Z.lor (ClassInterfaceOutRequest h) 9));
      [|contradiction].
    subst data. cbn [nth_error obind].
    rewrite !lor_shiftl_8 by apply u8_range.
    replace (Int.to_u16 (u8 b4 + 256 * u8 b5)) with (u8 b4 + 256 * u8 b5).
    + eexists. reflexivity.
    + unfold Int.to_u16. symmetry. apply Z.mod_small.
      pose proof (u8_range b4). pose proof (u8_range b5). lia.
  - intros Hreq. unfold is_set_parameter in Hreq. rewrite Hrun.
    destruct (Z.eqb_spec request (Z.lor (ClassInterfaceOutRequest h) 9));
      [contradiction|].
    eexists. reflexivity.
  - destruct (first_control_configure_frame h s) as (Hp & Hh & Hu & Hpar & Ht & Hx & Hy & _).
    repeat split; assumption.
  - intros Hor. subst us. unfold first_control_configure.
    destruct Hor as [-> | ->]; [reflexivity|].
    rewrite andb_false_r. reflexivity.
Qed.

(** Set-parameter with payload 10 00 F0 FF 00 01 on a configured device:
    offset (16, -16), progressive mode. *)
Lemma control_set_parameter_or_stall_witness :
  exists log,
    guncon2_handle_control (example_host "SLUS-20219" (F32.half, F32.half))
      (mkPacket USB_TOKEN_OUT 0 USB_RET_SUCCESS []) 0x2109 0 0 6
      [Byte.x10; Byte.x00; Byte.xf0; Byte.xff; Byte.x00; Byte.x01]
      (set_auto_config_done true (fresh 0))
    = Some (set_params 16 (-16) 256 (set_auto_config_done true (fresh 0)),
            mkPacket USB_TOKEN_OUT 0 USB_RET_SUCCESS [], log).
Proof.
  assert (Hd : declined (example_host "SLUS-20219" (F32.half, F32.half))
                 (mkPacket USB_TOKEN_OUT 0 USB_RET_SUCCESS []) 0x2109 0 0 6
                 [Byte.x10; Byte.x00; Byte.xf0; Byte.xff; Byte.x00; Byte.x01]).
  { unfold declined. cbn. lia. }
  destruct (control_set_parameter_or_stall _ _ _ _ _ _ _
              (set_auto_config_done true (fresh 0)) Hd) as (Hset & _).
  apply (Hset Byte.x10 Byte.x00 Byte.xf0 Byte.xff Byte.x00 Byte.x01 []);
    reflexivity.
Defined.

(** The amended part of C6 is needed: on a new device an unsupported
    request stalls and still changes the state - the profile selection has
    run, [auto_config_done] is set and the geometry is the title's. *)
Lemma control_stall_changes_state_counterexample :
  exists s' p' log,
    guncon2_handle_control (example_host "SLUS-20219" (F32.half, F32.half))
      (mkPacket USB_TOKEN_OUT 0 USB_RET_SUCCESS []) 0x2101 0 0 0 [] (fresh 0)
    = Some (s', p', log)
    /\ status p' = USB_RET_STALL
    /\ s' <> fresh 0
    /\ auto_config_done (saved s') = true
    /\ screen_width (cfg s') = 640 /\ center_x (cfg s') = F32.of_Z 390.
Proof.
  eexists _, _, _. split; [reflexivity|].
  split; [reflexivity|]. split; [discriminate|]. repeat split.
Qed.

(* ================================================================== *)
(** ** What host input leaves alone *)

Lemma input_frame_refl (s : GunCon2State) : input_frame s s.
Proof. unfold input_frame. repeat split. Qed.

Lemma input_frame_trans (s1 s2 s3 : GunCon2State) :
  input_frame s1 s2 -> input_frame s2 s3 -> input_frame s1 s3.
Proof.
  unfold input_frame. intros (A1 & A2 & A3 & A4 & A5 & A6 & A7) (B1 & B2 & B3 & B4 & B5 & B6 & B7).
  repeat split; congruence.
Qed.

Lemma updateState_frame (bid : Z) (b : bool) (s : GunCon2State) :
  input_frame s (updateState bid b s).
Proof. unfold updateState. destruct b; unfold input_frame; cbn; repeat split. Qed.

Lemma set_calibrated_frame (b : bool) (s : GunCon2State) :
  input_frame s (set_calibrated b s).
Proof. unfold input_frame; cbn; repeat split. Qed.

Lemma set_udev_gun_frame (x y : float) (s : GunCon2State) :
  input_frame s (set_udev_gun_x x s) /\ input_frame s (set_udev_gun_y y s).
Proof. unfold input_frame; cbn; repeat split. Qed.

Create HintDb frame.
#[local] Hint Resolve input_frame_refl updateState_frame set_calibrated_frame : frame.

Lemma udev_handle_event_frame (h : Host) (s s' : GunCon2State) (ev : input_event) :
  udev_handle_event h s ev = Some s' -> input_frame s s'.
Proof.
  destruct ev as [[| | |c] v|[| |c] v|t c v]; cbn [udev_handle_event]; intros H;
    try (injection H as <-).
  - destruct (negb (calibrated (cfg (updateState BID_TRIGGER (negb (v =? 0)) s))));
      eauto using input_frame_trans with frame.
  - eauto using input_frame_trans with frame.
  - auto with frame.
  - auto with frame.
  - destruct (udev_scale_axis _ _ _ _) as [x|]; [|discriminate].
    injection H as <-. apply (set_udev_gun_frame x x s).
  - destruct (udev_scale_axis _ _ _ _) as [y|]; [|discriminate].
    injection H as <-. apply (set_udev_gun_frame y y s).
  - auto with frame.
  - auto with frame.
Qed.

Lemma udev_poll_gun_frame (h : Host) (events : list input_event) :
  forall s s', udev_poll_gun h events s = Some s' -> input_frame s s'.
Proof.
  induction events as [|ev rest IH]; cbn [udev_poll_gun]; intros s s' H.
  - injection H as <-. apply input_frame_refl.
  - destruct (udev_handle_event h s ev) as [s1|] eqn:E; [|discriminate].
    cbn [obind] in H. eapply input_frame_trans.
    + eapply udev_handle_event_frame; eassumption.
    + apply IH; assumption.
Qed.

Lemma SetBindingValue_frame (idx : Z) (v : float) (s : GunCon2State) :
  input_frame s (SetBindingValue idx v s).
Proof.
  unfold SetBindingValue.
  destruct (idx <? BID_RELATIVE_LEFT).
  - destruct (F32.leb F32.half v); unfold input_frame; cbn; repeat split.
  - destruct (idx <=? BID_RELATIVE_DOWN); [|apply input_frame_refl].
    destruct (negb (F32.eqb _ _)); [|apply input_frame_refl].
    match goal with |- context [if ?c then _ else _] => destruct c end;
      unfold input_frame; cbn; repeat split.
Qed.

Lemma apply_bindings_frame (bs : list (Z * float)) :
  forall s, input_frame s (apply_bindings bs s).
Proof.
  unfold apply_bindings.
  induction bs as [|b rest IH]; cbn [fold_left]; intros s.
  - apply input_frame_refl.
  - eapply input_frame_trans; [apply SetBindingValue_frame|apply IH].
Qed.

(* ================================================================== *)
(** ** Data transfers: shape and frame *)

Lemma start_calibration_frame (pos : Z * Z) (s : GunCon2State) :
  let s' := start_calibration pos s in
  port s' = port s /\ cfg s' = cfg s /\ host s' = host s /\ split s' = split s
  /\ udev s' = udev s
  /\ param_x (saved s') = param_x (saved s) /\ param_y (saved s') = param_y (saved s)
  /\ param_mode (saved s') = param_mode (saved s)
  /\ auto_config_done (saved s') = auto_config_done (saved s).
Proof.
  unfold start_calibration.
  destruct (negb _ && _); cbn; repeat split.
Qed.

Lemma make_report_frame (pos : Z * Z) (s : GunCon2State) :
  let s' := fst (make_report pos s) in
  port s' = port s /\ cfg s' = cfg s /\ host s' = host s /\ split s' = split s
  /\ udev s' = udev s
  /\ param_x (saved s') = param_x (saved s) /\ param_y (saved s') = param_y (saved s)
  /\ param_mode (saved s') = param_mode (saved s)
  /\ auto_config_done (saved s') = auto_config_done (saved s)
  /\ calibration_pos_x (saved s') = calibration_pos_x (saved s)
  /\ calibration_pos_y (saved s') = calibration_pos_y (saved s).
Proof.
  unfold make_report.
  destruct (0 <? calibration_timer (saved s)).
  - match goal with |- context [if ?c then _ else _] => destruct c end;
      cbn; repeat split.
  - destruct (negb _); cbn; repeat split.
Qed.

(** The shape of a data transfer: the input drain, then either the report
    or a stall. *)
Lemma guncon2_handle_data_cases (h : Host) (events : list input_event)
  (p : USBPacket) (s s' : GunCon2State) (p' : USBPacket) (log : list ConsoleMsg) :
  guncon2_handle_data h events p s = Some (s', p', log) ->
  exists us,
    (if udev_has s then udev_poll_gun h events s else Some s) = Some us
    /\ ((pid p = USB_TOKEN_IN /\ ep_nr p = 1 /\ log = []
         /\ exists pos,
             CalculatePosition h us = Some pos
             /\ s' = fst (make_report pos (start_calibration pos us))
             /\ p' = usb_packet_copy p
                       (bytes_of (bits (snd (make_report pos (start_calibration pos us))))))
        \/ (s' = us /\ p' = set_status USB_RET_STALL p
            /\ log = [ErrUnhandledRequest (pid p) (ep_nr p)])).
Proof.
  unfold guncon2_handle_data. intros H.
  destruct (if udev_has s then udev_poll_gun h events s else Some s) as [us|];
    [|discriminate].
  cbn [obind] in H. exists us. split; [reflexivity|].
  destruct (pid p) eqn:Epid.
  - destruct (Z.eqb_spec (ep_nr p) 1) as [Eep|Nep].
    + destruct (CalculatePosition h us) as [pos|] eqn:Epos; [|discriminate].
      cbn [obind] in H.
      destruct (make_report pos (start_calibration pos us)) as [us' out] eqn:Emr.
      injection H as <- <- <-. left.
      split; [reflexivity|]. split; [assumption|]. split; [reflexivity|].
      exists pos. rewrite Emr. cbn [fst snd]. repeat split.
    + injection H as <- <- <-. right. repeat split.
  - injection H as <- <- <-. right. repeat split.
  - injection H as <- <- <-. right. repeat split.
Qed.

Lemma guncon2_handle_data_config (h : Host) (events : list input_event)
  (p : USBPacket) (s s' : GunCon2State) (p' : USBPacket) (log : list ConsoleMsg) :
  guncon2_handle_data h events p s = Some (s', p', log) ->
  auto_config_done (saved s') = auto_config_done (saved s)
  /\ custom_config (cfg s') = custom_config (cfg s)
  /\ profile_of s' = profile_of s
  /\ auto_config_runs log = 0%nat.
Proof.
  intros H. destruct (guncon2_handle_data_cases _ _ _ _ _ _ _ H) as (us & Hus & Hc).
  assert (Hf : input_frame s us).
  { destruct (udev_has s).
    - eapply udev_poll_gun_frame; eassumption.
    - injection Hus as <-. apply input_frame_refl. }
  destruct Hf as (_ & Hsv & _ & Hpr & Hcu & _).
  destruct Hc as [(_ & _ & -> & pos & _ & -> & _)|(-> & _ & ->)].
  - destruct (make_report_frame pos (start_calibration pos us))
      as (_ & Hc1 & _ & _ & _ & _ & _ & _ & Hd1 & _).
    destruct (start_calibration_frame pos us)
      as (_ & Hc2 & _ & _ & _ & _ & _ & _ & Hd2).
    cbn zeta in *. unfold profile_of in *. rewrite Hc1, Hc2, Hd1, Hd2, Hsv, Hcu.
    repeat split; assumption.
  - rewrite Hsv, Hcu. repeat split; assumption.
Qed.

(* ================================================================== *)
(** ** One-time profile selection *)

(** Name the two components of every pair a [let '(v, sw) := ...] of the
    goal takes apart, outermost first. *)
Ltac destruct_let_pairs :=
  repeat match goal with
         | |- context [match ?d with pair _ _ => _ end] =>
             let v := fresh "v" in let w := fresh "sw" in destruct d as [v w]
         end.

(** Whatever the stream holds, [Freeze] either leaves the state alone or
    replaces the saved fields, and the geometry too only with custom
    configuration off. *)
Lemma Freeze_shape (sw : StateWrapper) (s : GunCon2State) :
  exists (b : bool) (d : SavedState) (p : ScreenProfile) (c : bool) (sw' : StateWrapper),
    (Freeze sw s = (b, (if c then set_profile p (with_saved d s) else with_saved d s), sw')
     /\ (c = true -> custom_config (cfg s) = false))
    \/ Freeze sw s = (b, s, sw').
Proof.
  unfold Freeze.
  destruct (DoMarker "GunCon2Device" sw) as [ok sw0].
  destruct ok; cbn [negb].
  - destruct_let_pairs.
    cbn [cfg with_saved saved auto_config_done].
    eexists _, (mkSavedState v v0 v1 v2 v3 v4 v5), _, _, _. left.
    split; [reflexivity|].
    intros Hc. destruct (custom_config (cfg s)); [|reflexivity].
    rewrite andb_false_r in Hc. discriminate.
  - exists false, (saved s), (profile_of s), false, sw0. right. reflexivity.
Qed.

Lemma Freeze_config (sw : StateWrapper) (s : GunCon2State) :
  let s' := snd (fst (Freeze sw s)) in
  custom_config (cfg s') = custom_config (cfg s)
  /\ (custom_config (cfg s) = true -> profile_of s' = profile_of s).
Proof.
  destruct (Freeze_shape sw s) as (b & d & p & c & sw' & [[-> Hc]| ->]); cbn [fst snd].
  - destruct c; cbn.
    + split; [reflexivity|]. intros Hcu. rewrite Hc in Hcu by reflexivity. discriminate.
    + split; reflexivity.
  - split; reflexivity.
Qed.

Lemma UpdateSettings_config (si : SettingsInterface) (s : GunCon2State) :
  let s' := UpdateSettings si s in
  saved s' = saved s
  /\ custom_config (cfg s') = GetConfigBool si "custom_config" false
  /\ (GetConfigBool si "custom_config" false = true -> profile_of s' = settings_profile si).
Proof.
  unfold UpdateSettings.
  destruct (GetConfigBool si "custom_config" false).
  - rewrite orb_true_r. cbn. repeat split.
  - destruct (negb (auto_config_done (saved s)) || false); cbn;
      (split; [reflexivity|split; [reflexivity|discriminate]]).
Qed.

Lemma auto_config_runs_app (l1 l2 : list ConsoleMsg) :
  auto_config_runs (l1 ++ l2) = (auto_config_runs l1 + auto_config_runs l2)%nat.
Proof. unfold auto_config_runs. rewrite filter_app, List.length_app. reflexivity. Qed.

Lemma guncon2_handle_control_config (h : Host) (p : USBPacket)
  (request value index length : Z) (data : list Byte.byte)
  (s s' : GunCon2State) (p' : USBPacket) (log : list ConsoleMsg) :
  guncon2_handle_control h p request value index length data s = Some (s', p', log) ->
  let due := negb (auto_config_done (saved s)) && negb (custom_config (cfg s)) in
  auto_config_runs log = (if due then 1 else 0)%nat
  /\ auto_config_done (saved s') = (due || auto_config_done (saved s))
  /\ custom_config (cfg s') = custom_config (cfg s)
  /\ (due = false -> profile_of s' = profile_of s).
Proof.
  unfold guncon2_handle_control. intros H.
  destruct (AutoConfigure_scan_frame s_game_config (GetDiscSerial h) s)
    as (_ & _ & Hsv & _ & Hcu & _).
  pose proof (AutoConfigure_scan_runs s_game_config (GetDiscSerial h) s) as Hruns.
  fold (AutoConfigure h s) in Hsv, Hcu, Hruns. cbn zeta in Hsv, Hcu.
  destruct (negb (auto_config_done (saved s)) && negb (custom_config (cfg s))) eqn:Edue;
    [destruct (AutoConfigure h s) as [s1 l1]; cbn [fst snd] in *|];
    destruct (usb_desc_handle_control h p request value index length data) as [ret p1];
    (destruct (0 <=? ret);
     [injection H as <- <- <-
     |destruct (request =? Z.lor (ClassInterfaceOutRequest h) 9);
      [destruct (nth_error data 0); [|discriminate];
       destruct (nth_error data 1); [|discriminate];
       destruct (nth_error data 2); [|discriminate];
       destruct (nth_error data 3); [|discriminate];
       destruct (nth_error data 4); [|discriminate];
       destruct (nth_error data 5); [|discriminate];
       cbn [obind] in H; injection H as <- <- <-
      |injection H as <- <- <-]]);
    rewrite ?auto_config_runs_app, ?Hruns; cbn;
    repeat split; try assumption; try reflexivity; try discriminate.
Qed.

Lemma run_op_config (op : DeviceOp) (s s1 : GunCon2State) (log1 : list ConsoleMsg) :
  run_op op s = Some (s1, log1) ->
  auto_config_runs log1
  = (if is_control op && negb (auto_config_done (saved s)) && negb (custom_config (cfg s))
     then 1 else 0)%nat
  /\ (auto_config_runs log1 = 1%nat -> auto_config_done (saved s1) = true)
  /\ (auto_config_done (saved s) = true -> keeps_configured op ->
      auto_config_done (saved s1) = true).
Proof.
  destruct op as [h p request value index length data|h events p|si|idx v|sw];
    cbn [run_op is_control andb]; intros H.
  - destruct (guncon2_handle_control h p request value index length data s)
      as [[[s' p'] log]|] eqn:E; [|discriminate].
    cbn [obind] in H. injection H as <- <-.
    destruct (guncon2_handle_control_config _ _ _ _ _ _ _ _ _ _ _ E) as (Hr & Hd & _).
    cbn zeta in *. rewrite Hr, Hd.
    destruct (auto_config_done (saved s)), (custom_config (cfg s)); cbn;
      repeat split; auto; discriminate.
  - destruct (guncon2_handle_data h events p s) as [[[s' p'] log]|] eqn:E; [|discriminate].
    cbn [obind] in H. injection H as <- <-.
    destruct (guncon2_handle_data_config _ _ _ _ _ _ _ E) as (Hd & _ & _ & Hr).
    rewrite Hr, Hd. repeat split; auto; discriminate.
  - injection H as <- <-.
    destruct (UpdateSettings_config si s) as (Hsv & _). cbn zeta in Hsv. rewrite Hsv.
    repeat split; auto; discriminate.
  - injection H as <- <-.
    destruct (SetBindingValue_frame idx v s) as (_ & Hsv & _). rewrite Hsv.
    repeat split; auto; discriminate.
  - destruct (Freeze sw s) as [[b s'] sw'] eqn:E. injection H as <- <-.
    split; [reflexivity|]. split; [discriminate|].
    intros Hd Hk. cbn [keeps_configured] in Hk. specialize (Hk s Hd).
    rewrite E in Hk. exact Hk.
Qed.

Lemma run_ops_at_most_once (ops : list DeviceOp) :
  forall s s' log,
    Forall keeps_configured ops ->
    run_ops ops s = Some (s', log) ->
    (auto_config_runs log <= 1)%nat
    /\ (auto_config_done (saved s) = true -> auto_config_runs log = 0%nat).
Proof.
  induction ops as [|op rest IH]; cbn [run_ops]; intros s s' log Hk H.
  - injection H as <- <-. split; [cbn; lia|reflexivity].
  - destruct (run_op op s) as [[s1 log1]|] eqn:E1; [|discriminate].
    cbn [obind] in H.
    destruct (run_ops rest s1) as [[s2 log2]|] eqn:E2; [|discriminate].
    cbn [obind] in H. injection H as <- <-.
    inversion Hk as [|? ? Hop Hrest]; subst.
    destruct (run_op_config _ _ _ _ E1) as (Hr1 & Hset & Hkeep).
    destruct (IH _ _ _ Hrest E2) as (Hle & Hzero).
    rewrite auto_config_runs_app.
    destruct (auto_config_done (saved s)) eqn:Hd.
    + rewrite andb_false_r in Hr1. cbn [andb] in Hr1.
      rewrite Hr1, (Hzero (Hkeep eq_refl Hop)). split; [lia|reflexivity].
    + split; [|discriminate].
      destruct (is_control op && negb false && negb (custom_config (cfg s))).
      * rewrite Hr1, (Hzero (Hset Hr1)). lia.
      * rewrite Hr1. cbn. exact Hle.
Qed.

Lemma run_op_custom (op : DeviceOp) (s s1 : GunCon2State) (log1 : list ConsoleMsg) :
  run_op op s = Some (s1, log1) ->
  match op with
  | OpUpdateSettings si =>
      GetConfigBool si "custom_config" false = true ->
      custom_config (cfg s1) = true /\ profile_of s1 = settings_profile si
  | _ =>
      custom_config (cfg s) = true ->
      custom_config (cfg s1) = true /\ profile_of s1 = profile_of s
      /\ auto_config_runs log1 = 0%nat
  end.
Proof.
  destruct op as [h p request value index length data|h events p|si|idx v|sw];
    cbn [run_op]; intros H Hc.
  - destruct (guncon2_handle_control h p request value index length data s)
      as [[[s' p'] log]|] eqn:E; [|discriminate].
    cbn [obind] in H. injection H as <- <-.
    destruct (guncon2_handle_control_config _ _ _ _ _ _ _ _ _ _ _ E) as (Hr & _ & Hcu & Hp).
    cbn zeta in *. rewrite Hc, andb_false_r in *.
    repeat split; auto.
  - destruct (guncon2_handle_data h events p s) as [[[s' p'] log]|] eqn:E; [|discriminate].
    cbn [obind] in H. injection H as <- <-.
    destruct (guncon2_handle_data_config _ _ _ _ _ _ _ E) as (_ & Hcu & Hp & Hr).
    rewrite Hcu. repeat split; auto.
  - injection H as <- <-.
    destruct (UpdateSettings_config si s) as (_ & Hcu & Hp). cbn zeta in *.
    rewrite Hcu. split; auto.
  - injection H as <- <-.
    destruct (SetBindingValue_frame idx v s) as (_ & _ & _ & Hp & Hcu & _).
    rewrite Hcu. repeat split; auto.
  - destruct (Freeze sw s) as [[b s'] sw'] eqn:E. injection H as <- <-.
    destruct (Freeze_config sw s) as (Hcu & Hp). cbn zeta in *. rewrite E in *.
    cbn [fst snd] in *. rewrite Hcu. repeat split; auto.
Qed.

Lemma keeps_configured_save : keeps_configured (OpFreeze (mkSW ModeWrite [] false)).
Proof. intros s Hd. rewrite Freeze_write_snapshot. exact Hd. Qed.

Lemma keeps_configured_restore (d : SavedState) (p : ScreenProfile) (rest : list SaveCell) :
  auto_config_done d = true ->
  keeps_configured (OpFreeze (mkSW ModeRead (snapshot_stream d p ++ rest) false)).
Proof.
  intros Hd s _. rewrite Freeze_read_snapshot. cbn [fst snd].
  destruct (negb (custom_config (cfg s)) && auto_config_done d); cbn; exact Hd.
Qed.

(** C7 (as amended).  Profile auto-selection is triggered only by a
    control request that arrives while [auto_config_done] is clear and
    custom configuration is off, and [auto_config_done] is set by that
    same request.  Hence over any run of the device's operations in which
    no state restore clears a set [auto_config_done], the selection runs
    at most once (and not at all once the flag is set).  When custom
    configuration is on the selection never runs and no operation changes
    the geometry, except [UpdateSettings], which installs the user's. *)
Theorem auto_selection_at_most_once :
  (forall op s s1 log1,
      run_op op s = Some (s1, log1) ->
      auto_config_runs log1
      = (if is_control op && negb (auto_config_done (saved s))
            && negb (custom_config (cfg s)) then 1 else 0)%nat
      /\ (auto_config_runs log1 = 1%nat -> auto_config_done (saved s1) = true))
  /\ (forall ops s s' log,
         Forall keeps_configured ops ->
         run_ops ops s = Some (s', log) ->
         (auto_config_runs log <= 1)%nat
         /\ (auto_config_done (saved s) = true -> auto_config_runs log = 0%nat))
  /\ (forall op s s1 log1,
         run_op op s = Some (s1, log1) ->
         match op with
         | OpUpdateSettings si =>
             GetConfigBool si "custom_config" false = true ->
             custom_config (cfg s1) = true /\ profile_of s1 = settings_profile si
         | _ =>
             custom_config (cfg s) = true ->
             custom_config (cfg s1) = true /\ profile_of s1 = profile_of s
             /\ auto_config_runs log1 = 0%nat
         end).
Proof.
  split; [|split].
  - intros op s s1 log1 H.
    destruct (run_op_config _ _ _ _ H) as (Hr & Hs & _). split; assumption.
  - intros ops s s' log Hk H. exact (run_ops_at_most_once ops s s' log Hk H).
  - intros op s s1 log1 H. exact (run_op_custom op s s1 log1 H).
Qed.

(** Two control requests, a poll and a state save on a new device: one
    selection at most. *)
Lemma auto_selection_at_most_once_witness :
  exists s' log,
    run_ops example_ops (fresh 0) = Some (s', log)
    /\ (auto_config_runs log <= 1)%nat.
Proof.
  destruct (run_ops example_ops (fresh 0)) as [[s' log]|] eqn:E.
  - exists s', log. split; [reflexivity|].
    refine (proj1 (proj1 (proj2 auto_selection_at_most_once)
                     example_ops (fresh 0) s' log _ E)).
    repeat constructor. exact keeps_configured_save.
  - vm_compute in E. discriminate E.
Defined.

(** The amended part of C7 is needed: a control request, the restore of a
    snapshot taken from a device that had not been configured, and a
    second control request run the selection twice on one device. *)
Lemma auto_selection_twice_counterexample :
  exists s' log,
    run_ops [example_control;
             OpFreeze (mkSW ModeRead (snapshot (fresh 0)) false);
             example_control]
            (fresh 0) = Some (s', log)
    /\ auto_config_runs log = 2%nat.
Proof. eexists _, _. split; reflexivity. Qed.

(* ================================================================== *)
(** ** Coordinate mapper *)

Lemma param_offset_spec (mode param : Z) :
  param_offset mode param = spec_offset mode param.
Proof. unfold param_offset, spec_offset. now rewrite progressive_flag_bit. Qed.

Lemma scaled_axis_spec (p : float) (extent : Z) (scale center : float) :
  0 <= extent -> scaled_axis p extent scale center = spec_axis p extent scale center.
Proof.
  intros H. unfold scaled_axis, spec_axis.
  rewrite Z.quot_div_nonneg by lia. reflexivity.
Qed.

Lemma s32_checked_some (z r : Z) :
  Int.s32_checked z = Some r <-> r = z /\ Int.in_s32 z = true.
Proof.
  unfold Int.s32_checked. destruct (Int.in_s32 z); split.
  - intros H. injection H as <-. split; reflexivity.
  - intros [-> _]. reflexivity.
  - discriminate.
  - intros [_ H]. discriminate.
Qed.

Lemma CalculatePosition_raw_spec (s : GunCon2State) (px py : float) (X Y : Z) :
  wf_state s ->
  (CalculatePosition_raw s px py = Some (X, Y)
   <-> spec_mapped_position (profile_of s) (params_of s) px py = Some (X, Y)
       /\ Int.in_s32 X = true /\ Int.in_s32 Y = true).
Proof.
  intros (_ & Hw & Hh & _).
  unfold CalculatePosition_raw, spec_mapped_position, profile_of, params_of.
  cbn [p_screen_width p_screen_height p_scale_x p_scale_y p_center_x p_center_y
       dp_x dp_y dp_mode].
  rewrite !param_offset_spec, !scaled_axis_spec by lia.
  destruct (spec_axis px _ _ _) as [x|]; cbn [obind];
    [|split; [discriminate|intros [H _]; discriminate]].
  destruct (spec_axis py _ _ _) as [y|]; cbn [obind];
    [|split; [discriminate|intros [H _]; discriminate]].
  split.
  - intros H.
    destruct (Int.s32_checked (x - _)) as [x'|] eqn:Ex; [|discriminate].
    cbn [obind] in H.
    destruct (Int.s32_checked (y - _)) as [y'|] eqn:Ey; [|discriminate].
    cbn [obind] in H. injection H as <- <-.
    apply s32_checked_some in Ex, Ey. destruct Ex as [-> Hx], Ey as [-> Hy].
    repeat split; assumption.
  - intros (H & Hx & Hy). injection H as <- <-.
    unfold Int.s32_checked. rewrite Hx. cbn [obind]. rewrite Hy. reflexivity.
Qed.

Lemma CalculatePosition_map_onscreen (s : GunCon2State) (px py : float) :
  onscreen px py ->
  CalculatePosition_map s px py =
  '(x, y) <- CalculatePosition_raw s px py ;;
  Some (Int.to_s16 (Z.max x 1), Int.to_s16 (Z.max y 1)).
Proof.
  intros [Hx Hy]. unfold CalculatePosition_map. rewrite Hx, Hy. reflexivity.
Qed.

(** [F32.round] on halfway and near-halfway values: away from zero. *)
Example round_half_away :
  F32.to_s32 (F32.round (F32.lit 25 10)) = Some 3
  /\ F32.to_s32 (F32.round (F32.neg (F32.lit 25 10))) = Some (-3)
  /\ F32.to_s32 (F32.round (F32.lit 249 100)) = Some 2
  /\ F32.to_s32 (F32.round (F32.neg (F32.lit 3 10))) = Some 0.
Proof. repeat split. Qed.

(** Where no split-screen aim adjustment applies, the second stage of
    [CalculatePosition] hands the pointer sample on as it is. *)
Lemma CalculatePosition_splitscreen_inactive (s : GunCon2State) (p : float * float) :
  no_split_adjustment s -> CalculatePosition_splitscreen s p = p.
Proof.
  intros H. unfold CalculatePosition_splitscreen.
  destruct H as [H|[(H1 & H2 & H3 & H4)|(H0 & H1)]].
  - rewrite H, andb_false_r. reflexivity.
  - apply String.eqb_neq in H1, H2, H3, H4. rewrite H1, H2, H3, H4. reflexivity.
  - apply Z.eqb_neq in H0, H1. rewrite H0, H1. unfold when.
    destruct (_ && _); [|reflexivity].
    repeat match goal with |- context [if ?b then _ else _] => destruct b end;
      reflexivity.
Qed.

(** C4.  The algorithm of the specification is what the code computes
    for the on-screen sample [(px, py)] the mapping stage consumes
    ([pointer_x], [pointer_y] at line 760), which is the pointer sample
    after the split-screen aim adjustment: [p * extent - extent / 2] with
    truncating halving, times the scale, plus the centre, rounded to the
    nearest integer, minus the title offset - in full when mode bit 0x0100
    is clear, halved (truncating) when it is set.  The 32-bit value the
    code holds before the clamp is the specification's value whenever that
    fits [s32], and the position returned is that value clamped to a
    minimum of 1 and narrowed to 16 bits.  [CalculatePosition] returns
    what the mapping returns for the adjusted sample; for the pointer
    sample itself it does so where no split-screen aim adjustment
    applies. *)
Theorem mapping_algorithm_exact (s : GunCon2State) (px py : float) :
  wf_state s -> onscreen px py ->
  (forall X Y,
      CalculatePosition_raw s px py = Some (X, Y)
      <-> spec_mapped_position (profile_of s) (params_of s) px py = Some (X, Y)
          /\ Int.in_s32 X = true /\ Int.in_s32 Y = true)
  /\ (forall X Y,
         spec_mapped_position (profile_of s) (params_of s) px py = Some (X, Y) ->
         Int.in_s32 X = true -> Int.in_s32 Y = true ->
         CalculatePosition_map s px py
         = Some (Int.to_s16 (Z.max X 1), Int.to_s16 (Z.max Y 1)))
  /\ (forall h,
         CalculatePosition_splitscreen s (CalculatePosition_pointer h s) = (px, py) ->
         CalculatePosition h s = CalculatePosition_map s px py)
  /\ (forall h X Y,
         no_split_adjustment s ->
         CalculatePosition_pointer h s = (px, py) ->
         spec_mapped_position (profile_of s) (params_of s) px py = Some (X, Y) ->
         Int.in_s32 X = true -> Int.in_s32 Y = true ->
         CalculatePosition h s
         = Some (Int.to_s16 (Z.max X 1), Int.to_s16 (Z.max Y 1))).
Proof.
  intros Hwf Hon.
  assert (Hmap : forall X Y,
             spec_mapped_position (profile_of s) (params_of s) px py = Some (X, Y) ->
             Int.in_s32 X = true -> Int.in_s32 Y = true ->
             CalculatePosition_map s px py
             = Some (Int.to_s16 (Z.max X 1), Int.to_s16 (Z.max Y 1))).
  { intros X Y Hspec HX HY.
    rewrite CalculatePosition_map_onscreen by assumption.
    assert (Hraw : CalculatePosition_raw s px py = Some (X, Y)).
    { apply CalculatePosition_raw_spec; [assumption|]. repeat split; assumption. }
    rewrite Hraw. reflexivity. }
  split; [|split; [|split]].
  - intros X Y. apply CalculatePosition_raw_spec. assumption.
  - exact Hmap.
  - intros h Hptr. unfold CalculatePosition. rewrite Hptr. reflexivity.
  - intros h X Y Hno Hptr Hspec HX HY. unfold CalculatePosition.
    rewrite (CalculatePosition_splitscreen_inactive s _ Hno), Hptr.
    apply Hmap; assumption.
Qed.

(** Offset (16, -15) in progressive mode, default geometry, pointer sample
    (0.75, 0.25) on a device without split screen: x = 480 - 8,
    y = 60 + 7. *)
Lemma mapping_algorithm_exact_witness :
  CalculatePosition (example_host "" (F32.lit 3 4, F32.lit 1 4))
    (set_params 16 (-15) 0x0100 (fresh 0))
  = Some (472, 67).
Proof.
  refine (proj2 (proj2 (proj2 (mapping_algorithm_exact
                                 (set_params 16 (-15) 0x0100 (fresh 0))
                                 (F32.lit 3 4) (F32.lit 1 4) _ _)))
            (example_host "" (F32.lit 3 4, F32.lit 1 4)) 472 67 _ _ _ _ _).
  - unfold wf_state. cbn. lia.
  - split; reflexivity.
  - left. reflexivity.
  - reflexivity.
  - reflexivity.
  - reflexivity.
  - reflexivity.
Defined.

(** C4 as the specification words it fails for the pointer sample: with
    split screen detected for Time Crisis 2 (U) on port 0, the on-screen
    sample (0.5, 0.5) on the default geometry, for which the algorithm
    gives (320, 120), is reported as (300, 119). *)
Lemma mapping_pointer_sample_counterexample :
  let h := example_host "SLUS-20219" (F32.half, F32.half) in
  let s := split_screen_device 0 in
  wf_state s
  /\ CalculatePosition_pointer h s = (F32.half, F32.half)
  /\ onscreen F32.half F32.half
  /\ spec_mapped_position (profile_of s) (params_of s) F32.half F32.half = Some (320, 120)
  /\ CalculatePosition h s = Some (300, 119)
  /\ ~ no_split_adjustment s.
Proof.
  cbv zeta. split; [unfold wf_state; cbn; lia|].
  split; [reflexivity|]. split; [split; reflexivity|].
  split; [vm_compute; reflexivity|]. split; [vm_compute; reflexivity|].
  intros [H|[(H & _)|(H & _)]]; [discriminate H|now apply H|now apply H].
Qed.

(** The off-screen sentinel. *)
Lemma sentinel_when_offscreen (s : GunCon2State) (px py : float) :
  F32.ltb px F32.zero = true \/ F32.ltb py F32.zero = true ->
  CalculatePosition_map s px py = Some (0, 0).
Proof.
  intros H. unfold CalculatePosition_map.
  destruct H as [-> | ->]; [reflexivity|]. rewrite orb_true_r. reflexivity.
Qed.

Lemma to_s16_small (z : Z) : -32768 <= z <= 32767 -> Int.to_s16 z = z.
Proof. intros H. unfold Int.to_s16. rewrite Z.mod_small by lia. lia. Qed.

(** The clamp does what its comment says as long as the value before the
    clamp does not exceed the 16-bit maximum. *)
Lemma clamp_within_s16 (s : GunCon2State) (px py : float) (X Y : Z) :
  onscreen px py ->
  CalculatePosition_raw s px py = Some (X, Y) ->
  X <= 32767 -> Y <= 32767 ->
  CalculatePosition_map s px py = Some (Z.max X 1, Z.max Y 1)
  /\ 1 <= Z.max X 1 <= 32767 /\ 1 <= Z.max Y 1 <= 32767.
Proof.
  intros Hon Hraw HX HY.
  rewrite CalculatePosition_map_onscreen by assumption. rewrite Hraw. cbn [obind].
  rewrite !to_s16_small by lia. repeat split; lia.
Qed.

(** C3 (code defect).  The clamp to a minimum of 1 is taken on the 32-bit
    value and the result is then narrowed to 16 bits, so a value that is a
    multiple of 65536 is reported as 0.  With manual screen configuration
    and the centre at (65536, 65536) the on-screen sample (0.5, 0.5) maps
    to 65536 on both axes before the clamp, and the device returns the
    off-screen sentinel (0, 0) for it. *)
Theorem clamp_narrowing_yields_sentinel :
  let s := UpdateSettings far_centre_settings (fresh 0) in
  custom_config (cfg s) = true
  /\ onscreen F32.half F32.half
  /\ CalculatePosition_raw s F32.half F32.half = Some (65536, 65536)
  /\ CalculatePosition_map s F32.half F32.half = Some (0, 0)
  /\ CalculatePosition (example_host "" (F32.half, F32.half)) s = Some (0, 0).
Proof. repeat split. Qed.

Lemma CalculatePosition_map_depends (s1 s2 : GunCon2State) (px py : float) :
  profile_of s1 = profile_of s2 -> params_of s1 = params_of s2 ->
  CalculatePosition_map s1 px py = CalculatePosition_map s2 px py.
Proof.
  unfold profile_of, params_of. intros Hp Hd.
  injection Hp as Hsx Hsy Hcx Hcy Hw Hh. injection Hd as Hx Hy Hm.
  unfold CalculatePosition_map, CalculatePosition_raw.
  rewrite Hsx, Hsy, Hcx, Hcy, Hw, Hh, Hx, Hy, Hm. reflexivity.
Qed.

Lemma CalculatePosition_splitscreen_depends (s1 s2 : GunCon2State) (p : float * float) :
  port s1 = port s2 -> split s1 = split s2 ->
  CalculatePosition_splitscreen s1 p = CalculatePosition_splitscreen s2 p.
Proof.
  intros Hp Hs. unfold CalculatePosition_splitscreen. rewrite Hp, Hs. reflexivity.
Qed.

(** A poll outside calibration changes nothing and reports what the
    mapper returned (or the sentinel, for an off-screen shot). *)
Lemma idle_poll_no_side_effect (h : Host) (events : list input_event)
  (p : USBPacket) (s : GunCon2State) (pos : Z * Z) :
  pid p = USB_TOKEN_IN -> ep_nr p = 1 -> udev_has s = false ->
  calibration_timer (saved s) = 0 ->
  button_active s BID_RECALIBRATE = false ->
  CalculatePosition h s = Some pos ->
  exists out,
    guncon2_handle_data h events p s
    = Some (s, usb_packet_copy p (bytes_of (bits out)), [])
    /\ (button_active s BID_SHOOT_OFFSCREEN = false ->
        pos_x out = fst pos /\ pos_y out = snd pos).
Proof.
  intros Hpid Hep Hud Ht Hrec Hpos.
  unfold guncon2_handle_data. rewrite Hud. cbn [obind]. rewrite Hpid, Hep.
  cbn [Z.eqb Pos.eqb]. rewrite Hpos. cbn [obind].
  unfold start_calibration. unfold button_active in Hrec. rewrite Hrec. cbn [andb].
  unfold make_report. rewrite Ht. cbn [Z.ltb Z.compare].
  unfold button_active.
  destruct (negb (Z.land (button_state (host s)) (Int.bit BID_SHOOT_OFFSCREEN) =? 0)).
  - eexists. split; [reflexivity|discriminate].
  - eexists. split; [reflexivity|]. intros _. split; reflexivity.
Qed.

(** C5 (as amended).  [CalculatePosition] is a function of the pointer
    sample (the normalised display position the input source yields), the
    geometry, the title offset and the split-screen correction inputs
    (port, active title, split-screen flag): two calls that agree on these
    return the same position, whatever the rest of the two device states
    and hosts.  It has no side effect: a poll outside calibration leaves
    the device state as it was and reports the position the mapper
    returned. *)
Theorem mapper_pure_deterministic :
  (forall h1 h2 s1 s2,
      CalculatePosition_pointer h1 s1 = CalculatePosition_pointer h2 s2 ->
      profile_of s1 = profile_of s2 ->
      params_of s1 = params_of s2 ->
      port s1 = port s2 -> split s1 = split s2 ->
      CalculatePosition h1 s1 = CalculatePosition h2 s2)
  /\ (forall h events p s pos,
         pid p = USB_TOKEN_IN -> ep_nr p = 1 -> udev_has s = false ->
         calibration_timer (saved s) = 0 ->
         button_active s BID_RECALIBRATE = false ->
         CalculatePosition h s = Some pos ->
         exists out,
           guncon2_handle_data h events p s
           = Some (s, usb_packet_copy p (bytes_of (bits out)), [])
           /\ (button_active s BID_SHOOT_OFFSCREEN = false ->
               pos_x out = fst pos /\ pos_y out = snd pos)).
Proof.
  split.
  - intros h1 h2 s1 s2 Hptr Hprof Hpar Hport Hsplit.
    unfold CalculatePosition. rewrite Hptr.
    rewrite (CalculatePosition_splitscreen_depends s1 s2 _ Hport Hsplit).
    destruct (CalculatePosition_splitscreen s2 (CalculatePosition_pointer h2 s2))
      as [x y].
    apply CalculatePosition_map_depends; assumption.
  - intros h events p s pos. apply idle_poll_no_side_effect.
Qed.

(** Two devices that differ in buttons, calibration state and raw-input
    ranges map the same sample to the same position. *)
Lemma mapper_pure_deterministic_witness :
  CalculatePosition (example_host "" (F32.half, F32.half)) (fresh 0)
  = CalculatePosition (example_host "SLUS-20219" (F32.half, F32.half))
      (SetBindingValue BID_A (F32.of_Z 1)
         (set_calibration 3 5 5 (GunCon2State_new 0 1 2 3 4))).
Proof.
  apply (proj1 mapper_pure_deterministic); reflexivity.
Defined.

(** The amended part of C5 is needed: same pointer sample (0.5, 0.5), same
    geometry, same title offset - and a different position once the
    split-screen flag is raised for Time Crisis 2 (U). *)
Lemma mapper_split_screen_counterexample :
  let h := example_host "SLUS-20219" (F32.half, F32.half) in
  CalculatePosition_pointer h (fresh 0) = CalculatePosition_pointer h (split_screen_device 0)
  /\ profile_of (fresh 0) = profile_of (split_screen_device 0)
  /\ params_of (fresh 0) = params_of (split_screen_device 0)
  /\ CalculatePosition h (fresh 0) = Some (320, 120)
  /\ CalculatePosition h (split_screen_device 0) = Some (300, 119).
Proof. repeat split. Qed.

(* ================================================================== *)
(** ** Reports and calibration *)

Lemma u8_byte_of_Z (z : Z) : 0 <= z < 256 -> u8 (byte_of_Z z) = z.
Proof.
  intros Hz. unfold u8, byte_of_Z. rewrite Z.mod_small by assumption.
  pose proof (Byte.to_of_N_option_map (Z.to_N z)) as H.
  destruct (Byte.of_N (Z.to_N z)) as [b|]; cbn [option_map] in H.
  - destruct (N.leb_spec (Z.to_N z) 255); [|discriminate].
    injection H as ->. lia.
  - destruct (N.leb_spec (Z.to_N z) 255); [discriminate|lia].
Qed.

Lemma le16_inj (a b : Z) :
  bytes_of (le16 a) = bytes_of (le16 b) -> Int.to_u16 a = Int.to_u16 b.
Proof.
  unfold bytes_of, le16. cbn [map]. intros H. injection H as Hlo Hhi.
  assert (Ra : 0 <= Int.to_u16 a < 65536) by (unfold Int.to_u16; apply Z.mod_pos_bound; lia).
  assert (Rb : 0 <= Int.to_u16 b < 65536) by (unfold Int.to_u16; apply Z.mod_pos_bound; lia).
  assert (Dlo : forall z, 0 <= z < 65536 -> 0 <= z mod 256 < 256)
    by (intros z _; apply Z.mod_pos_bound; lia).
  assert (Dhi : forall z, 0 <= z < 65536 -> 0 <= z / 256 < 256).
  { intros z Hz. split; [apply Z.div_pos; lia|apply Z.div_lt_upper_bound; lia]. }
  apply (f_equal u8) in Hlo, Hhi.
  rewrite !u8_byte_of_Z in Hlo by (apply Dlo; assumption).
  rewrite !u8_byte_of_Z in Hhi by (apply Dhi; assumption).
  rewrite (Z.div_mod (Int.to_u16 a) 256), (Z.div_mod (Int.to_u16 b) 256) by lia.
  rewrite Hlo, Hhi. reflexivity.
Qed.

Lemma to_u16_inj_s16 (a b : Z) :
  -32768 <= a <= 32767 -> -32768 <= b <= 32767 ->
  Int.to_u16 a = Int.to_u16 b -> a = b.
Proof.
  unfold Int.to_u16. intros Ha Hb H.
  pose proof (Z.div_mod a 65536) as Da. pose proof (Z.div_mod b 65536) as Db.
  pose proof (Z.mod_pos_bound a 65536). pose proof (Z.mod_pos_bound b 65536).
  assert (a / 65536 = 0 \/ a / 65536 = -1) by nia.
  assert (b / 65536 = 0 \/ b / 65536 = -1) by nia.
  nia.
Qed.

(** The six bytes of a report determine its position. *)
Lemma carried_position_unique (p : USBPacket) (o1 o2 : GunCon2Out) :
  carries p o1 -> carries p o2 ->
  -32768 <= pos_x o1 <= 32767 -> -32768 <= pos_x o2 <= 32767 ->
  -32768 <= pos_y o1 <= 32767 -> -32768 <= pos_y o2 <= 32767 ->
  pos_x o1 = pos_x o2 /\ pos_y o1 = pos_y o2.
Proof.
  unfold carries, bits, bytes_of. intros H1 H2 Hx1 Hx2 Hy1 Hy2.
  rewrite H1 in H2. rewrite !map_app in H2.
  cbn [le16 map app] in H2.
  injection H2 as _ _ Hx0 Hx1' Hy0 Hy1'.
  split; apply to_u16_inj_s16; try assumption; apply le16_inj;
    unfold bytes_of, le16; cbn [map]; congruence.
Qed.

Lemma forced_trigger_bit (btn : Z) :
  Z.testbit (Int.to_u16 (Z.land btn (Int.u32_not (Int.bit BID_TRIGGER)))) BID_TRIGGER = false.
Proof.
  rewrite testbit_to_u16, Z.land_spec, testbit_u32_not.
  rewrite bit_pow2 by (unfold BID_TRIGGER; lia).
  rewrite Z.pow2_bits_true by (unfold BID_TRIGGER; lia).
  cbn [negb]. now rewrite !andb_false_r.
Qed.

(** A transfer on the report endpoint never stalls: it yields the report
    built from the drained input. *)
Lemma guncon2_handle_data_report (h : Host) (events : list input_event)
  (p : USBPacket) (s s' : GunCon2State) (p' : USBPacket) (log : list ConsoleMsg) :
  pid p = USB_TOKEN_IN -> ep_nr p = 1 ->
  guncon2_handle_data h events p s = Some (s', p', log) ->
  exists us pos,
    (if udev_has s then udev_poll_gun h events s else Some s) = Some us
    /\ CalculatePosition h us = Some pos
    /\ s' = fst (make_report pos (start_calibration pos us))
    /\ p' = usb_packet_copy p
              (bytes_of (bits (snd (make_report pos (start_calibration pos us)))))
    /\ log = [].
Proof.
  intros Hpid Hep H. unfold guncon2_handle_data in H.
  destruct (if udev_has s then udev_poll_gun h events s else Some s) as [us|];
    [|discriminate].
  cbn [obind] in H. rewrite Hpid, Hep in H. cbn [Z.eqb Pos.eqb] in H.
  destruct (CalculatePosition h us) as [pos|] eqn:Epos; [|discriminate].
  cbn [obind] in H.
  destruct (make_report pos (start_calibration pos us)) as [us' out] eqn:E.
  injection H as <- <- <-. exists us, pos. rewrite E. cbn [fst snd].
  split; [reflexivity|]. split; [assumption|]. split; [reflexivity|].
  split; reflexivity.
Qed.

Lemma start_calibration_armed (pos : Z * Z) (us : GunCon2State) :
  button_active us BID_RECALIBRATE = true -> calibration_timer (saved us) = 0 ->
  start_calibration pos us
  = set_calibration GUNCON2_CALIBRATION_DELAY (fst pos) (snd pos) us.
Proof.
  unfold start_calibration, button_active. intros -> ->. reflexivity.
Qed.

Lemma start_calibration_busy (pos : Z * Z) (us : GunCon2State) :
  calibration_timer (saved us) <> 0 -> start_calibration pos us = us.
Proof.
  unfold start_calibration. intros H.
  destruct (Z.eqb_spec (calibration_timer (saved us)) 0); [contradiction|].
  rewrite andb_false_r. reflexivity.
Qed.

Lemma start_calibration_idle (pos : Z * Z) (us : GunCon2State) :
  button_active us BID_RECALIBRATE = false -> start_calibration pos us = us.
Proof. unfold start_calibration, button_active. intros ->. reflexivity. Qed.

(** The report while the timer runs: trigger bit cleared, frozen position
    until the timer drops below the report delay, then (0, 0). *)
Lemma make_report_calibrating (pos : Z * Z) (us : GunCon2State) :
  0 < calibration_timer (saved us) < 65536 ->
  exists btn,
    make_report pos us =
    (set_calibration_timer (calibration_timer (saved us) - 1) us,
     mkOut btn
       (if calibration_timer (saved us) - 1 <? GUNCON2_CALIBRATION_REPORT_DELAY
        then 0 else calibration_pos_x (saved us))
       (if calibration_timer (saved us) - 1 <? GUNCON2_CALIBRATION_REPORT_DELAY
        then 0 else calibration_pos_y (saved us)))
    /\ Z.testbit btn BID_TRIGGER = false.
Proof.
  intros Ht. unfold make_report.
  destruct (Z.ltb_spec 0 (calibration_timer (saved us))); [|lia].
  replace (Int.to_u16 (calibration_timer (saved us) - 1))
    with (calibration_timer (saved us) - 1)
    by (unfold Int.to_u16; rewrite Z.mod_small; lia).
  cbn [set_calibration_timer set_calibration with_saved saved calibration_timer].
  eexists. split; [|apply forced_trigger_bit].
  destruct (_ <? GUNCON2_CALIBRATION_REPORT_DELAY); reflexivity.
Qed.

Lemma make_report_idle (pos : Z * Z) (us : GunCon2State) :
  calibration_timer (saved us) = 0 ->
  exists btn,
    make_report pos us =
    (us, if button_active us BID_SHOOT_OFFSCREEN
         then mkOut btn 0 0
         else mkOut (Int.to_u16 (Z.lor (Int.to_u16 (Int.u32_not (button_state (host us))))
                                   (Z.land (param_mode (saved us)) GUNCON2_FLAG_PROGRESSIVE)))
                    (fst pos) (snd pos))
    /\ Z.testbit btn BID_TRIGGER = false.
Proof.
  intros Ht. unfold make_report, button_active. rewrite Ht. cbn [Z.ltb Z.compare].
  eexists. split; [|apply forced_trigger_bit].
  destruct (negb _); reflexivity.
Qed.

(** A transfer on the report endpoint yields a report as soon as the
    drained input and the position are defined. *)
Lemma guncon2_handle_data_defined (h : Host) (events : list input_event)
  (p : USBPacket) (s us : GunCon2State) (pos : Z * Z) :
  pid p = USB_TOKEN_IN -> ep_nr p = 1 ->
  (if udev_has s then udev_poll_gun h events s else Some s) = Some us ->
  CalculatePosition h us = Some pos ->
  guncon2_handle_data h events p s
  = Some (fst (make_report pos (start_calibration pos us)),
          usb_packet_copy p
            (bytes_of (bits (snd (make_report pos (start_calibration pos us))))),
          []).
Proof.
  intros Hpid Hep Hus Hpos. unfold guncon2_handle_data.
  rewrite Hus. cbn [obind]. rewrite Hpid, Hep. cbn [Z.eqb Pos.eqb].
  rewrite Hpos. cbn [obind].
  destruct (make_report pos (start_calibration pos us)) as [us' out]. reflexivity.
Qed.

(** C2 (as amended).  In every report generated while the calibration
    override is active - the timer is running, or it is idle and the
    recalibrate input starts it on this poll - and in every report
    generated while shoot-offscreen is active and no calibration is in
    progress, bit 13 of the button mask is forced to 0, which in the
    active-low mask is the pressed state of the trigger ("force trigger
    down"); in the shoot-offscreen case the position is (0, 0). *)
Theorem report_forces_trigger_pressed (h : Host) (events : list input_event)
  (p : USBPacket) (s us : GunCon2State) (pos : Z * Z) :
  pid p = USB_TOKEN_IN -> ep_nr p = 1 ->
  (if udev_has s then udev_poll_gun h events s else Some s) = Some us ->
  CalculatePosition h us = Some pos ->
  exists s' out,
    guncon2_handle_data h events p s
    = Some (s', usb_packet_copy p (bytes_of (bits out)), [])
    /\ (0 < calibration_timer (saved us) < 65536
        \/ (calibration_timer (saved us) = 0 /\ button_active us BID_RECALIBRATE = true) ->
        reported_pressed out BID_TRIGGER)
    /\ (calibration_timer (saved us) = 0 ->
        button_active us BID_RECALIBRATE = false ->
        button_active us BID_SHOOT_OFFSCREEN = true ->
        reported_pressed out BID_TRIGGER /\ pos_x out = 0 /\ pos_y out = 0).
Proof.
  intros Hpid Hep Hus Hpos.
  exists (fst (make_report pos (start_calibration pos us))),
         (snd (make_report pos (start_calibration pos us))).
  split; [apply guncon2_handle_data_defined; assumption|]. split.
  - intros [Ht|[Ht Hrec]].
    + rewrite start_calibration_busy by lia.
      destruct (make_report_calibrating pos us Ht) as (btn & -> & Hbit). exact Hbit.
    + rewrite start_calibration_armed by assumption.
      destruct (make_report_calibrating pos
                  (set_calibration GUNCON2_CALIBRATION_DELAY (fst pos) (snd pos) us))
        as (btn & -> & Hbit); [cbn; unfold GUNCON2_CALIBRATION_DELAY; lia|].
      exact Hbit.
  - intros Ht Hrec Hoff. rewrite start_calibration_idle by assumption.
    destruct (make_report_idle pos us Ht) as (btn & -> & Hbit).
    rewrite Hoff. cbn [snd]. repeat split. exact Hbit.
Qed.

(** An off-screen shot on an idle device. *)
Lemma report_forces_trigger_pressed_witness :
  exists s' out,
    guncon2_handle_data (example_host "" (F32.half, F32.half)) []
      in_packet (holding BID_SHOOT_OFFSCREEN)
    = Some (s', usb_packet_copy in_packet (bytes_of (bits out)), [])
    /\ reported_pressed out BID_TRIGGER /\ pos_x out = 0 /\ pos_y out = 0.
Proof.
  destruct (report_forces_trigger_pressed
              (example_host "" (F32.half, F32.half)) [] in_packet
              (holding BID_SHOOT_OFFSCREEN) (holding BID_SHOOT_OFFSCREEN) (320, 120)
              eq_refl eq_refl eq_refl eq_refl)
    as (s' & out & Hrun & _ & Hoff).
  exists s', out. split; [exact Hrun|]. apply Hoff; reflexivity.
Defined.

(** C2 as the specification words it fails: with only "recalibrate" held - the trigger
    is not pressed, and an unforced report would show it released, mask
    0xFFFF - the calibrating report carries mask 0xDFFF, whose trigger bit
    says pressed, not released. *)
Lemma calibration_trigger_released_counterexample :
  exists s',
    guncon2_handle_data (example_host "" (F32.half, F32.half)) [] in_packet
      (holding BID_RECALIBRATE)
    = Some (s', usb_packet_copy in_packet (bytes_of (bits (mkOut 0xDFFF 320 120))), [])
    /\ button_active (holding BID_RECALIBRATE) BID_TRIGGER = false
    /\ 0 < calibration_timer (saved s')
    /\ ~ reported_released (mkOut 0xDFFF 320 120) BID_TRIGGER.
Proof.
  eexists. split; [reflexivity|]. split; [reflexivity|]. split; [reflexivity|].
  unfold reported_released. cbn. discriminate.
Qed.

Lemma poll_view_frame (i : PollInput) (s us : GunCon2State) :
  poll_view i s = Some us -> input_frame s us.
Proof.
  unfold poll_view. intros H.
  eapply input_frame_trans; [apply (apply_bindings_frame (poll_bindings i))|].
  destruct (udev_has (apply_bindings (poll_bindings i) s)).
  - eapply udev_poll_gun_frame; eassumption.
  - injection H as <-. apply input_frame_refl.
Qed.

Lemma poll_report (i : PollInput) (s s' : GunCon2State) (p' : USBPacket) :
  poll i s = Some (s', p') ->
  exists us pos,
    poll_view i s = Some us
    /\ CalculatePosition (poll_host i) us = Some pos
    /\ s' = fst (make_report pos (start_calibration pos us))
    /\ carries p' (snd (make_report pos (start_calibration pos us))).
Proof.
  unfold poll. intros H.
  destruct (guncon2_handle_data (poll_host i) (poll_events i) in_packet
              (apply_bindings (poll_bindings i) s)) as [[[s1 p1] log]|] eqn:E;
    [|discriminate].
  cbn [obind] in H. injection H as <- <-.
  destruct (guncon2_handle_data_report _ _ in_packet _ _ _ _ eq_refl eq_refl E)
    as (us & pos & Hus & Hpos & -> & -> & _).
  exists us, pos. repeat split; assumption.
Qed.

(** One poll while the timer runs. *)
Lemma calibrating_poll (i : PollInput) (s s' : GunCon2State) (p' : USBPacket) :
  0 < calibration_timer (saved s) < 65536 ->
  poll i s = Some (s', p') ->
  calibration_timer (saved s') = calibration_timer (saved s) - 1
  /\ calibration_pos_x (saved s') = calibration_pos_x (saved s)
  /\ calibration_pos_y (saved s') = calibration_pos_y (saved s)
  /\ reports_position p'
       (if calibration_timer (saved s) - 1 <? GUNCON2_CALIBRATION_REPORT_DELAY
        then 0 else calibration_pos_x (saved s))
       (if calibration_timer (saved s) - 1 <? GUNCON2_CALIBRATION_REPORT_DELAY
        then 0 else calibration_pos_y (saved s)).
Proof.
  intros Ht H.
  destruct (poll_report _ _ _ _ H) as (us & pos & Hus & _ & -> & Hp).
  destruct (poll_view_frame _ _ _ Hus) as (_ & Hsv & _).
  rewrite <- Hsv in *.
  rewrite start_calibration_busy in * by lia.
  destruct (make_report_calibrating pos us Ht) as (btn & Hmr & _).
  rewrite Hmr in *. cbn [fst snd] in *.
  repeat split. exists btn. exact Hp.
Qed.

(** The poll that starts a calibration. *)
Lemma arming_poll (i : PollInput) (s s' us : GunCon2State) (p' : USBPacket) (X Y : Z) :
  calibration_timer (saved s) = 0 ->
  poll_view i s = Some us ->
  button_active us BID_RECALIBRATE = true ->
  CalculatePosition (poll_host i) us = Some (X, Y) ->
  poll i s = Some (s', p') ->
  calibration_timer (saved (start_calibration (X, Y) us)) = GUNCON2_CALIBRATION_DELAY
  /\ calibration_timer (saved s') = GUNCON2_CALIBRATION_DELAY - 1
  /\ calibration_pos_x (saved s') = X
  /\ calibration_pos_y (saved s') = Y
  /\ reports_position p' X Y.
Proof.
  intros Ht Hview Hrec Hpos H.
  destruct (poll_report _ _ _ _ H) as (us' & pos & Hus & Hpos' & -> & Hp).
  rewrite Hview in Hus. injection Hus as <-.
  rewrite Hpos in Hpos'. injection Hpos' as <-.
  destruct (poll_view_frame _ _ _ Hview) as (_ & Hsv & _).
  assert (Hto : calibration_timer (saved us) = 0) by (rewrite Hsv; exact Ht).
  rewrite start_calibration_armed in * by assumption.
  destruct (make_report_calibrating (X, Y)
              (set_calibration GUNCON2_CALIBRATION_DELAY X Y us))
    as (btn & Hmr & _); [cbn; unfold GUNCON2_CALIBRATION_DELAY; lia|].
  cbn [fst snd] in *. rewrite Hmr in *. cbn [fst snd] in *.
  repeat split. exists btn. exact Hp.
Qed.

(** A run of polls that fits within the remaining timer: the timer counts
    down by one per poll, the frozen position is kept, and poll [k]
    reports the frozen position or (0, 0) by the timer value it leaves. *)
Lemma calibrating_run (inputs : list PollInput) :
  forall s s' reports,
    0 < calibration_timer (saved s) < 65536 ->
    Z.of_nat (List.length inputs) <= calibration_timer (saved s) ->
    run_polls inputs s = Some (s', reports) ->
    calibration_timer (saved s')
    = calibration_timer (saved s) - Z.of_nat (List.length inputs)
    /\ calibration_pos_x (saved s') = calibration_pos_x (saved s)
    /\ calibration_pos_y (saved s') = calibration_pos_y (saved s)
    /\ forall k, (k < List.length inputs)%nat ->
         exists p, nth_error reports k = Some p
           /\ reports_position p
                (if calibration_timer (saved s) - Z.of_nat (S k)
                    <? GUNCON2_CALIBRATION_REPORT_DELAY
                 then 0 else calibration_pos_x (saved s))
                (if calibration_timer (saved s) - Z.of_nat (S k)
                    <? GUNCON2_CALIBRATION_REPORT_DELAY
                 then 0 else calibration_pos_y (saved s)).
Proof.
  induction inputs as [|i rest IH]; intros s s' reports Ht Hlen H.
  - cbn [run_polls] in H. injection H as <- <-. cbn [List.length].
    repeat split; try lia.
  - cbn [run_polls] in H.
    destruct (poll i s) as [[s1 p1]|] eqn:E1; [|discriminate]. cbn [obind] in H.
    destruct (run_polls rest s1) as [[s2 ps]|] eqn:E2; [|discriminate].
    cbn [obind] in H. injection H as <- <-.
    destruct (calibrating_poll _ _ _ _ Ht E1) as (Ht1 & Hx1 & Hy1 & Hp1).
    cbn [List.length] in Hlen |- *.
    destruct rest as [|i2 rest'].
    + cbn [run_polls] in E2. injection E2 as <- <-.
      rewrite Ht1, Hx1, Hy1. repeat split; try lia.
      intros k Hk. assert (k = 0%nat) as -> by (cbn in Hk; lia).
      exists p1. split; [reflexivity|]. exact Hp1.
    + assert (Hlen' : Z.of_nat (List.length (i2 :: rest')) <= calibration_timer (saved s1)).
      { rewrite Ht1. cbn [List.length] in *. lia. }
      assert (Ht' : 0 < calibration_timer (saved s1) < 65536).
      { cbn [List.length] in *. lia. }
      destruct (IH s1 s2 ps Ht' Hlen' E2) as (HtR & HxR & HyR & HR).
      rewrite HtR, HxR, HyR, Ht1, Hx1, Hy1. repeat split; try lia.
      intros [|k] Hk.
      * exists p1. split; [reflexivity|]. exact Hp1.
      * destruct (HR k) as (p & Hnth & Hrep); [lia|].
        exists p. split; [exact Hnth|].
        rewrite Ht1, Hx1, Hy1 in Hrep.
        replace (calibration_timer (saved s) - Z.of_nat (S (S k)))
          with (calibration_timer (saved s) - 1 - Z.of_nat (S k)) by lia.
        exact Hrep.
Qed.

(** The first poll after a calibration reports what the mapper returns. *)
Lemma idle_poll_reports_mapped (i : PollInput) (s s' us : GunCon2State)
  (p' : USBPacket) (pos : Z * Z) :
  calibration_timer (saved s) = 0 ->
  poll_view i s = Some us ->
  CalculatePosition (poll_host i) us = Some pos ->
  poll i s = Some (s', p') ->
  button_active us BID_RECALIBRATE = true \/ button_active us BID_SHOOT_OFFSCREEN = false ->
  reports_position p' (fst pos) (snd pos).
Proof.
  intros Ht Hview Hpos H Hor.
  destruct (poll_report _ _ _ _ H) as (us' & pos' & Hus & Hpos' & _ & Hp).
  rewrite Hview in Hus. injection Hus as <-.
  rewrite Hpos in Hpos'. injection Hpos' as <-.
  destruct (poll_view_frame _ _ _ Hview) as (_ & Hsv & _).
  assert (Hto : calibration_timer (saved us) = 0) by (rewrite Hsv; exact Ht).
  destruct (button_active us BID_RECALIBRATE) eqn:Hrec.
  - rewrite start_calibration_armed in Hp by assumption.
    destruct (make_report_calibrating pos
                (set_calibration GUNCON2_CALIBRATION_DELAY (fst pos) (snd pos) us))
      as (btn & Hmr & _); [cbn; unfold GUNCON2_CALIBRATION_DELAY; lia|].
    rewrite Hmr in Hp. cbn [fst snd] in Hp. exists btn. exact Hp.
  - destruct Hor as [Hc|Hoff]; [discriminate|].
    rewrite start_calibration_idle in Hp by assumption.
    destruct (make_report_idle pos us Hto) as (btn & Hmr & _).
    rewrite Hmr, Hoff in Hp. cbn [snd] in Hp. eexists. exact Hp.
Qed.

(** What a run of polls returns, when defined. *)
Lemma calibration_sequence_of_run (s : GunCon2State) (i1 : PollInput)
  (rest : list PollInput) (us1 s12 : GunCon2State) (reports : list USBPacket)
  (X Y : Z) :
  calibration_timer (saved s) = 0 ->
  poll_view i1 s = Some us1 ->
  button_active us1 BID_RECALIBRATE = true ->
  CalculatePosition (poll_host i1) us1 = Some (X, Y) ->
  List.length rest = 11%nat ->
  run_polls (i1 :: rest) s = Some (s12, reports) ->
  calibration_timer (saved (start_calibration (X, Y) us1)) = 12
  /\ calibration_pos_x (saved (start_calibration (X, Y) us1)) = X
  /\ calibration_pos_y (saved (start_calibration (X, Y) us1)) = Y
  /\ (forall k, (k < 7)%nat ->
        exists p, nth_error reports k = Some p /\ reports_position p X Y)
  /\ (forall k, (7 <= k < 12)%nat ->
        exists p, nth_error reports k = Some p /\ reports_position p 0 0)
  /\ calibration_timer (saved s12) = 0
  /\ calibration_pos_x (saved s12) = X /\ calibration_pos_y (saved s12) = Y
  /\ (forall i13 us13 pos13 s13 p13,
         poll_view i13 s12 = Some us13 ->
         CalculatePosition (poll_host i13) us13 = Some pos13 ->
         poll i13 s12 = Some (s13, p13) ->
         button_active us13 BID_RECALIBRATE = true
         \/ button_active us13 BID_SHOOT_OFFSCREEN = false ->
         reports_position p13 (fst pos13) (snd pos13)).
Proof.
  intros Ht Hview Hrec Hpos Hlen H.
  cbn [run_polls] in H.
  destruct (poll i1 s) as [[s1 p1]|] eqn:E1; [|discriminate]. cbn [obind] in H.
  destruct (run_polls rest s1) as [[s2 ps]|] eqn:E2; [|discriminate].
  cbn [obind] in H. injection H as <- <-.
  destruct (arming_poll _ _ _ _ _ _ _ Ht Hview Hrec Hpos E1)
    as (Harm & Ht1 & Hx1 & Hy1 & Hp1).
  unfold GUNCON2_CALIBRATION_DELAY in Harm, Ht1.
  destruct (calibrating_run rest s1 s2 ps) as (Ht2 & Hx2 & Hy2 & Hrun);
    [lia|rewrite Hlen; lia|assumption|].
  rewrite Hlen, Ht1 in Ht2. rewrite Hx1 in Hx2. rewrite Hy1 in Hy2.
  assert (Hpoll1 : poll_view i1 s = Some us1) by assumption.
  destruct (poll_view_frame _ _ _ Hview) as (_ & Hsv & _).
  split; [exact Harm|].
  split; [rewrite start_calibration_armed by (rewrite ?Hsv; assumption); reflexivity|].
  split; [rewrite start_calibration_armed by (rewrite ?Hsv; assumption); reflexivity|].
  split; [|split; [|split; [|split; [|split]]]].
  - intros [|k] Hk.
    + exists p1. split; [reflexivity|exact Hp1].
    + destruct (Hrun k) as (p & Hnth & Hrep); [lia|].
      exists p. split; [exact Hnth|].
      rewrite Ht1, Hx1, Hy1 in Hrep. unfold GUNCON2_CALIBRATION_REPORT_DELAY in Hrep.
      destruct (Z.ltb_spec (12 - 1 - Z.of_nat (S k)) 5); [lia|]. exact Hrep.
  - intros [|k] Hk; [lia|].
    destruct (Hrun k) as (p & Hnth & Hrep); [lia|].
    exists p. split; [exact Hnth|].
    rewrite Ht1 in Hrep. unfold GUNCON2_CALIBRATION_REPORT_DELAY in Hrep.
    destruct (Z.ltb_spec (12 - 1 - Z.of_nat (S k)) 5); [|lia]. exact Hrep.
  - lia.
  - exact Hx2.
  - exact Hy2.
  - intros i13 us13 pos13 s13 p13 Hv13 Hpos13 Hp13 Hor.
    apply (idle_poll_reports_mapped i13 s2 s13 us13 p13 pos13);
      [lia|assumption..].
Qed.


Lemma poll_defined (i : PollInput) (s us : GunCon2State) (pos : Z * Z) :
  poll_view i s = Some us ->
  CalculatePosition (poll_host i) us = Some pos ->
  poll i s = Some (fst (make_report pos (start_calibration pos us)),
                   usb_packet_copy in_packet
                     (bytes_of (bits (snd (make_report pos (start_calibration pos us)))))).
Proof.
  unfold poll_view, poll. intros Hview Hpos.
  rewrite (guncon2_handle_data_defined (poll_host i) (poll_events i) in_packet
             (apply_bindings (poll_bindings i) s) us pos eq_refl eq_refl Hview Hpos).
  reflexivity.
Qed.

Lemma run_polls_defined (inputs : list PollInput) :
  forall s, polls_defined inputs s ->
            exists s' reports, run_polls inputs s = Some (s', reports).
Proof.
  induction inputs as [|i rest IH]; intros s Hdef.
  - exists s, []. reflexivity.
  - cbn [polls_defined] in Hdef. destruct Hdef as (us & pos & Hview & Hpos & Hrest).
    destruct (IH _ Hrest) as (s' & reports & Hrun).
    cbn [run_polls]. rewrite (poll_defined i s us pos Hview Hpos). cbn [obind].
    rewrite Hrun. cbn [obind]. eexists _, _. reflexivity.
Qed.

Lemma polls_defined_of_run (inputs : list PollInput) :
  forall s r, run_polls inputs s = Some r -> polls_defined inputs s.
Proof.
  induction inputs as [|i rest IH]; intros s r H; [exact I|].
  cbn [run_polls] in H.
  destruct (poll i s) as [[s1 p1]|] eqn:E1; [|discriminate]. cbn [obind] in H.
  destruct (run_polls rest s1) as [r2|] eqn:E2; [|discriminate].
  destruct (poll_report _ _ _ _ E1) as (us & pos & Hview & Hpos & -> & _).
  cbn [polls_defined]. exists us, pos.
  split; [exact Hview|]. split; [exact Hpos|]. exact (IH _ _ E2).
Qed.

(** C1.  Calibration timing.  When a poll of the report endpoint finds
    the recalibrate input active and the timer at 0, the timer is set to
    12 and the position computed on that poll is frozen.  Whatever the
    host input before each of the following polls - recalibrate asserted
    again included - the run of twelve polls returns twelve reports:
    polls 1 to 7 report the frozen position, polls 8 to 12 report (0, 0),
    the timer is back at 0 after poll 12 with the frozen position still
    the one of poll 1, and poll 13 reports the position the mapper
    computes on poll 13 (a new calibration may start there; an off-screen
    shot reports the sentinel instead). *)
Theorem calibration_sequence_timing (s : GunCon2State) (i1 : PollInput)
  (rest : list PollInput) (us1 : GunCon2State) (X Y : Z) :
  calibration_timer (saved s) = 0 ->
  poll_view i1 s = Some us1 ->
  button_active us1 BID_RECALIBRATE = true ->
  CalculatePosition (poll_host i1) us1 = Some (X, Y) ->
  List.length rest = 11%nat ->
  polls_defined (i1 :: rest) s ->
  exists s12 reports,
    run_polls (i1 :: rest) s = Some (s12, reports)
    /\ calibration_timer (saved (start_calibration (X, Y) us1)) = 12
    /\ calibration_pos_x (saved (start_calibration (X, Y) us1)) = X
    /\ calibration_pos_y (saved (start_calibration (X, Y) us1)) = Y
    /\ (forall k, (k < 7)%nat ->
          exists p, nth_error reports k = Some p /\ reports_position p X Y)
    /\ (forall k, (7 <= k < 12)%nat ->
          exists p, nth_error reports k = Some p /\ reports_position p 0 0)
    /\ calibration_timer (saved s12) = 0
    /\ calibration_pos_x (saved s12) = X /\ calibration_pos_y (saved s12) = Y
    /\ (forall i13 us13 pos13,
           poll_view i13 s12 = Some us13 ->
           CalculatePosition (poll_host i13) us13 = Some pos13 ->
           button_active us13 BID_RECALIBRATE = true
           \/ button_active us13 BID_SHOOT_OFFSCREEN = false ->
           exists s13 p13,
             poll i13 s12 = Some (s13, p13)
             /\ reports_position p13 (fst pos13) (snd pos13)).
Proof.
  intros Ht Hview Hrec Hpos Hlen Hdef.
  destruct (run_polls_defined _ _ Hdef) as (s12 & reports & Hrun).
  exists s12, reports. split; [exact Hrun|].
  destruct (calibration_sequence_of_run s i1 rest us1 s12 reports X Y
              Ht Hview Hrec Hpos Hlen Hrun)
    as (H1 & H2 & H3 & H4 & H5 & H6 & H7 & H8 & H9).
  repeat (split; [assumption|]).
  intros i13 us13 pos13 Hv13 Hpos13 Hor.
  eexists _, _. split; [apply (poll_defined i13 s12 us13 pos13 Hv13 Hpos13)|].
  eapply (H9 i13 us13 pos13); try eassumption.
  apply (poll_defined i13 s12 us13 pos13 Hv13 Hpos13).
Qed.

(** The example run hits no undefined arithmetic. *)
Lemma example_polls_defined : polls_defined example_polls (holding BID_RECALIBRATE).
Proof.
  destruct (run_polls example_polls (holding BID_RECALIBRATE)) as [r|] eqn:E.
  - exact (polls_defined_of_run _ _ _ E).
  - vm_compute in E. discriminate E.
Defined.

(** Recalibrate held on a new device, pointer at the screen centre:
    polls 1-7 report (320, 120), polls 8-12 report (0, 0) and the timer
    is back at 0 after the twelfth poll, although recalibrate was
    released and asserted again on the way. *)
Lemma calibration_sequence_timing_witness :
  exists s12 reports,
    run_polls example_polls (holding BID_RECALIBRATE) = Some (s12, reports)
    /\ calibration_timer (saved s12) = 0
    /\ (forall k, (k < 7)%nat ->
          exists p, nth_error reports k = Some p /\ reports_position p 320 120)
    /\ (forall k, (7 <= k < 12)%nat ->
          exists p, nth_error reports k = Some p /\ reports_position p 0 0).
Proof.
  destruct (calibration_sequence_timing (holding BID_RECALIBRATE)
              (example_poll []) (tl example_polls) (holding BID_RECALIBRATE)
              320 120 eq_refl eq_refl eq_refl eq_refl eq_refl example_polls_defined)
    as (s12 & reports & Hrun & _ & _ & _ & Hfrozen & Hzero & Htimer & _).
  exists s12, reports. split; [exact Hrun|].
  split; [exact Htimer|]. split; [exact Hfrozen|exact Hzero].
Defined.
(* ================================================================== *)
(** * Further properties of the code *)

(** ** Bits of the button mask *)

Lemma testbit_bit (i j : Z) :
  0 <= j -> Z.testbit (Int.bit i) j = (j <? 32) && (j =? i).
Proof.
  intros Hj. unfold Int.bit, Int.to_u32. change 4294967296 with (2 ^ 32).
  destruct (Z.ltb_spec j 32).
  - rewrite Z.mod_pow2_bits_low by lia. rewrite Z.shiftl_spec by assumption.
    change 1 with (2 ^ 0) at 1.
    destruct (Z.ltb_spec (j - i) 0).
    + rewrite Z.testbit_neg_r by assumption.
      destruct (Z.eqb_spec j i); [lia|reflexivity].
    + rewrite Z.pow2_bits_eqb by lia.
      destruct (Z.eqb_spec 0 (j - i)), (Z.eqb_spec j i); try reflexivity; lia.
  - rewrite Z.mod_pow2_bits_high by lia. reflexivity.
Qed.

Lemma land_bit_eqb (a i : Z) :
  0 <= i < 32 -> (Z.land a (Int.bit i) =? 0) = negb (Z.testbit a i).
Proof.
  intros Hi. destruct (Z.testbit a i) eqn:Hb; cbn [negb].
  - destruct (Z.eqb_spec (Z.land a (Int.bit i)) 0) as [E|E]; [|reflexivity].
    assert (Ht : Z.testbit (Z.land a (Int.bit i)) i = true).
    { rewrite Z.land_spec, Hb, testbit_bit by lia.
      destruct (Z.ltb_spec i 32); [|lia]. now rewrite Z.eqb_refl. }
    rewrite E, Z.bits_0 in Ht. discriminate.
  - replace (Z.land a (Int.bit i)) with 0; [reflexivity|].
    symmetry. apply Z.bits_inj'. intros n Hn.
    rewrite Z.land_spec, Z.bits_0, testbit_bit by assumption.
    destruct (Z.eqb_spec n i) as [->|]; [now rewrite Hb|now rewrite !andb_false_r].
Qed.

Lemma button_active_testbit (s : GunCon2State) (bid : Z) :
  0 <= bid < 32 -> button_active s bid = Z.testbit (button_state (host s)) bid.
Proof.
  intros H. unfold button_active. rewrite land_bit_eqb by assumption.
  apply negb_involutive.
Qed.

Lemma GetBindingValue_testbit (s : GunCon2State) (j : Z) :
  0 <= j < 32 ->
  GetBindingValue s j
  = if Z.testbit (button_state (host s)) j then F32.of_Z 1 else F32.of_Z 0.
Proof.
  intros H. unfold GetBindingValue. rewrite land_bit_eqb by assumption.
  rewrite negb_involutive. reflexivity.
Qed.

(** The bits of [button_state] after [updateState]. *)
Lemma updateState_testbit (bid : Z) (pressed : bool) (s : GunCon2State) (n : Z) :
  0 <= n < 32 ->
  Z.testbit (button_state (host (updateState bid pressed s))) n
  = if n =? bid then pressed else Z.testbit (button_state (host s)) n.
Proof.
  intros Hn. unfold updateState. destruct pressed;
    cbn [host set_button_state with_host button_state].
  - rewrite Z.lor_spec, testbit_bit by lia.
    destruct (Z.ltb_spec n 32); [|lia]. cbn [andb].
    destruct (n =? bid); [apply orb_true_r|apply orb_false_r].
  - rewrite Z.land_spec, testbit_u32_not, testbit_bit by lia.
    destruct (Z.ltb_spec n 32); [|lia]. destruct (Z.leb_spec 0 n); [|lia].
    cbn [andb]. destruct (n =? bid); cbn [negb andb];
      [apply andb_false_r|now rewrite !andb_true_r].
Qed.

(* ================================================================== *)
(** ** The report and its six bytes *)

Lemma to_u16_range (z : Z) : 0 <= Int.to_u16 z < 65536.
Proof. unfold Int.to_u16. apply Z.mod_pos_bound. lia. Qed.

Lemma to_s16_range (z : Z) : -32768 <= Int.to_s16 z <= 32767.
Proof.
  unfold Int.to_s16. pose proof (Z.mod_pos_bound (z + 32768) 65536). lia.
Qed.

Lemma to_s16_to_u16 (z : Z) : -32768 <= z <= 32767 -> Int.to_s16 (Int.to_u16 z) = z.
Proof.
  intros Hz. unfold Int.to_s16, Int.to_u16.
  destruct (Z_lt_le_dec z 0).
  - replace (z mod 65536) with (z + 65536)
      by (apply (Z.mod_unique _ _ (-1)); lia).
    replace ((z + 65536 + 32768) mod 65536) with (z + 32768)
      by (apply (Z.mod_unique _ _ 1); lia).
    lia.
  - rewrite (Z.mod_small z) by lia. rewrite Z.mod_small by lia. lia.
Qed.

(** The two bytes of [le16 z] put together again. *)
Lemma u16_of_bytes_le16 (z : Z) :
  u16_of_bytes (byte_of_Z (Int.to_u16 z mod 256)) (byte_of_Z (Int.to_u16 z / 256))
  = Int.to_u16 z.
Proof.
  pose proof (to_u16_range z) as R. unfold u16_of_bytes.
  assert (0 <= Int.to_u16 z mod 256 < 256) by (apply Z.mod_pos_bound; lia).
  assert (0 <= Int.to_u16 z / 256 < 256)
    by (split; [apply Z.div_pos; lia|apply Z.div_lt_upper_bound; lia]).
  rewrite !u8_byte_of_Z by assumption.
  rewrite lor_shiftl_8 by assumption.
  rewrite (Z.div_mod (Int.to_u16 z) 256) at 3 by lia. lia.
Qed.

Lemma GunCon2Out_of_bits_bits (o : GunCon2Out) :
  wf_out o -> GunCon2Out_of_bits (bytes_of (bits o)) = Some o.
Proof.
  intros (Hb & Hx & Hy). destruct o as [b x y]. cbn [buttons pos_x pos_y] in *.
  unfold bits, bytes_of, le16. cbn [buttons pos_x pos_y app map GunCon2Out_of_bits].
  rewrite !u16_of_bytes_le16, !to_s16_to_u16 by assumption.
  unfold Int.to_u16. rewrite Z.mod_small by assumption. reflexivity.
Qed.

Lemma bits_length (o : GunCon2Out) : List.length (bytes_of (bits o)) = 6%nat.
Proof. reflexivity. Qed.

(** X1.  A report is six bytes, and reading the six bytes back through the
    struct view of the union gives the three fields again, whenever the
    fields lie in the ranges of their types ([u16], [s16], [s16]). *)
Theorem report_bits_roundtrip (o : GunCon2Out) :
  wf_out o ->
  List.length (bytes_of (bits o)) = 6%nat
  /\ GunCon2Out_of_bits (bytes_of (bits o)) = Some o.
Proof.
  intros H. split; [apply bits_length|apply GunCon2Out_of_bits_bits; exact H].
Qed.

Lemma report_bits_roundtrip_witness :
  GunCon2Out_of_bits (bytes_of (bits (mkOut 0xDFFF 320 (-120))))
  = Some (mkOut 0xDFFF 320 (-120)).
Proof.
  apply (report_bits_roundtrip (mkOut 0xDFFF 320 (-120))).
  unfold wf_out; cbn; lia.
Defined.

(** The button field of the report of [make_report], bit by bit. *)
Lemma make_report_button_bits (pos : Z * Z) (us : GunCon2State) (n : Z) :
  0 <= n < 16 ->
  Z.testbit (buttons (snd (make_report pos us))) n
  = if (n =? BID_TRIGGER)
       && ((0 <? calibration_timer (saved us)) || button_active us BID_SHOOT_OFFSCREEN)
    then false
    else negb (Z.testbit (button_state (host us)) n)
         || ((n =? 8) && Z.testbit (param_mode (saved us)) 8).
Proof.
  intros Hn.
  assert (Hbtn : Z.testbit
            (Int.to_u16 (Z.lor (Int.to_u16 (Int.u32_not (button_state (host us))))
                           (Z.land (param_mode (saved us)) GUNCON2_FLAG_PROGRESSIVE))) n
          = negb (Z.testbit (button_state (host us)) n)
            || ((n =? 8) && Z.testbit (param_mode (saved us)) 8)).
  { rewrite testbit_to_u16, Z.lor_spec, testbit_to_u16, testbit_u32_not, Z.land_spec.
    destruct (Z.ltb_spec n 16); [|lia]. destruct (Z.ltb_spec n 32); [|lia].
    destruct (Z.leb_spec 0 n); [|lia]. cbn [andb]. rewrite andb_true_r.
    f_equal. unfold GUNCON2_FLAG_PROGRESSIVE. change 256 with (2 ^ 8).
    rewrite Z.pow2_bits_eqb by lia.
    destruct (Z.eqb_spec 8 n), (Z.eqb_spec n 8); try lia; cbn [andb];
      subst; auto using andb_true_r, andb_false_r. }
  assert (Hforced : Z.testbit
            (Int.to_u16
               (Z.land
                  (Int.to_u16 (Z.lor (Int.to_u16 (Int.u32_not (button_state (host us))))
                                 (Z.land (param_mode (saved us)) GUNCON2_FLAG_PROGRESSIVE)))
                  (Int.u32_not (Int.bit BID_TRIGGER)))) n
          = if n =? BID_TRIGGER then false
            else negb (Z.testbit (button_state (host us)) n)
                 || ((n =? 8) && Z.testbit (param_mode (saved us)) 8)).
  { rewrite testbit_to_u16, Z.land_spec, Hbtn, testbit_u32_not, testbit_bit by lia.
    destruct (Z.ltb_spec n 16); [|lia]. destruct (Z.ltb_spec n 32); [|lia].
    destruct (Z.leb_spec 0 n); [|lia]. cbn [andb].
    destruct (n =? BID_TRIGGER); cbn [negb]; [apply andb_false_r|now rewrite !andb_true_r]. }
  unfold make_report, button_active.
  destruct (0 <? calibration_timer (saved us)); cbn [orb].
  - rewrite andb_true_r.
    destruct (_ <? GUNCON2_CALIBRATION_REPORT_DELAY); cbn [snd buttons]; exact Hforced.
  - destruct (negb (Z.land (button_state (host us)) (Int.bit BID_SHOOT_OFFSCREEN) =? 0));
      cbn [snd buttons].
    + rewrite andb_true_r. exact Hforced.
    + rewrite andb_false_r. exact Hbtn.
Qed.

Lemma make_report_buttons_range (pos : Z * Z) (us : GunCon2State) :
  0 <= buttons (snd (make_report pos us)) < 65536.
Proof.
  unfold make_report.
  destruct (0 <? calibration_timer (saved us)).
  - destruct (_ <? GUNCON2_CALIBRATION_REPORT_DELAY); cbn [snd buttons]; apply to_u16_range.
  - destruct (negb _); cbn [snd buttons]; apply to_u16_range.
Qed.

(** X2.  The button field of a report is the active-low copy of the low
    sixteen bits of the button state: bit [n] is the complement of the
    state's bit [n], except that bit 8 is also set by the progressive-scan
    flag of the mode, and that the trigger bit is cleared while the
    calibration timer runs or the shoot-offscreen button is held.  Nothing
    above bit 15 is ever set. *)
Theorem report_buttons_active_low (pos : Z * Z) (us : GunCon2State) (n : Z) :
  0 <= n < 16 ->
  Z.testbit (buttons (snd (make_report pos us))) n
  = (if (n =? BID_TRIGGER)
        && ((0 <? calibration_timer (saved us)) || button_active us BID_SHOOT_OFFSCREEN)
     then false
     else negb (Z.testbit (button_state (host us)) n)
          || ((n =? 8) && Z.testbit (param_mode (saved us)) 8))
  /\ 0 <= buttons (snd (make_report pos us)) < 65536.
Proof.
  intros Hn. split; [apply make_report_button_bits; exact Hn
                    |apply make_report_buttons_range].
Qed.

Lemma report_buttons_active_low_witness :
  Z.testbit (buttons (snd (make_report (320, 120) (holding BID_START)))) BID_START = false
  /\ 0 <= buttons (snd (make_report (320, 120) (holding BID_START))) < 65536.
Proof.
  apply (report_buttons_active_low (320, 120) (holding BID_START) BID_START).
  unfold BID_START; lia.
Defined.

(* ================================================================== *)
(** ** Data transfers *)

Lemma CalculatePosition_map_range (s : GunCon2State) (px py : float) (x y : Z) :
  CalculatePosition_map s px py = Some (x, y) ->
  (-32768 <= x <= 32767) /\ (-32768 <= y <= 32767).
Proof.
  unfold CalculatePosition_map.
  destruct (F32.ltb px F32.zero || F32.ltb py F32.zero).
  - intros [= <- <-]. lia.
  - destruct (CalculatePosition_raw s px py) as [[X Y]|]; cbn [obind]; [|discriminate].
    intros [= <- <-]. split; apply to_s16_range.
Qed.

Lemma CalculatePosition_range (h : Host) (s : GunCon2State) (x y : Z) :
  CalculatePosition h s = Some (x, y) ->
  (-32768 <= x <= 32767) /\ (-32768 <= y <= 32767).
Proof.
  unfold CalculatePosition.
  destruct (CalculatePosition_splitscreen s (CalculatePosition_pointer h s)) as [px py].
  apply CalculatePosition_map_range.
Qed.

(** X3.  Whatever the pointer source, the geometry and the parameters are,
    a position [CalculatePosition] returns has both coordinates in the
    range of [s16]; and where no split-screen aim adjustment applies, a
    pointer sample left of or above the display always gives the
    off-screen position (0, 0). *)
Theorem mapped_position_in_s16 (h : Host) (s : GunCon2State) :
  (forall x y,
      CalculatePosition h s = Some (x, y) ->
      (-32768 <= x <= 32767) /\ (-32768 <= y <= 32767))
  /\ (no_split_adjustment s ->
      F32.ltb (fst (CalculatePosition_pointer h s)) F32.zero = true
      \/ F32.ltb (snd (CalculatePosition_pointer h s)) F32.zero = true ->
      CalculatePosition h s = Some (0, 0)).
Proof.
  split; [exact (CalculatePosition_range h s)|].
  intros Hno Hoff. unfold CalculatePosition.
  rewrite (CalculatePosition_splitscreen_inactive s _ Hno).
  destruct (CalculatePosition_pointer h s) as [px py]. cbn [fst snd] in Hoff.
  exact (sentinel_when_offscreen s px py Hoff).
Qed.

Lemma mapped_position_in_s16_witness :
  CalculatePosition (example_host "" (F32.neg (F32.lit 1 100), F32.half)) (fresh 0)
  = Some (0, 0).
Proof.
  apply (proj2 (mapped_position_in_s16
                  (example_host "" (F32.neg (F32.lit 1 100), F32.half)) (fresh 0))).
  - left. reflexivity.
  - left. vm_compute. reflexivity.
Defined.

Lemma start_calibration_pos_range (pos : Z * Z) (us : GunCon2State) :
  -32768 <= fst pos <= 32767 -> -32768 <= snd pos <= 32767 ->
  -32768 <= calibration_pos_x (saved us) <= 32767 ->
  -32768 <= calibration_pos_y (saved us) <= 32767 ->
  -32768 <= calibration_pos_x (saved (start_calibration pos us)) <= 32767
  /\ -32768 <= calibration_pos_y (saved (start_calibration pos us)) <= 32767.
Proof.
  intros Hx Hy Hcx Hcy. unfold start_calibration.
  destruct (negb _ && _); cbn; split; assumption.
Qed.

Lemma make_report_wf_out (pos : Z * Z) (us : GunCon2State) :
  -32768 <= fst pos <= 32767 -> -32768 <= snd pos <= 32767 ->
  -32768 <= calibration_pos_x (saved us) <= 32767 ->
  -32768 <= calibration_pos_y (saved us) <= 32767 ->
  wf_out (snd (make_report pos us)).
Proof.
  intros Hx Hy Hcx Hcy. split; [apply make_report_buttons_range|].
  unfold make_report.
  destruct (0 <? calibration_timer (saved us)).
  - destruct (_ <? GUNCON2_CALIBRATION_REPORT_DELAY); cbn [snd pos_x pos_y];
      split; (assumption || lia).
  - destruct (negb _); cbn [snd pos_x pos_y]; split; (assumption || lia).
Qed.

(** The drained raw gun events leave the saved device state alone. *)
Lemma drained_saved (h : Host) (events : list input_event) (s us : GunCon2State) :
  (if udev_has s then udev_poll_gun h events s else Some s) = Some us ->
  input_frame s us.
Proof.
  destruct (udev_has s).
  - apply udev_poll_gun_frame.
  - intros [= <-]. apply input_frame_refl.
Qed.

(** X4.  Every answer to a poll of endpoint 1 appends exactly six bytes to
    the transfer, and they decode, through the struct view of the union,
    to a report whose fields lie in their types' ranges, provided the
    stored calibration position does; the stored calibration position stays
    in range, and the transfer's status is not touched. *)
Theorem data_report_decodable (h : Host) (events : list input_event)
  (p : USBPacket) (s s' : GunCon2State) (p' : USBPacket) (log : list ConsoleMsg) :
  pid p = USB_TOKEN_IN -> ep_nr p = 1 ->
  -32768 <= calibration_pos_x (saved s) <= 32767 ->
  -32768 <= calibration_pos_y (saved s) <= 32767 ->
  guncon2_handle_data h events p s = Some (s', p', log) ->
  exists (bs : list Byte.byte) (out : GunCon2Out),
    payload p' = payload p ++ bs
    /\ List.length bs = 6%nat
    /\ GunCon2Out_of_bits bs = Some out
    /\ wf_out out
    /\ status p' = status p
    /\ -32768 <= calibration_pos_x (saved s') <= 32767
    /\ -32768 <= calibration_pos_y (saved s') <= 32767.
Proof.
  intros Hpid Hep Hcx Hcy H.
  destruct (guncon2_handle_data_report h events p s s' p' log Hpid Hep H)
    as (us & pos & Hus & Hpos & -> & -> & _).
  destruct (drained_saved h events s us Hus) as (_ & Hsaved & _).
  destruct pos as [x y].
  destruct (CalculatePosition_range h us x y Hpos) as [Hx Hy].
  rewrite <- Hsaved in Hcx, Hcy.
  destruct (start_calibration_pos_range (x, y) us Hx Hy Hcx Hcy) as [Hcx' Hcy'].
  pose proof (make_report_wf_out (x, y) (start_calibration (x, y) us) Hx Hy Hcx' Hcy')
    as Hwf.
  exists (bytes_of (bits (snd (make_report (x, y) (start_calibration (x, y) us))))),
         (snd (make_report (x, y) (start_calibration (x, y) us))).
  split; [reflexivity|]. split; [apply bits_length|].
  split; [apply GunCon2Out_of_bits_bits; exact Hwf|].
  split; [exact Hwf|]. split; [reflexivity|].
  destruct (make_report_frame (x, y) (start_calibration (x, y) us))
    as (_ & _ & _ & _ & _ & _ & _ & _ & _ & Ex & Ey).
  cbv zeta in Ex, Ey. rewrite Ex, Ey. split; assumption.
Qed.

Lemma data_report_decodable_witness :
  exists (bs : list Byte.byte) (out : GunCon2Out),
    payload (usb_packet_copy in_packet (bytes_of (bits (mkOut 0xFFFF 320 120))))
    = payload in_packet ++ bs
    /\ List.length bs = 6%nat
    /\ GunCon2Out_of_bits bs = Some out
    /\ wf_out out
    /\ status (usb_packet_copy in_packet (bytes_of (bits (mkOut 0xFFFF 320 120))))
       = status in_packet
    /\ -32768 <= calibration_pos_x (saved (fresh 0)) <= 32767
    /\ -32768 <= calibration_pos_y (saved (fresh 0)) <= 32767.
Proof.
  apply (data_report_decodable (example_host "" (F32.half, F32.half)) []
           in_packet (fresh 0) (fresh 0)
           (usb_packet_copy in_packet (bytes_of (bits (mkOut 0xFFFF 320 120)))) []).
  - reflexivity.
  - reflexivity.
  - cbn; lia.
  - cbn; lia.
  - vm_compute. reflexivity.
Defined.

(** X5.  A data transfer that is not an IN on endpoint 1 is refused: the
    status becomes STALL, nothing is copied into the transfer, one error
    line names the token and the endpoint, and the device state is the one
    the drained raw gun events left (the saved state, the geometry and the
    port as before the call). *)
Theorem data_transfer_stall (h : Host) (events : list input_event)
  (p : USBPacket) (s us : GunCon2State) :
  (if udev_has s then udev_poll_gun h events s else Some s) = Some us ->
  pid p <> USB_TOKEN_IN \/ ep_nr p <> 1 ->
  guncon2_handle_data h events p s
  = Some (us, set_status USB_RET_STALL p, [ErrUnhandledRequest (pid p) (ep_nr p)])
  /\ payload (set_status USB_RET_STALL p) = payload p
  /\ input_frame s us
  /\ (udev_has s = false -> us = s).
Proof.
  intros Hus Hne. split; [|split; [reflexivity|split]].
  - unfold guncon2_handle_data. rewrite Hus. cbn [obind].
    destruct (pid p) eqn:Epid; try reflexivity.
    destruct (Z.eqb_spec (ep_nr p) 1) as [E|E]; [|reflexivity].
    destruct Hne as [Hne|Hne]; [now elim Hne|now elim Hne].
  - exact (drained_saved h events s us Hus).
  - intros E. rewrite E in Hus. now injection Hus as <-.
Qed.

Lemma data_transfer_stall_witness :
  guncon2_handle_data (example_host "" (F32.half, F32.half)) []
    (mkPacket USB_TOKEN_OUT 1 USB_RET_SUCCESS []) (fresh 0)
  = Some (fresh 0, set_status USB_RET_STALL (mkPacket USB_TOKEN_OUT 1 USB_RET_SUCCESS []),
          [ErrUnhandledRequest USB_TOKEN_OUT 1]).
Proof.
  apply (data_transfer_stall (example_host "" (F32.half, F32.half)) []
           (mkPacket USB_TOKEN_OUT 1 USB_RET_SUCCESS []) (fresh 0) (fresh 0)).
  - reflexivity.
  - left. discriminate.
Defined.



(* ================================================================== *)
(** ** Bindings and raw gun input *)

Lemma SetBindingValue_testbit (i : Z) (v : float) (s : GunCon2State) (n : Z) :
  0 <= n < 32 ->
  Z.testbit (button_state (host (SetBindingValue i v s))) n
  = if (n =? i) && (i <? BID_RELATIVE_LEFT) then F32.leb F32.half v
    else Z.testbit (button_state (host s)) n.
Proof.
  intros Hn. unfold SetBindingValue.
  destruct (Z.ltb_spec i BID_RELATIVE_LEFT).
  - rewrite andb_true_r.
    destruct (F32.leb F32.half v).
    + exact (updateState_testbit i true s n Hn).
    + exact (updateState_testbit i false s n Hn).
  - rewrite andb_false_r.
    destruct (i <=? BID_RELATIVE_DOWN); [|reflexivity].
    destruct (negb (F32.eqb _ v)); [|reflexivity].
    destruct (negb (udev_has _)); reflexivity.
Qed.

(** X7.  Bindings do not interfere: setting binding [i] leaves the value
    read for every other binding [j] as it was. *)
Theorem binding_set_other_unchanged (i j : Z) (v : float) (s : GunCon2State) :
  0 <= j < 32 -> i <> j ->
  GetBindingValue (SetBindingValue i v s) j = GetBindingValue s j.
Proof.
  intros Hj Hij. rewrite !GetBindingValue_testbit by assumption.
  rewrite SetBindingValue_testbit by assumption.
  destruct (Z.eqb_spec j i); [congruence|reflexivity].
Qed.

Lemma binding_set_other_unchanged_witness :
  GetBindingValue (SetBindingValue BID_TRIGGER (F32.of_Z 1) (holding BID_A)) BID_A
  = GetBindingValue (holding BID_A) BID_A.
Proof.
  apply (binding_set_other_unchanged BID_TRIGGER BID_A (F32.of_Z 1) (holding BID_A)).
  - unfold BID_A; lia.
  - discriminate.
Defined.

Lemma udev_handle_event_testbit (h : Host) (s s' : GunCon2State) (ev : input_event)
  (n : Z) :
  udev_handle_event h s ev = Some s' ->
  0 <= n < 32 ->
  n <> BID_B -> n <> BID_A -> n <> BID_TRIGGER -> n <> BID_RECALIBRATE ->
  Z.testbit (button_state (host s')) n = Z.testbit (button_state (host s)) n.
Proof.
  intros H Hn HB HA HT HR.
  destruct ev as [[| | |c] value|[| |c] value|t c value]; cbn [udev_handle_event] in H.
  - injection H as <-.
    destruct (negb (calibrated (cfg (updateState BID_TRIGGER (negb (value =? 0)) s)))).
    + rewrite !updateState_testbit by assumption.
      destruct (Z.eqb_spec n BID_RECALIBRATE); [contradiction|].
      destruct (Z.eqb_spec n BID_TRIGGER); [contradiction|reflexivity].
    + rewrite updateState_testbit by assumption.
      destruct (Z.eqb_spec n BID_TRIGGER); [contradiction|reflexivity].
  - injection H as <-.
    change (host (set_calibrated true (updateState BID_A (negb (value =? 0)) s)))
      with (host (updateState BID_A (negb (value =? 0)) s)).
    rewrite updateState_testbit by assumption.
    destruct (Z.eqb_spec n BID_A); [contradiction|reflexivity].
  - injection H as <-. rewrite updateState_testbit by assumption.
    destruct (Z.eqb_spec n BID_B); [contradiction|reflexivity].
  - now injection H as <-.
  - destruct (udev_scale_axis _ _ _ _); cbn [obind] in H; [|discriminate].
    now injection H as <-.
  - destruct (udev_scale_axis _ _ _ _); cbn [obind] in H; [|discriminate].
    now injection H as <-.
  - now injection H as <-.
  - now injection H as <-.
Qed.

Lemma udev_handle_event_relative (h : Host) (s s' : GunCon2State) (ev : input_event) :
  udev_handle_event h s ev = Some s' -> relative_pos (host s') = relative_pos (host s).
Proof.
  intros H.
  destruct ev as [[| | |c] value|[| |c] value|t c value]; cbn [udev_handle_event] in H;
    try (destruct (udev_scale_axis _ _ _ _); cbn [obind] in H; [|discriminate]);
    injection H as <-; try reflexivity.
  - destruct (negb (calibrated _)); unfold updateState;
      repeat match goal with |- context [if ?b then _ else _] => destruct b end;
      reflexivity.
  - unfold updateState; destruct (negb _); reflexivity.
  - unfold updateState; destruct (negb _); reflexivity.
Qed.

(** X8.  The raw gun writes four buttons only: whatever events a poll
    drains, every bit of the button state other than those of B, A, the
    trigger and recalibrate is as before, and so are the relative axes. *)
Theorem udev_events_touch_gun_buttons_only (h : Host) (events : list input_event) :
  forall (s s' : GunCon2State) (n : Z),
    udev_poll_gun h events s = Some s' ->
    0 <= n < 32 ->
    n <> BID_B -> n <> BID_A -> n <> BID_TRIGGER -> n <> BID_RECALIBRATE ->
    Z.testbit (button_state (host s')) n = Z.testbit (button_state (host s)) n
    /\ relative_pos (host s') = relative_pos (host s).
Proof.
  induction events as [|ev rest IH]; intros s s' n H Hn HB HA HT HR.
  - injection H as <-. split; reflexivity.
  - cbn [udev_poll_gun] in H.
    destruct (udev_handle_event h s ev) as [s1|] eqn:E1; cbn [obind] in H; [|discriminate].
    destruct (IH s1 s' n H Hn HB HA HT HR) as [Hb Hr].
    rewrite Hb, Hr. split.
    + exact (udev_handle_event_testbit h s s1 ev n E1 Hn HB HA HT HR).
    + exact (udev_handle_event_relative h s s1 ev E1).
Qed.

Lemma udev_events_touch_gun_buttons_only_witness :
  Z.testbit (button_state (host (updateState BID_B true
               (updateState BID_RECALIBRATE true
                  (updateState BID_TRIGGER true (holding BID_START)))))) BID_START
  = Z.testbit (button_state (host (holding BID_START))) BID_START
  /\ relative_pos (host (updateState BID_B true
               (updateState BID_RECALIBRATE true
                  (updateState BID_TRIGGER true (holding BID_START)))))
     = relative_pos (host (holding BID_START)).
Proof.
  apply (udev_events_touch_gun_buttons_only (example_host "" (F32.half, F32.half))
           [EV_KEY BTN_LEFT 1; EV_KEY BTN_MIDDLE 1; EV_OTHER 0 0 0]
           (holding BID_START) _ BID_START).
  - reflexivity.
  - unfold BID_START; lia.
  - discriminate.
  - discriminate.
  - discriminate.
  - discriminate.
Defined.





(* ================================================================== *)
(** ** Invariants of runs *)

(** The state a control transfer leaves: the one-time profile selection,
    then either nothing more or the parameters of the payload. *)
Lemma guncon2_handle_control_state (h : Host) (p : USBPacket)
  (request value index length : Z) (data : list Byte.byte)
  (s s' : GunCon2State) (p' : USBPacket) (log : list ConsoleMsg) :
  guncon2_handle_control h p request value index length data s = Some (s', p', log) ->
  s' = first_control_configure h s
  \/ exists x y m,
       s' = set_params (Int.to_s16 x) (Int.to_s16 y) (Int.to_u16 m)
              (first_control_configure h s).
Proof.
  unfold guncon2_handle_control, first_control_configure.
  destruct (negb (auto_config_done (saved s)) && negb (custom_config (cfg s)));
    [destruct (AutoConfigure h s) as [s1 l]; cbn [fst]|];
    (destruct (usb_desc_handle_control h p request value index length data) as [ret p1];
     destruct (0 <=? ret); [intros [= <- _ _]; left; reflexivity|];
     destruct (request =? _); [|intros [= <- _ _]; left; reflexivity];
     destruct (nth_error data 0); cbn [obind]; [|discriminate];
     destruct (nth_error data 1); cbn [obind]; [|discriminate];
     destruct (nth_error data 2); cbn [obind]; [|discriminate];
     destruct (nth_error data 3); cbn [obind]; [|discriminate];
     destruct (nth_error data 4); cbn [obind]; [|discriminate];
     destruct (nth_error data 5); cbn [obind]; [|discriminate];
     intros [= <- _ _]; right; eexists _, _, _; reflexivity).
Qed.

Lemma Freeze_write_state (sw : StateWrapper) (s : GunCon2State) :
  IsReading sw = false -> snd (fst (Freeze sw s)) = s.
Proof.
  destruct sw as [m st e]. unfold IsReading. cbn [sw_mode_of].
  destruct m; [discriminate|]. intros _.
  destruct s as [po c ho [a1 a2 a3 a4 a5 a6 a7] sp u].
  destruct e; reflexivity.
Qed.

(** The host-side input state after one operation, when the operation is
    not a binding update or a poll with a raw gun. *)
Lemma run_op_host (op : DeviceOp) (s s' : GunCon2State) (log : list ConsoleMsg) :
  run_op op s = Some (s', log) ->
  match op with
  | OpSetBinding _ _ => True
  | OpData _ _ _ => udev_has s = false -> host s' = host s
  | _ => host s' = host s
  end.
Proof.
  destruct op as [h p r v i l d|h ev p|si|bi bv|sw]; cbn [run_op].
  - destruct (guncon2_handle_control h p r v i l d s) as [[[s1 p1] l1]|] eqn:E;
      cbn [obind]; [|discriminate].
    intros [= <- _].
    destruct (first_control_configure_frame h s) as (_ & Hh & _).
    cbv zeta in Hh.
    destruct (guncon2_handle_control_state _ _ _ _ _ _ _ _ _ _ _ E)
      as [->|(x & y & m & ->)]; exact Hh.
  - destruct (guncon2_handle_data h ev p s) as [[[s1 p1] l1]|] eqn:E;
      cbn [obind]; [|discriminate].
    intros [= <- _] Hu.
    destruct (guncon2_handle_data_cases _ _ _ _ _ _ _ E) as (us & Hus & Hc).
    rewrite Hu in Hus. injection Hus as <-.
    destruct Hc as [(_ & _ & _ & pos & _ & -> & _)|(-> & _)]; [|reflexivity].
    destruct (start_calibration_frame pos s) as (_ & _ & S3 & _).
    destruct (make_report_frame pos (start_calibration pos s)) as (_ & _ & M3 & _).
    cbv zeta in *. congruence.
  - intros [= <- _]. unfold UpdateSettings. destruct (negb _ || _); reflexivity.
  - trivial.
  - destruct (Freeze sw s) as [[b s1] sw1] eqn:E. intros [= <- _].
    destruct (Freeze_shape sw s) as (b0 & d0 & p0 & c0 & sw0 & [[E0 _]|E0]);
      rewrite E in E0; injection E0 as _ -> _; [destruct c0|]; reflexivity.
Qed.

Lemma start_make_report_host (pos : Z * Z) (us : GunCon2State) :
  host (fst (make_report pos (start_calibration pos us))) = host us.
Proof.
  destruct (start_calibration_frame pos us) as (_ & _ & S3 & _).
  destruct (make_report_frame pos (start_calibration pos us)) as (_ & _ & M3 & _).
  cbv zeta in *. congruence.
Qed.

Lemma udev_poll_gun_high_bits (h : Host) (events : list input_event) :
  forall s s' n,
    udev_poll_gun h events s = Some s' ->
    BID_RELATIVE_LEFT <= n < 32 ->
    Z.testbit (button_state (host s')) n = Z.testbit (button_state (host s)) n.
Proof.
  unfold BID_RELATIVE_LEFT.
  induction events as [|ev rest IH]; intros s s' n H Hn.
  - now injection H as <-.
  - cbn [udev_poll_gun] in H.
    destruct (udev_handle_event h s ev) as [s1|] eqn:E1; cbn [obind] in H; [|discriminate].
    rewrite (IH s1 s' n H Hn).
    apply (udev_handle_event_testbit h s s1 ev n E1);
      unfold BID_B, BID_A, BID_TRIGGER, BID_RECALIBRATE; lia.
Qed.

Lemma run_op_button_bits_only (op : DeviceOp) (s s' : GunCon2State)
  (log : list ConsoleMsg) :
  run_op op s = Some (s', log) -> button_bits_only s -> button_bits_only s'.
Proof.
  intros H Hinv.
  destruct op as [h p r v i l d|h ev p|si|bi bv|sw];
    try (pose proof (run_op_host _ _ _ _ H) as Hh; cbn beta iota in Hh;
         unfold button_bits_only; rewrite Hh; exact Hinv).
  - cbn [run_op] in H.
    destruct (guncon2_handle_data h ev p s) as [[[s1 p1] l1]|] eqn:E;
      cbn [obind] in H; [|discriminate].
    injection H as <- _.
    destruct (guncon2_handle_data_cases _ _ _ _ _ _ _ E) as (us & Hus & Hc).
    assert (Hus' : button_bits_only us).
    { destruct (udev_has s).
      - intros n Hn. rewrite (udev_poll_gun_high_bits h ev s us n Hus Hn). apply Hinv, Hn.
      - now injection Hus as <-. }
    destruct Hc as [(_ & _ & _ & pos & _ & -> & _)|(-> & _)]; [|exact Hus'].
    unfold button_bits_only. rewrite start_make_report_host. exact Hus'.
  - cbn [run_op] in H. injection H as <- _. intros n Hn.
    rewrite SetBindingValue_testbit by (unfold BID_RELATIVE_LEFT in Hn; lia).
    destruct (Z.eqb_spec n bi); cbn [andb]; [|apply Hinv, Hn].
    destruct (Z.ltb_spec bi BID_RELATIVE_LEFT); [lia|apply Hinv, Hn].
Qed.

Lemma run_ops_button_bits_only (ops : list DeviceOp) :
  forall s s' log,
    run_ops ops s = Some (s', log) -> button_bits_only s -> button_bits_only s'.
Proof.
  induction ops as [|op rest IH]; intros s s' log H Hinv.
  - now injection H as <- _.
  - cbn [run_ops] in H.
    destruct (run_op op s) as [[s1 l1]|] eqn:E1; cbn [obind] in H; [|discriminate].
    destruct (run_ops rest s1) as [[s2 l2]|] eqn:E2; cbn [obind] in H; [|discriminate].
    injection H as <- _.
    exact (IH s1 s2 l2 E2 (run_op_button_bits_only op s s1 l1 E1 Hinv)).
Qed.

(** X10.  The relative-axis bindings never read back: no operation of the
    device sets a bit of the button state at or above the first relative
    binding, so after any run from a state without such bits (a newly
    constructed device is one), [GetBindingValue] returns 0 for every
    binding index from [BID_RELATIVE_LEFT] up, whatever was set through
    [SetBindingValue]. *)
Theorem relative_bindings_read_zero (ops : list DeviceOp)
  (s s' : GunCon2State) (log : list ConsoleMsg) (idx : Z) :
  button_bits_only s ->
  run_ops ops s = Some (s', log) ->
  BID_RELATIVE_LEFT <= idx < 32 ->
  button_bits_only s' /\ GetBindingValue s' idx = F32.of_Z 0.
Proof.
  intros Hinv H Hidx.
  pose proof (run_ops_button_bits_only ops s s' log H Hinv) as Hinv'.
  split; [exact Hinv'|].
  rewrite GetBindingValue_testbit by (unfold BID_RELATIVE_LEFT in Hidx; lia).
  rewrite (Hinv' idx Hidx). reflexivity.
Qed.

Lemma fresh_button_bits_only (port_ : Z) : button_bits_only (fresh port_).
Proof. intros n _. apply Z.bits_0. Qed.

Lemma relative_bindings_read_zero_witness :
  exists s' log,
    run_ops [OpSetBinding BID_RELATIVE_RIGHT (F32.of_Z 1);
             OpSetBinding BID_TRIGGER (F32.of_Z 1)] (fresh 0) = Some (s', log)
    /\ rel_get (relative_pos (host s')) 1 = F32.of_Z 1
    /\ GetBindingValue s' BID_RELATIVE_RIGHT = F32.of_Z 0.
Proof.
  destruct (run_ops [OpSetBinding BID_RELATIVE_RIGHT (F32.of_Z 1);
                     OpSetBinding BID_TRIGGER (F32.of_Z 1)] (fresh 0))
    as [[s' log]|] eqn:E.
  - exists s', log. split; [reflexivity|]. split.
    + vm_compute in E. injection E as <- _. reflexivity.
    + apply (relative_bindings_read_zero
               [OpSetBinding BID_RELATIVE_RIGHT (F32.of_Z 1);
                OpSetBinding BID_TRIGGER (F32.of_Z 1)] (fresh 0) s' log
               BID_RELATIVE_RIGHT (fresh_button_bits_only 0) E).
      unfold BID_RELATIVE_LEFT, BID_RELATIVE_RIGHT; lia.
  - vm_compute in E. discriminate E.
Defined.

(** How one operation moves the calibration timer. *)
Lemma run_op_timer (op : DeviceOp) (s s' : GunCon2State) (log : list ConsoleMsg) :
  run_op op s = Some (s', log) ->
  is_restore op = false ->
  calibration_timer (saved s') = calibration_timer (saved s)
  \/ (0 < calibration_timer (saved s)
      /\ calibration_timer (saved s') = Int.to_u16 (calibration_timer (saved s) - 1))
  \/ (calibration_timer (saved s) = 0
      /\ calibration_timer (saved s') = GUNCON2_CALIBRATION_DELAY - 1).
Proof.
  intros H Hr.
  destruct op as [h p r v i l d|h ev p|si|bi bv|sw]; cbn [run_op] in H.
  - destruct (guncon2_handle_control h p r v i l d s) as [[[s1 p1] l1]|] eqn:E;
      cbn [obind] in H; [|discriminate].
    injection H as <- _. left.
    destruct (first_control_configure_frame h s) as (_ & _ & _ & _ & Ht & _).
    cbv zeta in Ht.
    destruct (guncon2_handle_control_state _ _ _ _ _ _ _ _ _ _ _ E)
      as [->|(x & y & m & ->)]; exact Ht.
  - destruct (guncon2_handle_data h ev p s) as [[[s1 p1] l1]|] eqn:E;
      cbn [obind] in H; [|discriminate].
    injection H as <- _.
    destruct (guncon2_handle_data_cases _ _ _ _ _ _ _ E) as (us & Hus & Hc).
    destruct (drained_saved h ev s us Hus) as (_ & Hsaved & _).
    rewrite <- Hsaved.
    destruct Hc as [(_ & _ & _ & pos & _ & -> & _)|(-> & _)]; [|left; reflexivity].
    unfold start_calibration.
    destruct (negb (Z.land (button_state (host us)) (Int.bit BID_RECALIBRATE) =? 0)); cbn [andb].
    + destruct (Z.eqb_spec (calibration_timer (saved us)) 0) as [E0|E0].
      * right. right. split; [exact E0|]. reflexivity.
      * unfold make_report.
        destruct (Z.ltb_spec 0 (calibration_timer (saved us))).
        -- right. left. split; [assumption|].
           destruct (_ <? GUNCON2_CALIBRATION_REPORT_DELAY); reflexivity.
        -- left. destruct (negb _); reflexivity.
    + unfold make_report.
      destruct (Z.ltb_spec 0 (calibration_timer (saved us))).
      * right. left. split; [assumption|].
        destruct (_ <? GUNCON2_CALIBRATION_REPORT_DELAY); reflexivity.
      * left. destruct (negb _); reflexivity.
  - injection H as <- _. left.
    destruct (UpdateSettings_config si s) as (Hs & _). cbv zeta in Hs. now rewrite Hs.
  - injection H as <- _. left.
    destruct (SetBindingValue_frame bi bv s) as (_ & Hs & _). now rewrite Hs.
  - cbn [is_restore] in Hr. pose proof (Freeze_write_state sw s Hr) as Hw.
    destruct (Freeze sw s) as [[b s1] sw1]. cbn [fst snd] in Hw.
    injection H as <- _. left. now rewrite Hw.
Qed.

(** X11.  Between calls the calibration timer stays below its start value
    of 12: every operation other than a state restore keeps it in
    [0, 12), so a forced-position override never has more than eleven
    polls left to run. *)
Theorem calibration_timer_bounded (ops : list DeviceOp) :
  forall (s s' : GunCon2State) (log : list ConsoleMsg),
    Forall (fun op => is_restore op = false) ops ->
    0 <= calibration_timer (saved s) < GUNCON2_CALIBRATION_DELAY ->
    run_ops ops s = Some (s', log) ->
    0 <= calibration_timer (saved s') < GUNCON2_CALIBRATION_DELAY.
Proof.
  unfold GUNCON2_CALIBRATION_DELAY.
  induction ops as [|op rest IH]; intros s s' log Hall Ht H.
  - now injection H as <- _.
  - cbn [run_ops] in H.
    destruct (run_op op s) as [[s1 l1]|] eqn:E1; cbn [obind] in H; [|discriminate].
    destruct (run_ops rest s1) as [[s2 l2]|] eqn:E2; cbn [obind] in H; [|discriminate].
    injection H as <- _.
    inversion Hall as [|? ? Hop Hrest]; subst.
    apply (IH s1 s2 l2 Hrest); [|exact E2].
    destruct (run_op_timer op s s1 l1 E1 Hop) as [E|[[Hpos E]|[Hz E]]]; rewrite E.
    + exact Ht.
    + unfold Int.to_u16. rewrite Z.mod_small by lia. lia.
    + unfold GUNCON2_CALIBRATION_DELAY. lia.
Qed.

Lemma calibration_timer_bounded_witness :
  exists s' log,
    run_ops [OpSetBinding BID_RECALIBRATE (F32.of_Z 1);
             OpData (example_host "" (F32.half, F32.half)) [] in_packet;
             OpData (example_host "" (F32.half, F32.half)) [] in_packet] (fresh 0)
    = Some (s', log)
    /\ 0 <= calibration_timer (saved s') < GUNCON2_CALIBRATION_DELAY.
Proof.
  destruct (run_ops [OpSetBinding BID_RECALIBRATE (F32.of_Z 1);
             OpData (example_host "" (F32.half, F32.half)) [] in_packet;
             OpData (example_host "" (F32.half, F32.half)) [] in_packet] (fresh 0))
    as [[s' log]|] eqn:E.
  - exists s', log. split; [reflexivity|].
    apply (calibration_timer_bounded
             [OpSetBinding BID_RECALIBRATE (F32.of_Z 1);
              OpData (example_host "" (F32.half, F32.half)) [] in_packet;
              OpData (example_host "" (F32.half, F32.half)) [] in_packet]
             (fresh 0) s' log).
    + repeat constructor.
    + cbn. unfold GUNCON2_CALIBRATION_DELAY. lia.
    + exact E.
  - vm_compute in E. discriminate E.
Defined.

(* ================================================================== *)
(** ** Ranges of the state's fields *)

Lemma to_u32_range (z : Z) : 0 <= Int.to_u32 z < 4294967296.
Proof. unfold Int.to_u32. apply Z.mod_pos_bound. lia. Qed.

Lemma lor_u32_range (a b : Z) :
  0 <= a < 4294967296 -> 0 <= b < 4294967296 -> 0 <= Z.lor a b < 4294967296.
Proof.
  intros Ha Hb. split; [apply Z.lor_nonneg; lia|].
  destruct (Z.eq_dec (Z.lor a b) 0) as [E|E]; [lia|].
  assert (Hpos : 0 < Z.lor a b) by (pose proof (proj2 (Z.lor_nonneg a b)); lia).
  change 4294967296 with (2 ^ 32). apply Z.log2_lt_pow2; [exact Hpos|].
  rewrite Z.log2_lor by lia.
  assert (La : Z.log2 a < 32).
  { destruct (Z.eq_dec a 0) as [->|]; [cbn; lia|]. apply Z.log2_lt_pow2; lia. }
  assert (Lb : Z.log2 b < 32).
  { destruct (Z.eq_dec b 0) as [->|]; [cbn; lia|]. apply Z.log2_lt_pow2; lia. }
  lia.
Qed.

Lemma land_u32_range (a b : Z) :
  0 <= a < 4294967296 -> 0 <= b -> 0 <= Z.land a b < 4294967296.
Proof.
  intros Ha Hb. split; [apply Z.land_nonneg; lia|].
  destruct (Z.eq_dec (Z.land a b) 0) as [E|E]; [lia|].
  assert (0 <= Z.land a b) by (apply Z.land_nonneg; lia).
  change 4294967296 with (2 ^ 32). apply Z.log2_lt_pow2; [lia|].
  pose proof (Z.log2_land a b ltac:(lia) Hb).
  assert (La : Z.log2 a < 32).
  { destruct (Z.eq_dec a 0) as [->|]; [cbn; lia|]. apply Z.log2_lt_pow2; lia. }
  lia.
Qed.

Lemma bit_range (n : Z) : 0 <= Int.bit n < 4294967296.
Proof. apply to_u32_range. Qed.

Lemma u32_not_range (b : Z) : 0 <= Int.u32_not b < 4294967296.
Proof. apply to_u32_range. Qed.

(** [wf_state] in terms of the three parts it reads. *)
Lemma wf_state_parts (s s' : GunCon2State) :
  wf_state s ->
  button_state (host s') = button_state (host s) ->
  screen_width (cfg s') = screen_width (cfg s) ->
  screen_height (cfg s') = screen_height (cfg s) ->
  saved s' = saved s ->
  wf_state s'.
Proof.
  unfold wf_state. intros H Hb Hw Hh Hs. rewrite Hb, Hw, Hh, Hs. exact H.
Qed.

Lemma updateState_wf (bid : Z) (b : bool) (s : GunCon2State) :
  wf_state s -> wf_state (updateState bid b s).
Proof.
  intros H. pose proof H as (Hb & Hrest). unfold wf_state, updateState.
  destruct b; cbn [host cfg saved set_button_state with_host button_state];
    (split; [|exact Hrest]).
  - apply lor_u32_range; [exact Hb|apply bit_range].
  - apply land_u32_range; [exact Hb|apply u32_not_range].
Qed.

Lemma udev_handle_event_wf (h : Host) (s s' : GunCon2State) (ev : input_event) :
  udev_handle_event h s ev = Some s' -> wf_state s -> wf_state s'.
Proof.
  intros H Hwf.
  destruct ev as [[| | |c] value|[| |c] value|t c value]; cbn [udev_handle_event] in H;
    try (destruct (udev_scale_axis _ _ _ _); cbn [obind] in H; [|discriminate]);
    injection H as <-; try exact Hwf.
  - destruct (negb (calibrated _)); repeat apply updateState_wf; exact Hwf.
  - apply (wf_state_parts (updateState BID_A (negb (value =? 0)) s));
      [apply updateState_wf; exact Hwf|reflexivity..].
  - apply updateState_wf; exact Hwf.
Qed.

Lemma udev_poll_gun_wf (h : Host) (events : list input_event) :
  forall s s', udev_poll_gun h events s = Some s' -> wf_state s -> wf_state s'.
Proof.
  induction events as [|ev rest IH]; intros s s' H Hwf.
  - now injection H as <-.
  - cbn [udev_poll_gun] in H.
    destruct (udev_handle_event h s ev) as [s1|] eqn:E1; cbn [obind] in H; [|discriminate].
    exact (IH s1 s' H (udev_handle_event_wf h s s1 ev E1 Hwf)).
Qed.

Lemma SetBindingValue_wf (i : Z) (v : float) (s : GunCon2State) :
  wf_state s -> wf_state (SetBindingValue i v s).
Proof.
  intros Hwf. unfold SetBindingValue.
  destruct (i <? BID_RELATIVE_LEFT).
  - destruct (F32.leb F32.half v).
    + exact (updateState_wf i true s Hwf).
    + exact (updateState_wf i false s Hwf).
  - destruct (i <=? BID_RELATIVE_DOWN); [|exact Hwf].
    destruct (negb (F32.eqb _ v)); [|exact Hwf].
    destruct (negb (udev_has _)); exact Hwf.
Qed.

Lemma AutoConfigure_scan_wf (table : list GameConfig) (serial : string)
  (s : GunCon2State) :
  table_sizes_ok table -> wf_state s ->
  wf_state (fst (AutoConfigure_scan table serial s)).
Proof.
  intros Ht Hwf. induction Ht as [|gc rest [Hw Hh] _ IH]; cbn [AutoConfigure_scan].
  - exact Hwf.
  - destruct (negb (serial =? gc_serial gc)%string); [exact IH|].
    cbn [fst]. destruct Hwf as (Hb & _ & _ & Hrest).
    unfold wf_state. cbn. repeat split; try apply Hb; try apply Hw; try apply Hh;
      apply Hrest.
Qed.

Lemma s_game_config_sizes_ok : table_sizes_ok s_game_config.
Proof. unfold table_sizes_ok, s_game_config. repeat constructor; cbn; lia. Qed.

Lemma set_auto_config_done_wf (b : bool) (s : GunCon2State) :
  wf_state s -> wf_state (set_auto_config_done b s).
Proof. intros H. exact H. Qed.

Lemma set_params_wf (x y m : Z) (s : GunCon2State) :
  wf_state s ->
  wf_state (set_params (Int.to_s16 x) (Int.to_s16 y) (Int.to_u16 m) s).
Proof.
  intros (Hb & Hw & Hh & _ & _ & _ & Hrest). unfold wf_state.
  cbn [set_params with_saved host cfg saved param_x param_y param_mode
       calibration_timer calibration_pos_x calibration_pos_y].
  repeat split; try apply Hb; try apply Hw; try apply Hh; try apply Hrest;
    try apply to_s16_range; apply to_u16_range.
Qed.

Lemma first_control_configure_wf (h : Host) (s : GunCon2State) :
  wf_state s -> wf_state (first_control_configure h s).
Proof.
  intros Hwf. unfold first_control_configure.
  destruct (negb _ && negb _); [|exact Hwf].
  apply set_auto_config_done_wf, AutoConfigure_scan_wf;
    [apply s_game_config_sizes_ok|exact Hwf].
Qed.

Lemma start_make_report_wf (pos : Z * Z) (us : GunCon2State) :
  -32768 <= fst pos <= 32767 -> -32768 <= snd pos <= 32767 ->
  wf_state us -> wf_state (fst (make_report pos (start_calibration pos us))).
Proof.
  intros Hx Hy Hwf.
  assert (Hs : wf_state (start_calibration pos us)).
  { unfold start_calibration. destruct (negb _ && _); [|exact Hwf].
    destruct Hwf as (Hb & Hw & Hh & Hpx & Hpy & Hpm & _).
    unfold wf_state, GUNCON2_CALIBRATION_DELAY. cbn. repeat split; (assumption || lia). }
  revert Hs. generalize (start_calibration pos us). intros s Hs.
  unfold make_report.
  destruct (0 <? calibration_timer (saved s)).
  - assert (Ht : wf_state (set_calibration_timer
                             (Int.to_u16 (calibration_timer (saved s) - 1)) s)).
    { destruct Hs as (Hb & Hw & Hh & Hpx & Hpy & Hpm & _ & Hcx & Hcy).
      unfold wf_state. cbn. pose proof (to_u16_range (calibration_timer (saved s) - 1)).
      repeat split; (assumption || lia). }
    destruct (_ <? GUNCON2_CALIBRATION_REPORT_DELAY); exact Ht.
  - destruct (negb _); exact Hs.
Qed.

Lemma UpdateSettings_wf (si : SettingsInterface) (s : GunCon2State) :
  wf_state s -> wf_state (UpdateSettings si s).
Proof.
  intros Hwf. pose proof Hwf as (Hb & Hw & Hh & Hrest). unfold UpdateSettings.
  destruct (negb _ || _); unfold wf_state; cbn [with_cfg host cfg saved screen_width
                                                  screen_height].
  - repeat split; try apply Hb; try apply to_u32_range; apply Hrest.
  - exact Hwf.
Qed.

Lemma run_op_wf (op : DeviceOp) (s s' : GunCon2State) (log : list ConsoleMsg) :
  run_op op s = Some (s', log) -> is_restore op = false -> wf_state s -> wf_state s'.
Proof.
  intros H Hr Hwf.
  destruct op as [h p r v i l d|h ev p|si|bi bv|sw]; cbn [run_op] in H.
  - destruct (guncon2_handle_control h p r v i l d s) as [[[s1 p1] l1]|] eqn:E;
      cbn [obind] in H; [|discriminate].
    injection H as <- _.
    pose proof (first_control_configure_wf h s Hwf) as Hc.
    destruct (guncon2_handle_control_state _ _ _ _ _ _ _ _ _ _ _ E)
      as [->|(x & y & m & ->)]; [exact Hc|apply set_params_wf; exact Hc].
  - destruct (guncon2_handle_data h ev p s) as [[[s1 p1] l1]|] eqn:E;
      cbn [obind] in H; [|discriminate].
    injection H as <- _.
    destruct (guncon2_handle_data_cases _ _ _ _ _ _ _ E) as (us & Hus & Hc).
    assert (Hus' : wf_state us).
    { destruct (udev_has s); [exact (udev_poll_gun_wf h ev s us Hus Hwf)|].
      now injection Hus as <-. }
    destruct Hc as [(_ & _ & _ & [x y] & Hpos & -> & _)|(-> & _)]; [|exact Hus'].
    destruct (CalculatePosition_range h us x y Hpos) as [Hx Hy].
    apply start_make_report_wf; assumption.
  - injection H as <- _. apply UpdateSettings_wf; exact Hwf.
  - injection H as <- _. apply SetBindingValue_wf; exact Hwf.
  - cbn [is_restore] in Hr. pose proof (Freeze_write_state sw s Hr) as Hw.
    destruct (Freeze sw s) as [[b s1] sw1]. cbn [fst snd] in Hw.
    injection H as <- _. rewrite Hw. exact Hwf.
Qed.

Lemma GunCon2State_new_wf (port_ a b c d : Z) : wf_state (GunCon2State_new port_ a b c d).
Proof. unfold wf_state. cbn. lia. Qed.

Lemma run_ops_wf (ops : list DeviceOp) :
  forall (s s' : GunCon2State) (log : list ConsoleMsg),
    Forall (fun op => is_restore op = false) ops ->
    wf_state s ->
    run_ops ops s = Some (s', log) ->
    wf_state s'.
Proof.
  induction ops as [|op rest IH]; intros s s' log Hall Hwf H.
  - now injection H as <- _.
  - cbn [run_ops] in H.
    destruct (run_op op s) as [[s1 l1]|] eqn:E1; cbn [obind] in H; [|discriminate].
    destruct (run_ops rest s1) as [[s2 l2]|] eqn:E2; cbn [obind] in H; [|discriminate].
    injection H as <- _.
    inversion Hall as [|? ? Hop Hrest]; subst.
    exact (IH s1 s2 l2 Hrest (run_op_wf op s s1 l1 E1 Hop Hwf) E2).
Qed.

(** X12.  The integer fields of the device keep to the ranges of their C++
    types: a newly constructed device has them in range, and every
    operation other than a state restore (control and data transfers,
    settings updates, binding updates, state saves) keeps them in range.
    The profile table contributes through its screen sizes, all of which
    fit [u32]. *)
Theorem field_ranges_invariant :
  (forall port_ a b c d, wf_state (GunCon2State_new port_ a b c d))
  /\ table_sizes_ok s_game_config
  /\ (forall ops s s' log,
         Forall (fun op => is_restore op = false) ops ->
         wf_state s ->
         run_ops ops s = Some (s', log) ->
         wf_state s').
Proof.
  split; [exact GunCon2State_new_wf|].
  split; [exact s_game_config_sizes_ok|exact run_ops_wf].
Qed.

Lemma field_ranges_invariant_witness :
  exists s' log,
    run_ops example_ops (fresh 0) = Some (s', log) /\ wf_state s'.
Proof.
  destruct (run_ops example_ops (fresh 0)) as [[s' log]|] eqn:E.
  - exists s', log. split; [reflexivity|].
    apply (proj2 (proj2 field_ranges_invariant) example_ops (fresh 0) s' log).
    + repeat constructor.
    + apply (proj1 field_ranges_invariant).
    + exact E.
  - vm_compute in E. discriminate E.
Defined.

(* ================================================================== *)
(** ** Save states *)

Lemma with_saved_same (s : GunCon2State) : with_saved (saved s) s = s.
Proof. destruct s; reflexivity. Qed.

Lemma set_profile_same (s : GunCon2State) : set_profile (profile_of s) s = s.
Proof. destruct s as [po [] ho sa sp u]; reflexivity. Qed.

(** X13.  Save states round-trip.  Loading on a device the state it has
    just saved succeeds and changes nothing; and saving right after a load
    writes the loaded device fields back, with the loaded geometry when the
    load adopted it (manual configuration off, profile selection recorded
    as done) and the device's own geometry otherwise. *)
Theorem save_load_roundtrip (s : GunCon2State) (rest : list SaveCell) :
  restore (snapshot s ++ rest) s = (true, s)
  /\ (forall d p,
        snapshot (snd (restore (snapshot_stream d p ++ rest) s))
        = snapshot_stream d
            (if negb (custom_config (cfg s)) && auto_config_done d
             then p else profile_of s)).
Proof.
  split.
  - unfold restore, snapshot. rewrite Freeze_write_snapshot. cbn [snd sw_stream].
    rewrite Freeze_read_snapshot. cbn [fst]. rewrite with_saved_same.
    rewrite set_profile_same. destruct (negb _ && _); reflexivity.
  - intros d p. unfold restore, snapshot. rewrite Freeze_read_snapshot. cbn [fst snd].
    rewrite Freeze_write_snapshot. cbn [snd sw_stream].
    destruct (negb (custom_config (cfg s)) && auto_config_done d).
    + rewrite profile_of_set_profile. reflexivity.
    + reflexivity.
Qed.

Lemma Freeze_write_append (st : list SaveCell) (s : GunCon2State) :
  Freeze (mkSW ModeWrite st false) s
  = (true, s, mkSW ModeWrite (st ++ snapshot_stream (saved s) (profile_of s)) false).
Proof.
  destruct s as [po c ho [a1 a2 a3 a4 a5 a6 a7] sp u].
  unfold Freeze, DoMarker, Do_s16, Do_u16, Do_u32, Do_bool, Do_float, Do, snapshot_stream.
  cbn. repeat rewrite <- app_assoc. reflexivity.
Qed.

Lemma Freeze_write_error (st : list SaveCell) (s : GunCon2State) :
  Freeze (mkSW ModeWrite st true) s = (false, s, mkSW ModeWrite st true).
Proof. reflexivity. Qed.

(** X14.  Taking a save state never modifies the device.  A writer without
    error gets exactly the fourteen values of the device appended, marker
    first, behind whatever the stream already holds, and the call reports
    success; a writer already in error gets nothing appended and the call
    reports failure. *)
Theorem save_appends_and_keeps_device (sw : StateWrapper) (s : GunCon2State) :
  IsReading sw = false ->
  snd (fst (Freeze sw s)) = s
  /\ (sw_error sw = false ->
      Freeze sw s
      = (true, s,
         mkSW ModeWrite (sw_stream sw ++ snapshot_stream (saved s) (profile_of s)) false)
      /\ List.length (snapshot_stream (saved s) (profile_of s)) = 14%nat)
  /\ (sw_error sw = true -> Freeze sw s = (false, s, sw)).
Proof.
  intros Hw. split; [exact (Freeze_write_state sw s Hw)|].
  destruct sw as [m st e]. unfold IsReading in Hw. cbn [sw_mode_of] in Hw.
  destruct m; [discriminate|]. cbn [sw_error sw_stream]. split.
  - intros ->. split; [apply Freeze_write_append|reflexivity].
  - intros ->. apply Freeze_write_error.
Qed.

Lemma save_appends_and_keeps_device_witness :
  snd (fst (Freeze (mkSW ModeWrite [CellU32 7] false) (holding BID_A))) = holding BID_A
  /\ (sw_error (mkSW ModeWrite [CellU32 7] false) = false ->
      Freeze (mkSW ModeWrite [CellU32 7] false) (holding BID_A)
      = (true, holding BID_A,
         mkSW ModeWrite
           (sw_stream (mkSW ModeWrite [CellU32 7] false)
            ++ snapshot_stream (saved (holding BID_A)) (profile_of (holding BID_A))) false)
      /\ List.length (snapshot_stream (saved (holding BID_A)) (profile_of (holding BID_A)))
         = 14%nat)
  /\ (sw_error (mkSW ModeWrite [CellU32 7] false) = true ->
      Freeze (mkSW ModeWrite [CellU32 7] false) (holding BID_A)
      = (false, holding BID_A, mkSW ModeWrite [CellU32 7] false)).
Proof.
  apply (save_appends_and_keeps_device (mkSW ModeWrite [CellU32 7] false) (holding BID_A)).
  reflexivity.
Defined.

(** X15.  A truncated save state is refused: loading any proper prefix of
    a snapshot's fourteen values reports failure. *)
Theorem truncated_snapshot_refused (n : nat) (d : SavedState) (p : ScreenProfile)
  (s : GunCon2State) :
  (n < 14)%nat ->
  fst (restore (firstn n (snapshot_stream d p)) s) = false.
Proof.
  intros Hn. unfold restore, snapshot_stream.
  do 14 (destruct n as [|n]; [reflexivity|]). lia.
Qed.

Lemma truncated_snapshot_refused_witness :
  fst (restore (firstn 9 (snapshot (fresh 0))) (fresh 0)) = false.
Proof.
  apply (truncated_snapshot_refused 9 (saved (fresh 0)) (profile_of (fresh 0)) (fresh 0)).
  lia.
Defined.

(** X16.  Whatever the save-state stream holds and whether the call
    succeeds or not, [Freeze] touches nothing but the seven saved device
    fields and the six geometry fields: the port, the bindings' state, the
    raw gun state, the split-screen state and the configuration switches are
    as before; and with manual screen configuration on, the geometry is as
    before too. *)
Theorem freeze_frame (sw : StateWrapper) (s : GunCon2State) :
  let s' := snd (fst (Freeze sw s)) in
  port s' = port s /\ host s' = host s /\ split s' = split s /\ udev s' = udev s
  /\ has_relative_binds (cfg s') = has_relative_binds (cfg s)
  /\ custom_config (cfg s') = custom_config (cfg s)
  /\ split_screen_hack (cfg s') = split_screen_hack (cfg s)
  /\ split_screen_full_stretch (cfg s') = split_screen_full_stretch (cfg s)
  /\ calibrated (cfg s') = calibrated (cfg s)
  /\ (custom_config (cfg s) = true -> cfg s' = cfg s).
Proof.
  destruct (Freeze_shape sw s) as (b & d & p & c & sw' & [[E Hc]|E]);
    rewrite E; cbn [fst snd].
  - destruct c.
    + repeat split. intros Hcustom. rewrite (Hc eq_refl) in Hcustom. discriminate.
    + repeat split.
  - repeat split.
Qed.

Lemma freeze_frame_witness :
  cfg (snd (fst (Freeze (mkSW ModeRead (snapshot (set_auto_config_done true (fresh 0))) false)
                   (UpdateSettings far_centre_settings (fresh 0)))))
  = cfg (UpdateSettings far_centre_settings (fresh 0)).
Proof.
  destruct (freeze_frame
              (mkSW ModeRead (snapshot (set_auto_config_done true (fresh 0))) false)
              (UpdateSettings far_centre_settings (fresh 0)))
    as (_ & _ & _ & _ & _ & _ & _ & _ & _ & H).
  apply H. reflexivity.
Defined.

(* ================================================================== *)
(** ** Profile selection and settings *)

Lemma set_profile_idem (p : ScreenProfile) (g : string) (s : GunCon2State) :
  set_profile p (set_active_game g (set_profile p (set_active_game g s)))
  = set_profile p (set_active_game g s).
Proof. reflexivity. Qed.

Lemma AutoConfigure_scan_idem (table : list GameConfig) (serial : string)
  (s : GunCon2State) :
  AutoConfigure_scan table serial (fst (AutoConfigure_scan table serial s))
  = AutoConfigure_scan table serial s.
Proof.
  induction table as [|gc rest IH].
  - reflexivity.
  - cbn [AutoConfigure_scan].
    destruct (negb (serial =? gc_serial gc)%string) eqn:E; [exact IH|].
    reflexivity.
Qed.

(** X17.  Profile selection is idempotent: running [AutoConfigure] again
    for the same title gives the same device state and the same console
    lines as the first run. *)
Theorem AutoConfigure_idempotent (h : Host) (s : GunCon2State) :
  AutoConfigure h (fst (AutoConfigure h s)) = AutoConfigure h s.
Proof. apply AutoConfigure_scan_idem. Qed.

Lemma in_table_serials (serial : string) (table : list GameConfig) :
  in_table serial table <-> In serial (map gc_serial table).
Proof.
  unfold in_table. rewrite in_map_iff. split; intros (gc & H1 & H2); exists gc; tauto.
Qed.

Lemma AutoConfigure_scan_unique (table : list GameConfig) (serial : string)
  (s : GunCon2State) (gc : GameConfig) :
  NoDup (map gc_serial table) -> In gc table -> gc_serial gc = serial ->
  AutoConfigure_scan table serial s
  = AutoConfigure_scan [gc] serial s.
Proof.
  intros Hnd Hin Hser.
  destruct (in_split gc table Hin) as (pre & post & ->).
  assert (Hpre : ~ in_table serial pre).
  { rewrite in_table_serials. rewrite map_app in Hnd. cbn [map] in Hnd.
    apply NoDup_remove_2 in Hnd. intros Hc. apply Hnd.
    apply in_or_app. left. rewrite Hser. exact Hc. }
  rewrite (AutoConfigure_scan_first_match pre post gc serial s Hpre Hser).
  change [gc] with ([] ++ gc :: []).
  rewrite (AutoConfigure_scan_first_match [] [] gc serial s); [reflexivity| |exact Hser].
  intros (g & [] & _).
Qed.

Lemma AutoConfigure_scan_permutation (t1 t2 : list GameConfig) (serial : string)
  (s : GunCon2State) :
  NoDup (map gc_serial t1) -> Permutation t1 t2 ->
  AutoConfigure_scan t1 serial s = AutoConfigure_scan t2 serial s.
Proof.
  intros Hnd Hperm.
  assert (Hnd2 : NoDup (map gc_serial t2)).
  { apply (Permutation_NoDup (l := map gc_serial t1)); [|exact Hnd].
    apply Permutation_map. exact Hperm. }
  destruct (in_dec string_dec serial (map gc_serial t1)) as [Hin|Hout].
  - apply in_map_iff in Hin. destruct Hin as (gc & Hser & Hin).
    rewrite (AutoConfigure_scan_unique t1 serial s gc Hnd Hin Hser).
    rewrite (AutoConfigure_scan_unique t2 serial s gc Hnd2
               (Permutation_in gc Hperm Hin) Hser).
    reflexivity.
  - rewrite !AutoConfigure_scan_absent; [reflexivity| |].
    + rewrite in_table_serials. intros Hc. apply Hout.
      apply (Permutation_in serial (Permutation_map gc_serial (Permutation_sym Hperm)) Hc).
    + rewrite in_table_serials. exact Hout.
Qed.

Lemma s_game_config_NoDup : NoDup (map gc_serial s_game_config).
Proof.
  apply (NoDup_count_occ' string_dec). intros x Hin.
  cbn [map s_game_config gc_serial] in Hin.
  repeat (destruct Hin as [<-|Hin]; [vm_compute; reflexivity|]).
  destruct Hin.
Qed.

(** X18.  No title occurs twice in the profile table, so the first match
    is the only match and the order of the table's rows is immaterial:
    scanning any rearrangement of the table gives the same device state and
    the same console lines. *)
Theorem profile_table_order_immaterial :
  NoDup (map gc_serial s_game_config)
  /\ (forall table serial s,
         Permutation s_game_config table ->
         AutoConfigure_scan table serial s
         = AutoConfigure_scan s_game_config serial s).
Proof.
  split; [exact s_game_config_NoDup|].
  intros table serial s Hperm. symmetry.
  apply AutoConfigure_scan_permutation; [exact s_game_config_NoDup|exact Hperm].
Qed.

Lemma profile_table_order_immaterial_witness :
  AutoConfigure_scan (rev s_game_config) "SLUS-20219" (fresh 0)
  = AutoConfigure_scan s_game_config "SLUS-20219" (fresh 0).
Proof.
  apply (proj2 profile_table_order_immaterial (rev s_game_config) "SLUS-20219" (fresh 0)).
  apply Permutation_rev.
Defined.

(** X19.  [UpdateSettings] does not override an automatic profile: once
    the profile selection is recorded as done and the settings leave manual
    configuration off, the six geometry fields are as before, whatever the
    settings store holds for them; in every other case they are the
    store's.  The saved device state, the bindings' state and the
    [calibrated] latch are never touched, and applying the same settings
    twice is the same as applying them once. *)
Theorem UpdateSettings_keeps_auto_profile (si : SettingsInterface) (s : GunCon2State) :
  (auto_config_done (saved s) = true ->
   GetConfigBool si "custom_config" false = false ->
   profile_of (UpdateSettings si s) = profile_of s)
  /\ (auto_config_done (saved s) = false \/ GetConfigBool si "custom_config" false = true ->
      profile_of (UpdateSettings si s) = settings_profile si)
  /\ saved (UpdateSettings si s) = saved s
  /\ host (UpdateSettings si s) = host s
  /\ udev (UpdateSettings si s) = udev s
  /\ split (UpdateSettings si s) = split s
  /\ port (UpdateSettings si s) = port s
  /\ calibrated (cfg (UpdateSettings si s)) = calibrated (cfg s)
  /\ UpdateSettings si (UpdateSettings si s) = UpdateSettings si s.
Proof.
  unfold UpdateSettings.
  destruct (auto_config_done (saved s)) eqn:Ed;
    destruct (GetConfigBool si "custom_config" false) eqn:Ec;
    cbn [negb orb with_cfg saved cfg auto_config_done];
    rewrite ?Ed, ?Ec; cbn [negb orb];
    (split; [intros; try discriminate; reflexivity|]);
    (split; [intros [?|?]; try discriminate; reflexivity|]);
    repeat split.
Qed.

Lemma UpdateSettings_keeps_auto_profile_witness :
  profile_of (UpdateSettings
                (mkSettings (fun _ d => d) (fun _ _ => 1024) (fun _ d => d) (fun _ => false))
                (set_auto_config_done true (fresh 0)))
  = profile_of (set_auto_config_done true (fresh 0))
  /\ profile_of (UpdateSettings far_centre_settings (fresh 0))
     = settings_profile far_centre_settings.
Proof.
  split.
  - apply (UpdateSettings_keeps_auto_profile
             (mkSettings (fun _ d => d) (fun _ _ => 1024) (fun _ d => d) (fun _ => false))
             (set_auto_config_done true (fresh 0))); reflexivity.
  - apply (UpdateSettings_keeps_auto_profile far_centre_settings (fresh 0)).
    left. reflexivity.
Defined.

(* ================================================================== *)
(** ** Control transfers and device creation *)

(** X20.  A request the USB core's descriptor handler accepts never
    reaches the device's own request handling: the transfer is returned as
    the handler left it, without a stall, and the device state is touched
    by nothing but the one-time profile selection (the title parameters
    are as before even when the request code is the set-parameter one). *)
Theorem control_handled_by_descriptor (h : Host) (p : USBPacket)
  (request value index length : Z) (data : list Byte.byte) (s : GunCon2State) :
  0 <= fst (usb_desc_handle_control h p request value index length data) ->
  exists log,
    guncon2_handle_control h p request value index length data s
    = Some (first_control_configure h s,
            snd (usb_desc_handle_control h p request value index length data),
            log ++ [MsgControlRequest request value index length])
    /\ params_of (first_control_configure h s) = params_of s
    /\ host (first_control_configure h s) = host s
    /\ (auto_config_done (saved s) = true \/ custom_config (cfg s) = true ->
        first_control_configure h s = s /\ log = []).
Proof.
  intros Hret.
  destruct (first_control_configure_frame h s) as (_ & Hh & _ & Hp & _).
  cbv zeta in Hh, Hp.
  unfold guncon2_handle_control, first_control_configure in *.
  destruct (usb_desc_handle_control h p request value index length data) as [ret p1].
  cbn [fst snd] in *.
  destruct (Z.leb_spec 0 ret); [|lia].
  destruct (negb (auto_config_done (saved s)) && negb (custom_config (cfg s))) eqn:Edue.
  - destruct (AutoConfigure h s) as [s1 l]. cbn [fst] in *.
    exists l. split; [reflexivity|]. split; [exact Hp|]. split; [exact Hh|].
    intros [E|E]; rewrite E in Edue; cbn in Edue;
      [discriminate|rewrite andb_false_r in Edue; discriminate].
  - exists []. split; [reflexivity|]. repeat split.
Qed.

Lemma control_handled_by_descriptor_witness :
  exists log,
    guncon2_handle_control
      (mkHost (F32.half, F32.half) (F32.of_Z 640) (F32.of_Z 480) (fun x y => (x, y))
              640 480 "SLUS-20219" (fun p _ _ _ _ _ => (0, p)) 0x2100)
      (mkPacket USB_TOKEN_OUT 0 USB_RET_SUCCESS []) 0x2109 0 0 6
      [Byte.x10; Byte.x00; Byte.xf0; Byte.xff; Byte.x00; Byte.x01]
      (set_auto_config_done true (fresh 0))
    = Some (set_auto_config_done true (fresh 0),
            mkPacket USB_TOKEN_OUT 0 USB_RET_SUCCESS [],
            log ++ [MsgControlRequest 0x2109 0 0 6]).
Proof.
  destruct (control_handled_by_descriptor
              (mkHost (F32.half, F32.half) (F32.of_Z 640) (F32.of_Z 480) (fun x y => (x, y))
                      640 480 "SLUS-20219" (fun p _ _ _ _ _ => (0, p)) 0x2100)
              (mkPacket USB_TOKEN_OUT 0 USB_RET_SUCCESS []) 0x2109 0 0 6
              [Byte.x10; Byte.x00; Byte.xf0; Byte.xff; Byte.x00; Byte.x01]
              (set_auto_config_done true (fresh 0)))
    as (log & H & _).
  - cbn. lia.
  - exists log. exact H.
Defined.

Lemma byte_of_Z_u8 (b : Byte.byte) : byte_of_Z (u8 b) = b.
Proof.
  unfold byte_of_Z, u8. pose proof (u8_range b) as R. unfold u8 in R.
  rewrite Z.mod_small by exact R. rewrite N2Z.id, Byte.of_to_N. reflexivity.
Qed.

Lemma to_u16_to_s16 (z : Z) : Int.to_u16 (Int.to_s16 z) = Int.to_u16 z.
Proof.
  unfold Int.to_u16, Int.to_s16.
  rewrite Zminus_mod_idemp_l. f_equal. lia.
Qed.

(** The two bytes of a little-endian 16-bit value, stored and re-encoded. *)
Lemma le16_of_bytes (lo hi : Byte.byte) :
  bytes_of (le16 (Z.lor (u8 lo) (Z.shiftl (u8 hi) 8))) = [lo; hi].
Proof.
  pose proof (u8_range lo) as Rlo. pose proof (u8_range hi) as Rhi.
  rewrite lor_shiftl_8 by exact Rlo.
  unfold bytes_of, le16, Int.to_u16. cbn [map].
  rewrite (Z.mod_small (u8 lo + 256 * u8 hi)) by lia.
  replace ((u8 lo + 256 * u8 hi) mod 256) with (u8 lo)
    by (apply (Z.mod_unique _ _ (u8 hi)); lia).
  replace ((u8 lo + 256 * u8 hi) / 256) with (u8 hi)
    by (apply (Z.div_unique _ _ _ (u8 lo)); lia).
  rewrite !byte_of_Z_u8. reflexivity.
Qed.

Lemma le16_to_s16 (z : Z) : le16 (Int.to_s16 z) = le16 z.
Proof. unfold le16. rewrite to_u16_to_s16. reflexivity. Qed.

Lemma le16_to_u16 (z : Z) : le16 (Int.to_u16 z) = le16 z.
Proof.
  unfold le16, Int.to_u16. rewrite Z.mod_mod by lia. reflexivity.
Qed.

(** X21.  The set-parameter request stores its payload without loss: after
    a declined request with the set-parameter code and six payload bytes,
    the little-endian encodings of the stored X offset, Y offset and mode
    are the payload's byte pairs again, the transfer is not stalled by the
    device, and the stored values lie in the ranges of [s16] and [u16]. *)
Theorem set_parameter_payload_roundtrip (h : Host) (p : USBPacket)
  (request value index length : Z) (b0 b1 b2 b3 b4 b5 : Byte.byte)
  (rest : list Byte.byte) (s : GunCon2State) :
  declined h p request value index length (b0 :: b1 :: b2 :: b3 :: b4 :: b5 :: rest) ->
  is_set_parameter h request ->
  exists s' log,
    guncon2_handle_control h p request value index length
      (b0 :: b1 :: b2 :: b3 :: b4 :: b5 :: rest) s
    = Some (s',
            snd (usb_desc_handle_control h p request value index length
                   (b0 :: b1 :: b2 :: b3 :: b4 :: b5 :: rest)),
            log)
    /\ bytes_of (le16 (param_x (saved s')) ++ le16 (param_y (saved s'))
                 ++ le16 (param_mode (saved s')))
       = [b0; b1; b2; b3; b4; b5]
    /\ -32768 <= param_x (saved s') <= 32767
    /\ -32768 <= param_y (saved s') <= 32767
    /\ 0 <= param_mode (saved s') < 65536.
Proof.
  intros Hdec Hset.
  destruct (guncon2_handle_control_declined h p request value index length
              (b0 :: b1 :: b2 :: b3 :: b4 :: b5 :: rest) s Hdec) as (log & H).
  cbv zeta in H. unfold is_set_parameter in Hset.
  rewrite <- Hset, Z.eqb_refl in H. cbn [nth_error obind] in H.
  eexists _, _. split; [exact H|].
  cbn [set_params with_saved saved param_x param_y param_mode].
  split.
  - rewrite !le16_to_s16, le16_to_u16. unfold bytes_of. rewrite !map_app.
    fold (bytes_of (le16 (Z.lor (u8 b0) (Z.shiftl (u8 b1) 8)))).
    fold (bytes_of (le16 (Z.lor (u8 b2) (Z.shiftl (u8 b3) 8)))).
    fold (bytes_of (le16 (Z.lor (u8 b4) (Z.shiftl (u8 b5) 8)))).
    rewrite !le16_of_bytes. reflexivity.
  - split; [apply to_s16_range|]. split; [apply to_s16_range|apply to_u16_range].
Qed.

Lemma set_parameter_payload_roundtrip_witness :
  exists s' log,
    guncon2_handle_control (example_host "SLUS-20219" (F32.half, F32.half))
      (mkPacket USB_TOKEN_OUT 0 USB_RET_SUCCESS []) 0x2109 0 0 6
      [Byte.x10; Byte.x00; Byte.xf0; Byte.xff; Byte.x00; Byte.x01] (fresh 0)
    = Some (s', mkPacket USB_TOKEN_OUT 0 USB_RET_SUCCESS [], log)
    /\ bytes_of (le16 (param_x (saved s')) ++ le16 (param_y (saved s'))
                 ++ le16 (param_mode (saved s')))
       = [Byte.x10; Byte.x00; Byte.xf0; Byte.xff; Byte.x00; Byte.x01].
Proof.
  destruct (set_parameter_payload_roundtrip
              (example_host "SLUS-20219" (F32.half, F32.half))
              (mkPacket USB_TOKEN_OUT 0 USB_RET_SUCCESS []) 0x2109 0 0 6
              Byte.x10 Byte.x00 Byte.xf0 Byte.xff Byte.x00 Byte.x01 [] (fresh 0))
    as (s' & log & H & Hb & _).
  - unfold declined. cbn. lia.
  - reflexivity.
  - exists s', log. split; [exact H|exact Hb].
Defined.

(** X22.  Device creation.  It fails exactly when one of the two
    descriptor parses reports an error.  Otherwise the new device sits on
    the requested port with every saved field zero, no button held, the
    [calibrated] latch open and no profile selection done; its geometry is
    what the settings store holds; it owns a raw gun exactly when a device
    node could be opened, and takes the gun's axis ranges only when both
    range queries succeed. *)
Theorem CreateDevice_result (si : SettingsInterface) (port_ : Z)
  (uninit : Z * Z * Z * Z) (fd : Z) (absx absy : option (Z * Z))
  (parse_dev parse_config : Z) :
  (parse_dev < 0 \/ parse_config < 0 ->
   CreateDevice si port_ uninit fd absx absy parse_dev parse_config = None)
  /\ (0 <= parse_dev -> 0 <= parse_config ->
      exists s,
        CreateDevice si port_ uninit fd absx absy parse_dev parse_config = Some s
        /\ port s = port_
        /\ saved s = mkSavedState 0 0 0 0 0 0 false
        /\ button_state (host s) = 0
        /\ calibrated (cfg s) = false
        /\ profile_of s = settings_profile si
        /\ custom_config (cfg s) = GetConfigBool si "custom_config" false
        /\ udev_fd (udev s) = fd
        /\ udev_has s = negb (fd =? -1)
        /\ wf_state s
        /\ (forall minx maxx miny maxy,
              fd <> -1 -> absx = Some (minx, maxx) -> absy = Some (miny, maxy) ->
              udev_gunMinx (udev s) = minx /\ udev_gunMaxx (udev s) = maxx
              /\ udev_gunMiny (udev s) = miny /\ udev_gunMaxy (udev s) = maxy)
        /\ (fd = -1 \/ absx = None \/ absy = None ->
            (udev_gunMinx (udev s), udev_gunMiny (udev s),
             udev_gunMaxx (udev s), udev_gunMaxy (udev s)) = uninit)).
Proof.
  destruct uninit as [[[a b] c] d]. unfold CreateDevice. split.
  - intros [H|H].
    + destruct (Z.ltb_spec parse_dev 0); [reflexivity|lia].
    + destruct (parse_dev <? 0); [reflexivity|].
      destruct (Z.ltb_spec parse_config 0); [reflexivity|lia].
  - intros Hd Hc.
    destruct (Z.ltb_spec parse_dev 0); [lia|].
    destruct (Z.ltb_spec parse_config 0); [lia|].
    eexists. split; [reflexivity|].
    assert (Hwf : wf_state (udev_open_gun fd absx absy (GunCon2State_new port_ a b c d))).
    { apply (wf_state_parts (GunCon2State_new port_ a b c d));
        [apply GunCon2State_new_wf| | | |];
        unfold udev_open_gun, udev_configure_gun;
        destruct (negb (fd =? -1)); try reflexivity;
        destruct absx as [[? ?]|]; try reflexivity;
        destruct absy as [[? ?]|]; reflexivity. }
    assert (Hfd : udev_fd (udev (UpdateSettings si
                    (udev_open_gun fd absx absy (GunCon2State_new port_ a b c d)))) = fd).
    { unfold udev_open_gun, udev_configure_gun.
      destruct (negb (fd =? -1)); [|reflexivity].
      destruct absx as [[? ?]|]; [|reflexivity].
      destruct absy as [[? ?]|]; reflexivity. }
    unfold udev_has. rewrite Hfd.
    repeat match goal with |- _ /\ _ => split end;
      try (unfold udev_open_gun, udev_configure_gun;
           destruct (negb (fd =? -1)); [|reflexivity];
           destruct absx as [[? ?]|]; [|reflexivity];
           destruct absy as [[? ?]|]; reflexivity).
    + apply UpdateSettings_wf. exact Hwf.
    + intros minx maxx miny maxy Hne -> ->.
      unfold udev_open_gun, udev_configure_gun.
      destruct (Z.eqb_spec fd (-1)); [contradiction|]. cbn. repeat split.
    + intros [->|[->| ->]]; unfold udev_open_gun, udev_configure_gun.
      * reflexivity.
      * destruct (negb (fd =? -1)); reflexivity.
      * destruct (negb (fd =? -1)); [|reflexivity].
        destruct absx as [[? ?]|]; reflexivity.
Qed.

Lemma CreateDevice_result_witness :
  CreateDevice far_centre_settings 1 (0, 0, 0, 0) 5 (Some (0, 1023)) None 0 (-1) = None
  /\ exists s,
       CreateDevice far_centre_settings 1 (0, 0, 0, 0) 5 (Some (0, 1023)) (Some (0, 767)) 0 0
       = Some s
       /\ profile_of s = settings_profile far_centre_settings
       /\ udev_gunMaxx (udev s) = 1023 /\ udev_gunMaxy (udev s) = 767.
Proof.
  split.
  - apply (CreateDevice_result far_centre_settings 1 (0, 0, 0, 0) 5
             (Some (0, 1023)) None 0 (-1)).
    right. lia.
  - destruct (proj2 (CreateDevice_result far_centre_settings 1 (0, 0, 0, 0) 5
                       (Some (0, 1023)) (Some (0, 767)) 0 0))
      as (s & H & _ & _ & _ & _ & Hp & _ & _ & _ & _ & Hr & _); [lia|lia|].
    exists s. split; [exact H|]. split; [exact Hp|].
    destruct (Hr 0 1023 0 767) as (_ & Hx & _ & Hy); [lia|reflexivity|reflexivity|].
    split; assumption.
Defined.

(** X23.  The split-screen aim adjustment is the identity unless split
    screen is detected, the active title is one of the four two-player
    Time Crisis releases, and the device sits on port 0 or 1; the mapper
    then works on the pointer sample as it is. *)
Theorem splitscreen_adjustment_identity (s : GunCon2State) (p : float * float) :
  splitscreen_activated (split s) = false
  \/ (active_game (split s) <> "SLUS-20219" /\ active_game (split s) <> "SCES-50300"
      /\ active_game (split s) <> "SCES-51844" /\ active_game (split s) <> "SLUS-20645")
  \/ (port s <> 0 /\ port s <> 1) ->
  CalculatePosition_splitscreen s p = p
  /\ (forall h, CalculatePosition h s
                = CalculatePosition_map s (fst (CalculatePosition_pointer h s))
                    (snd (CalculatePosition_pointer h s))).
Proof.
  intros H.
  assert (E : forall q, CalculatePosition_splitscreen s q = q).
  { intros q. unfold CalculatePosition_splitscreen.
    destruct H as [H|[(H1 & H2 & H3 & H4)|(H0 & H1)]].
    - rewrite H, andb_false_r. reflexivity.
    - apply String.eqb_neq in H1, H2, H3, H4. rewrite H1, H2, H3, H4. reflexivity.
    - apply Z.eqb_neq in H0, H1. rewrite H0, H1. unfold when.
      destruct (_ && _); [|reflexivity].
      repeat match goal with |- context [if ?b then _ else _] => destruct b end;
        reflexivity. }
  split; [apply E|].
  intros h. unfold CalculatePosition. rewrite E.
  destruct (CalculatePosition_pointer h s); reflexivity.
Qed.

Lemma splitscreen_adjustment_identity_witness :
  CalculatePosition_splitscreen
    (with_split (mkSplitScreenState "SLUS-20219" true) (fresh 2)) (F32.half, F32.half)
  = (F32.half, F32.half).
Proof.
  apply (splitscreen_adjustment_identity
           (with_split (mkSplitScreenState "SLUS-20219" true) (fresh 2))
           (F32.half, F32.half)).
  right. right. cbn. lia.
Defined.

(* ================================================================== *)
(** ** Device-node names *)

Lemma common_prefix_refl (x : string) : drop (common_prefix x x) x = "".
Proof.
  induction x as [|a x IH]; [reflexivity|].
  cbn [common_prefix]. rewrite Ascii.eqb_refl. exact IH.
Qed.

Lemma common_prefix_sym (x : string) : forall y, common_prefix x y = common_prefix y x.
Proof.
  induction x as [|a x IH]; intros [|b y]; try reflexivity.
  cbn [common_prefix]. rewrite (Ascii.eqb_sym b a).
  destruct (Ascii.eqb a b); [f_equal; apply IH|reflexivity].
Qed.

Lemma strcmp_refl (x : string) : strcmp x x = 0.
Proof.
  induction x as [|a x IH]; [reflexivity|].
  cbn [strcmp]. rewrite Ascii.eqb_refl. exact IH.
Qed.

Lemma strcmp_antisym (x : string) : forall y, strcmp y x = - strcmp x y.
Proof.
  induction x as [|a x IH]; intros [|b y]; cbn [strcmp]; try lia.
  rewrite (Ascii.eqb_sym b a).
  destruct (Ascii.eqb a b); [apply IH|lia].
Qed.

(** X24.  The comparator of device-node names is reflexive and
    antisymmetric in sign: a name compares equal to itself, and exchanging
    the two names turns a defined negative answer into a positive one and
    back, and keeps a zero.  Where both names end in a number after their
    common prefix the answer is -1, 0 or 1. *)
Theorem event_strcmp_events_antisymmetric (x y : string) :
  event_strcmp_events x x = Some 0
  /\ (forall r, event_strcmp_events x y = Some r ->
                exists r', event_strcmp_events y x = Some r'
                           /\ Z.sgn r' = - Z.sgn r)
  /\ (forall r, event_strcmp_events x y = Some r ->
                event_isNumber (drop (common_prefix x y) x) = 1 ->
                event_isNumber (drop (common_prefix x y) y) = 1 ->
                r = -1 \/ r = 0 \/ r = 1).
Proof.
  split; [|split].
  - unfold event_strcmp_events. rewrite common_prefix_refl.
    cbn. rewrite strcmp_refl. reflexivity.
  - intros r. unfold event_strcmp_events.
    rewrite (common_prefix_sym y x).
    rewrite (andb_comm (negb (event_isNumber (drop (common_prefix x y) y) =? 0))).
    destruct (negb (event_isNumber (drop (common_prefix x y) x) =? 0)
              && negb (event_isNumber (drop (common_prefix x y) y) =? 0)).
    + destruct (atoi (drop (common_prefix x y) x)) as [a|]; cbn [obind]; [|discriminate].
      destruct (atoi (drop (common_prefix x y) y)) as [b|]; cbn [obind]; [|discriminate].
      intros [= <-]. eexists. split; [reflexivity|].
      destruct (Z.eqb_spec a b), (Z.eqb_spec b a), (Z.ltb_spec a b), (Z.ltb_spec b a);
        try lia; reflexivity.
    + intros [= <-]. eexists. split; [reflexivity|].
      rewrite (strcmp_antisym x y). apply Z.sgn_opp.
  - intros r H Hx Hy. unfold event_strcmp_events in H. rewrite Hx, Hy in H.
    cbn [Z.eqb negb andb] in H.
    destruct (atoi (drop (common_prefix x y) x)) as [a|]; cbn [obind] in H; [|discriminate].
    destruct (atoi (drop (common_prefix x y) y)) as [b|]; cbn [obind] in H; [|discriminate].
    injection H as <-. destruct (a =? b); [tauto|]. destruct (a <? b); tauto.
Qed.

Lemma event_strcmp_events_antisymmetric_witness :
  exists r', event_strcmp_events "/dev/input/mouse0" "/dev/input/event1" = Some r'
             /\ Z.sgn r' = - Z.sgn (-8).
Proof.
  apply (proj1 (proj2 (event_strcmp_events_antisymmetric
                         "/dev/input/event1" "/dev/input/mouse0"))).
  vm_compute. reflexivity.
Defined.

(** X25.  The comparator is not an ordering.  The common prefix it strips
    may end inside the numbers, so "event100" sorts before "event19"
    (suffixes "00" and "9"), although "event19" sorts before "event20" and
    "event20" before "event100": the three names form a cycle, and the
    comparator is not transitive. *)
Theorem event_strcmp_events_not_transitive :
  event_strcmp_events "/dev/input/event100" "/dev/input/event19" = Some (-1)
  /\ event_strcmp_events "/dev/input/event19" "/dev/input/event20" = Some (-1)
  /\ event_strcmp_events "/dev/input/event20" "/dev/input/event100" = Some (-1)
  /\ ~ (forall x y z,
          event_strcmp_events x y = Some (-1) ->
          event_strcmp_events y z = Some (-1) ->
          event_strcmp_events x z = Some (-1)).
Proof.
  assert (H1 : event_strcmp_events "/dev/input/event100" "/dev/input/event19" = Some (-1))
    by (vm_compute; reflexivity).
  assert (H2 : event_strcmp_events "/dev/input/event19" "/dev/input/event20" = Some (-1))
    by (vm_compute; reflexivity).
  assert (H3 : event_strcmp_events "/dev/input/event20" "/dev/input/event100" = Some (-1))
    by (vm_compute; reflexivity).
  repeat split; try assumption.
  intros Htrans.
  pose proof (Htrans _ _ _ H1 H2) as H13.
  assert (H31 : event_strcmp_events "/dev/input/event100" "/dev/input/event20" = Some 1)
    by (vm_compute; reflexivity).
  rewrite H31 in H13. discriminate.
Qed.

Lemma all_digits_range (s : string) :
  all_digits s = true
  <-> forall c, In c (list_ascii_of_string s) -> (48 <= nat_of_ascii c <= 57)%nat.
Proof.
  induction s as [|a s IH]; cbn [all_digits list_ascii_of_string].
  - split; [intros _ c []|reflexivity].
  - rewrite andb_true_iff, IH. split.
    + intros [Ha Hs] c [<-|Hc]; [|apply Hs, Hc].
      unfold is_digit in Ha. rewrite !orb_true_iff in Ha.
      repeat (destruct Ha as [Ha|Ha]); apply Ascii.eqb_eq in Ha; subst a; cbn; lia.
    + intros H. split; [|intros c Hc; apply H; right; exact Hc].
      specialize (H a (or_introl eq_refl)).
      rewrite <- (ascii_nat_embedding a).
      revert H. generalize (nat_of_ascii a). intros k [Hlo Hhi].
      do 48 (destruct k as [|k]; [lia|]).
      do 10 (destruct k as [|k]; [reflexivity|]). lia.
Qed.

(** X26.  [event_isNumber] answers 1 exactly for the non-empty strings
    made of the bytes '0' to '9' only, and 0 for every other string. *)
Theorem event_isNumber_digits (s : string) :
  (event_isNumber s = 1
   <-> s <> ""
       /\ forall c, In c (list_ascii_of_string s) -> (48 <= nat_of_ascii c <= 57)%nat)
  /\ (event_isNumber s = 0 \/ event_isNumber s = 1).
Proof.
  unfold event_isNumber. rewrite <- all_digits_range.
  destruct s as [|a s].
  - split; [|left; reflexivity].
    split; [discriminate|intros [H _]; now elim H].
  - cbn [String.length]. replace (Z.of_nat (S (String.length s)) =? 0) with false
      by (symmetry; apply Z.eqb_neq; lia).
    destruct (all_digits (String a s)).
    + split; [|right; reflexivity]. split; [intros _; split; [discriminate|reflexivity]
                                           |reflexivity].
    + split; [|left; reflexivity]. split; [discriminate|intros [_ H]; discriminate H].
Qed.

(* ================================================================== *)
(** ** Split-screen detection threads *)

Lemma aspect_eqb_eq (a b : AspectRatioType) : aspect_eqb a b = true <-> a = b.
Proof.
  destruct a as [|m], b as [|n]; cbn [aspect_eqb]; split; try congruence.
  - intros H. apply Z.eqb_eq in H. congruence.
  - intros [= ->]. apply Z.eqb_refl.
Qed.

Lemma aspect_eqb_refl (a : AspectRatioType) : aspect_eqb a a = true.
Proof. apply aspect_eqb_eq. reflexivity. Qed.

Lemma F32_eqb_refl (x : float) : not_nan x -> F32.eqb x x = true.
Proof.
  unfold F32.eqb, SFeqb, SFcompare. destruct x as [s|s| |s m e]; cbn [not_nan].
  - reflexivity.
  - destruct s; reflexivity.
  - intros [].
  - intros _. destruct s; rewrite Z.compare_refl, Pos.compare_cont_refl; reflexivity.
Qed.

(** The device after the detection: [splitscreen_activated] rewritten from
    the title's address, or the device as it was. *)
Lemma threadOutputs_detect_spec (memRead8 : Z -> Z) (s : GunCon2State) :
  threadOutputs_detect memRead8 s
  = match splitscreen_flag_address (active_game (split s)) with
    | Some a => set_splitscreen_activated (memRead8 a =? 1) s
    | None => s
    end.
Proof.
  destruct s as [po c ho sa [g act] u].
  unfold threadOutputs_detect, splitscreen_flag_address, set_splitscreen_activated.
  cbn -[Z.eqb String.eqb].
  destruct (String.eqb_spec g "SCES-50300") as [->|E1]; [reflexivity|].
  cbn -[Z.eqb String.eqb].
  destruct (String.eqb_spec g "SLUS-20219") as [->|E2]; [reflexivity|].
  cbn -[Z.eqb String.eqb].
  destruct (String.eqb_spec g "SCES-51844") as [->|E3]; [reflexivity|].
  cbn -[Z.eqb String.eqb].
  destruct (String.eqb_spec g "SLUS-20645") as [->|E4]; reflexivity.
Qed.

Lemma threadOutputs_detect_idem (memRead8 : Z -> Z) (s : GunCon2State) :
  threadOutputs_detect memRead8 (threadOutputs_detect memRead8 s)
  = threadOutputs_detect memRead8 s.
Proof.
  rewrite (threadOutputs_detect_spec memRead8 s).
  destruct (splitscreen_flag_address (active_game (split s))) as [a|] eqn:E;
    rewrite threadOutputs_detect_spec.
  - change (active_game (split (set_splitscreen_activated (memRead8 a =? 1) s)))
      with (active_game (split s)).
    rewrite E. reflexivity.
  - rewrite E. reflexivity.
Qed.

(** X27.  One pass of the output thread writes nothing of the device but
    [splitscreen_activated], and that only for the four two-player Time
    Crisis releases, each from its own address of the emulated memory: the
    flag becomes "the byte there is 1"; for every other title the device
    is left exactly as it was. *)
Theorem threadOutputs_detection (memRead8 : Z -> Z) (t : ThreadState)
  (s : GunCon2State) (disp : DisplayConfig) :
  let s' := fst (fst (threadOutputs_body memRead8 t s disp)) in
  port s' = port s /\ cfg s' = cfg s /\ host s' = host s /\ saved s' = saved s
  /\ udev s' = udev s /\ active_game (split s') = active_game (split s)
  /\ splitscreen_activated (split s')
     = match splitscreen_flag_address (active_game (split s)) with
       | Some a => memRead8 a =? 1
       | None => splitscreen_activated (split s)
       end
  /\ (splitscreen_flag_address (active_game (split s)) = None -> s' = s).
Proof.
  unfold threadOutputs_body.
  destruct (threadOutputs_display t (threadOutputs_detect memRead8 s) disp) as [d ev].
  cbn [fst]. rewrite threadOutputs_detect_spec.
  destruct (splitscreen_flag_address (active_game (split s))) as [a|].
  - repeat split. discriminate.
  - repeat split.
Qed.

Lemma threadOutputs_detection_witness :
  fst (fst (threadOutputs_body (fun _ => 1) (mkThreadState false true R16_9 F32.zero)
              (set_active_game "SLES-50930" (fresh 0)) (mkDisplay R16_9 F32.zero)))
  = set_active_game "SLES-50930" (fresh 0).
Proof.
  destruct (threadOutputs_detection (fun _ => 1) (mkThreadState false true R16_9 F32.zero)
              (set_active_game "SLES-50930" (fresh 0)) (mkDisplay R16_9 F32.zero))
    as (_ & _ & _ & _ & _ & _ & _ & H).
  apply H. reflexivity.
Defined.

Lemma stretch_66_not_100 : F32.eqb (F32.of_Z 66) (F32.of_Z 100) = false.
Proof. vm_compute. reflexivity. Qed.

Lemma threadOutputs_display_stable (t : ThreadState) (s : GunCon2State)
  (disp : DisplayConfig) :
  not_nan (initialStretch t) ->
  threadOutputs_display t s (fst (threadOutputs_display t s disp))
  = (fst (threadOutputs_display t s disp), []).
Proof.
  intros Hnan. destruct disp as [ar st]. unfold threadOutputs_display.
  cbn [CurrentAspectRatio StretchY].
  destruct (splitscreen_activated (split s) && split_screen_hack (cfg s)).
  - destruct (aspect_eqb ar R16_9) eqn:Ea;
      destruct (split_screen_full_stretch (cfg s));
      destruct (F32.eqb st (F32.of_Z 100)) eqn:Es;
      repeat (progress (cbn -[F32.eqb F32.of_Z aspect_eqb]
                        || rewrite ?Ea, ?Es, ?stretch_66_not_100, ?aspect_eqb_refl));
      reflexivity.
  - destruct (aspect_eqb ar (initialRatio t)) eqn:Ea;
      destruct (F32.eqb st (initialStretch t)) eqn:Es;
      repeat (progress (cbn -[F32.eqb F32.of_Z aspect_eqb]
                        || rewrite ?Ea, ?Es, ?aspect_eqb_refl, ?(F32_eqb_refl _ Hnan)));
      reflexivity.
Qed.

Lemma threadOutputs_display_events (t : ThreadState) (s : GunCon2State)
  (disp : DisplayConfig) :
  (List.length (snd (threadOutputs_display t s disp)) <= 1)%nat.
Proof.
  unfold threadOutputs_display.
  destruct (_ && split_screen_hack (cfg s)).
  - destruct (negb (aspect_eqb _ R16_9)); destruct (negb _ && F32.eqb _ _); cbn; lia.
  - destruct (negb _ || negb _); cbn; lia.
Qed.

Lemma threadOutputs_display_target (t : ThreadState) (s : GunCon2State)
  (disp : DisplayConfig) :
  not_nan (initialStretch t) ->
  let d1 := fst (threadOutputs_display t s disp) in
  (split_display_on s = true ->
   CurrentAspectRatio d1 = R16_9
   /\ (split_screen_full_stretch (cfg s) = false ->
       F32.eqb (StretchY d1) (F32.of_Z 100) = false))
  /\ (split_display_on s = false ->
      CurrentAspectRatio d1 = initialRatio t
      /\ F32.eqb (StretchY d1) (initialStretch t) = true).
Proof.
  intros Hnan. destruct disp as [ar st].
  unfold threadOutputs_display, split_display_on.
  cbn [CurrentAspectRatio StretchY].
  destruct (splitscreen_activated (split s) && split_screen_hack (cfg s)).
  - split; [intros _|discriminate].
    destruct (aspect_eqb ar R16_9) eqn:Ea;
      [apply aspect_eqb_eq in Ea; subst ar|];
      destruct (split_screen_full_stretch (cfg s));
      destruct (F32.eqb st (F32.of_Z 100)) eqn:Es;
      repeat (progress (cbn -[F32.eqb F32.of_Z aspect_eqb]
                        || rewrite ?Ea, ?Es, ?aspect_eqb_refl));
      (split; [reflexivity|]); intros E; try discriminate E;
      assumption || apply stretch_66_not_100.
  - split; [discriminate|intros _].
    destruct (aspect_eqb ar (initialRatio t)) eqn:Ea;
      destruct (F32.eqb st (initialStretch t)) eqn:Es;
      repeat (progress (cbn -[F32.eqb F32.of_Z aspect_eqb] || rewrite ?Ea, ?Es));
      try (split; [reflexivity|apply (F32_eqb_refl _ Hnan)]).
    apply aspect_eqb_eq in Ea. split; [assumption|assumption || reflexivity].
Qed.

(** X28.  The display switch of the output thread settles in one pass.
    A pass sends the F10 key press at most once; provided the stretch found
    at thread start is a number, a second pass over the same memory changes
    nothing and sends nothing; while forced split-screen display is on, the
    pass leaves the aspect ratio at 16:9 and (unless full stretch is
    requested) the stretch away from 100; and while it is off, the pass
    leaves the display settings at the values found at thread start. *)
Theorem threadOutputs_settles (memRead8 : Z -> Z) (t : ThreadState)
  (s : GunCon2State) (disp : DisplayConfig) :
  not_nan (initialStretch t) ->
  let r := threadOutputs_body memRead8 t s disp in
  let s1 := fst (fst r) in
  let d1 := snd (fst r) in
  (List.length (snd r) <= 1)%nat
  /\ threadOutputs_body memRead8 t s1 d1 = (s1, d1, [])
  /\ (split_display_on s1 = true ->
      CurrentAspectRatio d1 = R16_9
      /\ (split_screen_full_stretch (cfg s1) = false ->
          F32.eqb (StretchY d1) (F32.of_Z 100) = false))
  /\ (split_display_on s1 = false ->
      CurrentAspectRatio d1 = initialRatio t
      /\ F32.eqb (StretchY d1) (initialStretch t) = true).
Proof.
  intros Hnan. cbv zeta. unfold threadOutputs_body.
  pose proof (threadOutputs_display_events t (threadOutputs_detect memRead8 s) disp) as Hev.
  pose proof (threadOutputs_display_stable t (threadOutputs_detect memRead8 s) disp Hnan)
    as Hst.
  pose proof (threadOutputs_display_target t (threadOutputs_detect memRead8 s) disp Hnan)
    as Htg.
  cbv zeta in Htg.
  destruct (threadOutputs_display t (threadOutputs_detect memRead8 s) disp) as [d ev].
  cbn [fst snd] in *.
  split; [exact Hev|]. split; [|exact Htg].
  rewrite threadOutputs_detect_idem, Hst. reflexivity.
Qed.

Lemma threadOutputs_settles_witness :
  let t := mkThreadState false true (AspectOther 2) (F32.of_Z 100) in
  let s := with_cfg (mkConfiguration false false true false 640 240
                       (F32.of_Z 320) (F32.of_Z 120) (F32.of_Z 1) (F32.of_Z 1) false)
             (set_active_game "SLUS-20219" (fresh 0)) in
  threadOutputs_body (fun _ => 1) t s (mkDisplay (AspectOther 2) (F32.of_Z 100))
  = (set_splitscreen_activated true s, mkDisplay R16_9 (F32.of_Z 66), [EvPressF10])
  /\ threadOutputs_body (fun _ => 1) t (set_splitscreen_activated true s)
       (mkDisplay R16_9 (F32.of_Z 66))
     = (set_splitscreen_activated true s, mkDisplay R16_9 (F32.of_Z 66), []).
Proof.
  cbv zeta. split; [vm_compute; reflexivity|].
  apply (threadOutputs_settles (fun _ => 1)
           (mkThreadState false true (AspectOther 2) (F32.of_Z 100))
           (with_cfg (mkConfiguration false false true false 640 240
                        (F32.of_Z 320) (F32.of_Z 120) (F32.of_Z 1) (F32.of_Z 1) false)
              (set_active_game "SLUS-20219" (fresh 0)))
           (mkDisplay (AspectOther 2) (F32.of_Z 100))).
  vm_compute. exact I.
Defined.

Lemma threadAutoConfigure_loop_spawn (samples : list AutoSample) :
  forall (i : Z) (s' : GunCon2State) (ev : list ThreadEvent),
    0 <= i <= 50 ->
    threadAutoConfigure_loop samples i = (AutoSpawned s', ev) ->
    exists (n : nat) (x : AutoSample),
      nth_error samples n = Some x
      /\ 50 - i <= Z.of_nat n
      /\ spawning_sample x
      /\ s' = set_active_game (a_GetDiscSerial x) (a_device x)
      /\ List.length (filter (fun e => match e with EvSpawnOutputs => true | _ => false end)
                        ev) = 1%nat.
Proof.
  induction samples as [|x rest IH]; intros i s' ev Hi H; [discriminate|].
  cbn [threadAutoConfigure_loop] in H.
  destruct (a_threadOutputLoaded x) eqn:El; [discriminate|]. cbn [Bool.eqb negb] in H.
  destruct (a_quitThread x) eqn:Eq; [discriminate|].
  destruct (Z.ltb_spec i 50) as [Hlt|Hge].
  - destruct (IH (i + 1) s' ev ltac:(lia) H) as (n & y & Hn & Hb & Hy).
    exists (S n), y. split; [exact Hn|]. split; [lia|exact Hy].
  - destruct (String.eqb_spec (a_GetDiscSerial x) "") as [Es|Es]; cbn [negb andb] in H.
    + destruct (threadAutoConfigure_loop rest i) as [o ev'] eqn:E.
      injection H as -> <-.
      destruct (IH i s' ev' Hi E) as (n & y & Hn & Hb & Hy & Hs & Hc).
      exists (S n), y. split; [exact Hn|]. split; [lia|].
           split; [exact Hy|]. split; [exact Hs|exact Hc].
    + destruct (String.eqb_spec (active_game (split (a_device x))) "") as [Eg|Eg];
        cbn [andb] in H.
      * destruct (a_HasValidVM x) eqn:Ev.
        -- injection H as <- <-. exists O, x.
           split; [reflexivity|]. split; [lia|].
           split; [repeat split; assumption|]. split; reflexivity.
        -- destruct (threadAutoConfigure_loop rest i) as [o ev'] eqn:E.
           injection H as -> <-.
           destruct (IH i s' ev' Hi E) as (n & y & Hn & Hb & Hy & Hs & Hc).
           exists (S n), y. split; [exact Hn|]. split; [lia|].
           split; [exact Hy|]. split; [exact Hs|exact Hc].
      * destruct (threadAutoConfigure_loop rest i) as [o ev'] eqn:E.
        injection H as -> <-.
        destruct (IH i s' ev' Hi E) as (n & y & Hn & Hb & Hy & Hs & Hc).
        exists (S n), y. split; [exact Hn|]. split; [lia|].
           split; [exact Hy|]. split; [exact Hs|exact Hc].
Qed.

(** X29.  The output thread is started late and once.  When
    [threadAutoConfigure] starts it, this happens on the 51st pass of the
    loop at the earliest (each earlier pass ends in a sleep of 100 ms), on a
    pass that finds a VM up, a non-empty disc serial and no active title on
    the device; the only write to the device is the serial stored as its
    active title; and the thread is started exactly once. *)
Theorem threadAutoConfigure_spawn (samples : list AutoSample)
  (s' : GunCon2State) (ev : list ThreadEvent) :
  threadAutoConfigure samples = (AutoSpawned s', ev) ->
  exists (n : nat) (x : AutoSample),
    nth_error samples n = Some x
    /\ (50 <= n)%nat
    /\ spawning_sample x
    /\ s' = set_active_game (a_GetDiscSerial x) (a_device x)
    /\ List.length (filter (fun e => match e with EvSpawnOutputs => true | _ => false end)
                      ev) = 1%nat.
Proof.
  intros H. unfold threadAutoConfigure in H.
  destruct (threadAutoConfigure_loop_spawn samples 0 s' ev ltac:(lia) H)
    as (n & x & Hn & Hb & Hrest).
  exists n, x. split; [exact Hn|]. split; [lia|exact Hrest].
Qed.

Lemma threadAutoConfigure_spawn_witness :
  exists (n : nat) (x : AutoSample),
    nth_error (repeat (mkAutoSample false false "SLUS-20219" true (fresh 0)) 51) n = Some x
    /\ (50 <= n)%nat
    /\ spawning_sample x.
Proof.
  destruct (threadAutoConfigure_spawn
              (repeat (mkAutoSample false false "SLUS-20219" true (fresh 0)) 51)
              (set_active_game "SLUS-20219" (fresh 0))
              [EvThreadLoadInit; EvSpawnOutputs])
    as (n & x & Hn & Hb & Hx & _).
  - vm_compute. reflexivity.
  - exists n, x. split; [exact Hn|]. split; [exact Hb|exact Hx].
Defined.

(** X30.  The output thread stays quiet until split-screen display gets
    forced: with the display settings recorded at thread start still in
    place, a pass on a device that is not in forced split-screen display
    mode leaves the settings alone and sends no key press.  Starting the
    thread also raises [threadOutputLoaded], on which the loop of
    [threadAutoConfigure] ends without starting a second one. *)
Theorem threadOutputs_quiet_until_split (memRead8 : Z -> Z) (t : ThreadState)
  (s : GunCon2State) (disp : DisplayConfig) (samples : list AutoSample)
  (x : AutoSample) :
  not_nan (StretchY disp) ->
  split_display_on (threadOutputs_detect memRead8 s) = false ->
  a_threadOutputLoaded x = threadOutputLoaded (fst (threadOutputs_begin disp t)) ->
  threadOutputs_body memRead8 (fst (threadOutputs_begin disp t)) s disp
  = (threadOutputs_detect memRead8 s, disp, [])
  /\ threadAutoConfigure (x :: samples) = (AutoReturned, []).
Proof.
  intros Hnan Hoff Hx. split.
  - unfold threadOutputs_body, threadOutputs_display.
    unfold split_display_on in Hoff. rewrite Hoff.
    cbn [threadOutputs_begin fst initialRatio initialStretch].
    rewrite aspect_eqb_refl, (F32_eqb_refl _ Hnan). reflexivity.
  - unfold threadAutoConfigure. cbn [threadAutoConfigure_loop].
    rewrite Hx. reflexivity.
Qed.

Lemma threadOutputs_quiet_until_split_witness :
  threadOutputs_body (fun _ => 0)
    (fst (threadOutputs_begin (mkDisplay (AspectOther 2) (F32.of_Z 100))
            (mkThreadState false false R16_9 F32.zero)))
    (set_active_game "SLUS-20219" (fresh 0)) (mkDisplay (AspectOther 2) (F32.of_Z 100))
  = (threadOutputs_detect (fun _ => 0) (set_active_game "SLUS-20219" (fresh 0)),
     mkDisplay (AspectOther 2) (F32.of_Z 100), [])
  /\ threadAutoConfigure [mkAutoSample true false "SLUS-20219" true (fresh 0)]
     = (AutoReturned, []).
Proof.
  apply (threadOutputs_quiet_until_split (fun _ => 0)
           (mkThreadState false false R16_9 F32.zero)
           (set_active_game "SLUS-20219" (fresh 0))
           (mkDisplay (AspectOther 2) (F32.of_Z 100)) []
           (mkAutoSample true false "SLUS-20219" true (fresh 0))).
  - vm_compute. exact I.
  - vm_compute. reflexivity.
  - reflexivity.
Defined.
